(** * xml2h5: the HDF5/JSON validator, hierarchy walker and UUID rewriter

    A shallow embedding of [util.py]: [check_shape], [check_type],
    [validate_h5json], [order_objs] and [substitute_uuids], and with them
    [h5json_to_db], [merge_dicts], [h5dtype_name], [is_dimscale],
    [is_dimlist] and [random_string], over a model of the JSON values these
    functions receive, with Python's exceptions as an error monad.

    The source is Python 2 with NumPy.  Values are what [json.load] returns:
    [None], booleans, integers, reals, strings, lists and dicts with string
    keys.  Every subscript, [in] test and [len] of the source is taken
    through a primitive that raises what Python raises on a value of the
    wrong kind, so the functions are defined on every JSON value and not
    only on well-formed descriptions.  Recursive functions whose recursion
    is not structural ([check_type], [tree_walker]) take the depth they may
    reach as fuel and raise the interpreter's RuntimeError beyond it.
    [substitute_uuids] updates its argument in place: it is embedded as a
    function from the contents of the dicts before the call to their
    contents after it. *)

From Stdlib Require Import List String Ascii ZArith QArith Qabs Bool Lia
  Permutation.
Import ListNotations.

Set Warnings "-register-all".

Local Open Scope string_scope.
Local Open Scope list_scope.
Local Open Scope Z_scope.

(** ** JSON values as Python sees them after [json.load]

    A dict is an association list read through the first binding of a key;
    a JSON real is carried by its exact (rational) value. *)

Inductive json : Type :=
| JNull
| JBool (b : bool)
| JInt (z : Z)
| JReal (q : Q)
| JStr (s : string)
| JList (l : list json)
| JObj (d : list (string * json)).

(** ** Exceptions and the error monad *)

Inductive exn : Type :=
| KeyError
| ValueError
| TypeError
| NotImplementedError
| UnboundLocalError
| AttributeError
| IndexError
| RuntimeError.

(** [Raise e msg]: the exception class and the source's format string (the
    [%] substitution is not performed, and the double quotes some messages
    carry are left out). *)
Inductive result (A : Type) : Type :=
| Ok (a : A)
| Raise (e : exn) (msg : string).

Arguments Ok {A} a.
Arguments Raise {A} e msg.

Definition bind {A B : Type} (c : result A) (k : A -> result B) : result B :=
  match c with
  | Ok a => k a
  | Raise e msg => Raise e msg
  end.

Notation "x <- c1 ;; c2" := (bind c1 (fun x => c2))
  (at level 61, c1 at next level, right associativity).
Notation "c1 ;; c2" := (bind c1 (fun _ => c2))
  (at level 61, right associativity).

(** A [for] loop whose body may raise: the first exception ends the loop. *)
Fixpoint for_each {A : Type} (body : A -> result unit) (l : list A)
  : result unit :=
  match l with
  | [] => Ok tt
  | x :: l' => body x ;; for_each body l'
  end.

(** [for i, x in enumerate(l, start)]. *)
Fixpoint for_enumerate {A : Type} (body : nat -> A -> result unit)
         (start : nat) (l : list A) : result unit :=
  match l with
  | [] => Ok tt
  | x :: l' => body start x ;; for_enumerate body (S start) l'
  end.

(** ** Python primitives on JSON values *)

Fixpoint jget (k : string) (d : list (string * json)) : option json :=
  match d with
  | [] => None
  | (k', v) :: d' => if String.eqb k k' then Some v else jget k d'
  end.

(** [d[k] = v] on a dict: the binding of [k] is replaced where it stands, or
    added at the end. *)
Fixpoint jset (k : string) (v : json) (d : list (string * json))
  : list (string * json) :=
  match d with
  | [] => [(k, v)]
  | (k', v') :: d' =>
      if String.eqb k k' then (k', v) :: d' else (k', v') :: jset k v d'
  end.

(** [isinstance(j, numbers.Integral)]: [int], [long] and [bool]. *)
Definition as_integral (j : json) : option Z :=
  match j with
  | JInt z => Some z
  | JBool b => Some (Z.b2z b)
  | _ => None
  end.

(** [isinstance(j, numbers.Real)], with the value. *)
Definition as_real (j : json) : option Q :=
  match j with
  | JInt z => Some (inject_Z z)
  | JBool b => Some (inject_Z (Z.b2z b))
  | JReal q => Some q
  | _ => None
  end.

(** [isinstance(j, basestring)]. *)
Definition is_basestring (j : json) : bool :=
  match j with JStr _ => true | _ => false end.

(** [type(j) is list]. *)
Definition is_list (j : json) : bool :=
  match j with JList _ => true | _ => false end.

(** Python's [==] on decoded JSON: numbers (and booleans) by value, strings,
    lists element by element, dicts key by key. *)
Fixpoint py_eq (a b : json) {struct a} : bool :=
  match a, b with
  | JNull, JNull => true
  | JStr s, JStr t => String.eqb s t
  | JList l, JList m =>
      (fix all2 (l m : list json) : bool :=
         match l, m with
         | [], [] => true
         | x :: l', y :: m' => py_eq x y && all2 l' m'
         | _, _ => false
         end) l m
  | JObj d, JObj e =>
      Nat.eqb (List.length d) (List.length e) &&
      (fix every (d : list (string * json)) : bool :=
         match d with
         | [] => true
         | (k, v) :: d' =>
             match jget k e with
             | Some w => py_eq v w
             | None => false
             end && every d'
         end) d
  | _, _ =>
      match as_real a, as_real b with
      | Some x, Some y => Qeq_bool x y
      | _, _ => false
      end
  end.

(** [j == s] and [j in (s1, s2, ...)] for string constants. *)
Definition str_in (j : json) (choices : list string) : bool :=
  existsb (fun s => py_eq j (JStr s)) choices.

Definition is_substring (k s : string) : bool :=
  match index 0 k s with Some _ => true | None => false end.

(** [k in c] for a string [k]: key of a dict, element of a list, substring
    of a string; anything else is not iterable. *)
Definition py_contains (k : string) (c : json) : result bool :=
  match c with
  | JObj d => Ok (match jget k d with Some _ => true | None => false end)
  | JList l => Ok (existsb (fun x => py_eq x (JStr k)) l)
  | JStr s => Ok (is_substring k s)
  | _ => Raise TypeError "argument is not iterable"
  end.

(** [c[k]] for a string [k]. *)
Definition py_getitem (c : json) (k : string) : result json :=
  match c with
  | JObj d =>
      match jget k d with
      | Some v => Ok v
      | None => Raise KeyError k
      end
  | JList _ => Raise TypeError "list indices must be integers, not str"
  | JStr _ => Raise TypeError "string indices must be integers, not str"
  | _ => Raise TypeError "object has no attribute '__getitem__'"
  end.

(** [c.get(k, default)]. *)
Definition py_get (c : json) (k : string) (default : json) : result json :=
  match c with
  | JObj d =>
      match jget k d with
      | Some v => Ok v
      | None => Ok default
      end
  | _ => Raise AttributeError "object has no attribute 'get'"
  end.

(** [len(j)]. *)
Definition py_len (j : json) : result nat :=
  match j with
  | JList l => Ok (List.length l)
  | JObj d => Ok (List.length d)
  | JStr s => Ok (String.length s)
  | _ => Raise TypeError "object has no len()"
  end.

(** [l[i]] on a list. *)
Definition py_index (l : list json) (i : nat) : result json :=
  match nth_error l i with
  | Some v => Ok v
  | None => Raise IndexError "list index out of range"
  end.

(** ** [check_shape] *)

(** [np.iinfo(np.uint64).max]; the comparisons with it are taken on the
    integers. *)
Definition uint64_max : Z := 18446744073709551615.

Definition check_shape_rank (shape : json) (k : string) : result unit :=
  v <- py_getitem shape k ;;
  match v with
  | JList l =>
      let rank := Z.of_nat (List.length l) in
      if negb ((0 <? rank) && (rank <=? 32))
      then Raise ValueError "Dataspace %s: Invalid rank: %d"
      else Ok tt
  | _ => Raise TypeError "Dataspace %s must be a list"
  end.

Definition check_shape_dim (i : nat) (d : json) : result unit :=
  match as_integral d with
  | None => Raise TypeError "Dataspace dims: Dimension #%d: Must be integer: %s"
  | Some z =>
      if (z <? 0) || (z >? uint64_max)
      then Raise ValueError "Dataspace dims: Dimension #%d: Size out of range: %s"
      else Ok tt
  end.

Definition check_shape_maxdim (dims : list json) (i : nat) (d : json)
  : result unit :=
  match as_integral d with
  | Some z =>
      if (z <=? 0) || (z >=? uint64_max)
      then Raise ValueError "Dataspace maxdims: Dimension size out of range: %d"
      else
        di <- py_index dims i ;;
        match as_integral di with
        | Some zi =>
            if zi >? z
            then Raise ValueError "Dimension #%d: dims greater than maxdims"
            else Ok tt
        | None => Raise TypeError "unorderable"
        end
  | None =>
      if is_basestring d && negb (py_eq d (JStr "H5S_UNLIMITED"))
      then Raise ValueError
             "Dataspace maxdims: Unlimited dimension size value invalid: %s"
      else Ok tt
  end.

Definition as_list (j : json) : result (list json) :=
  match j with
  | JList l => Ok l
  | _ => Raise TypeError "not a list"
  end.

Definition check_shape (shape : json) : result unit :=
  has_class <- py_contains "class" shape ;;
  (if has_class : bool then
     cls <- py_getitem shape "class" ;;
     if negb (str_in cls ["H5S_NULL"; "H5S_SCALAR"; "H5S_SIMPLE"])
     then Raise ValueError "%s: Invalid dataspace class"
     else Ok tt
   else Raise KeyError "Dataspace class missing") ;;
  cls <- py_getitem shape "class" ;;
  if py_eq cls (JStr "H5S_SIMPLE") then
    has_dims <- py_contains "dims" shape ;;
    (if has_dims : bool then Ok tt
     else Raise KeyError "Missing dataspace dims information") ;;
    has_maxdims <- py_contains "maxdims" shape ;;
    let keys := "dims" :: (if has_maxdims : bool then ["maxdims"] else []) in
    for_each (check_shape_rank shape) keys ;;
    dimsv <- py_getitem shape "dims" ;;
    dims <- as_list dimsv ;;
    for_enumerate check_shape_dim 1 dims ;;
    if has_maxdims : bool then
      maxdimsv <- py_getitem shape "maxdims" ;;
      maxdims <- as_list maxdimsv ;;
      (if negb (Nat.eqb (List.length dims) (List.length maxdims))
       then Raise ValueError "Dataspace dims and maxdims not of same rank"
       else Ok tt) ;;
      for_enumerate (check_shape_maxdim dims) 0 maxdims
    else Ok tt
  else
    has_dims <- py_contains "dims" shape ;;
    has_maxdims <- py_contains "maxdims" shape ;;
    if (has_dims : bool) || has_maxdims
    then Raise KeyError "dims and maxdims not allowed for %s dataspace"
    else Ok tt.

Definition simple_shape (dims maxdims : list json) : json :=
  JObj [("class", JStr "H5S_SIMPLE"); ("dims", JList dims);
        ("maxdims", JList maxdims)].

(** ** [numpy_dtype] and [check_type] *)

Inductive dtype : Type := i1 | u1 | i2 | u2 | i4 | u4 | i8 | u8 | f4 | f8.

Definition conv_map : list (string * dtype) :=
  [("H5T_STD_I8", i1); ("H5T_STD_U8", u1);
   ("H5T_STD_I16", i2); ("H5T_STD_U16", u2);
   ("H5T_STD_I32", i4); ("H5T_STD_U32", u4);
   ("H5T_STD_I64", i8); ("H5T_STD_U64", u8);
   ("H5T_IEEE_F32", f4); ("H5T_IEEE_F64", f8)].

Fixpoint conv_map_get (k : string) (m : list (string * dtype)) : option dtype :=
  match m with
  | [] => None
  | (k', v) :: m' => if String.eqb k k' then Some v else conv_map_get k m'
  end.

(** [s[:-2]]. *)
Definition drop_last2 (s : string) : string :=
  substring 0 (String.length s - 2) s.

Definition numpy_dtype (h5type : json) : result dtype :=
  match h5type with
  | JStr s =>
      match conv_map_get (drop_last2 s) conv_map with
      | Some d => Ok d
      | None => Raise ValueError "%s: Invalid predefined datatype"
      end
  | JList _ | JObj _ => Raise TypeError "unhashable type"
  | _ => Raise TypeError "object has no attribute '__getitem__'"
  end.

Definition _check_atomic_type (t : json) : result unit :=
  tcls <- py_getitem t "class" ;;
  if py_eq tcls (JStr "H5T_STRING") then
    for_each (fun k =>
                has_k <- py_contains k t ;;
                if has_k : bool then Ok tt
                else Raise KeyError "Missing %s string information")
             ["charSet"; "length"; "strPad"] ;;
    charSet <- py_getitem t "charSet" ;;
    (if negb (str_in charSet ["H5T_CSET_ASCII"; "H5T_CSET_UTF8"])
     then Raise ValueError "%s: Invalid string character set"
     else Ok tt) ;;
    strPad <- py_getitem t "strPad" ;;
    (if negb (str_in strPad
                ["H5T_STR_NULLTERM"; "H5T_STR_NULLPAD"; "H5T_STR_SPACEPAD"])
     then Raise ValueError "%s: Invalid string padding"
     else Ok tt) ;;
    len <- py_getitem t "length" ;;
    if negb (py_eq len (JStr "H5T_VARIABLE")) &&
       negb (match as_integral len with
             | Some z => z >? 0
             | None => false
             end)
    then Raise ValueError "%s: Invalid string length value"
    else Ok tt
  else if str_in tcls ["H5T_INTEGER"; "H5T_FLOAT"] then
    has_base <- py_contains "base" t ;;
    (if has_base : bool then Ok tt
     else Raise KeyError "H5T_FLOAT/H5T_INTEGER predefined datatype missing") ;;
    base <- py_getitem t "base" ;;
    numpy_dtype base ;;
    Ok tt
  else if py_eq tcls (JStr "H5T_REFERENCE") then
    has_base <- py_contains "base" t ;;
    if has_base : bool then
      base <- py_getitem t "base" ;;
      if negb (str_in base ["H5T_STD_REF_OBJ"; "H5T_STD_REF_DSETREG"])
      then Raise ValueError "%s: Invalid reference type"
      else Ok tt
    else Raise KeyError "Datatype reference base missing"
  else Raise NotImplementedError "%s: HDF5 datatype not supported yet".

(** [[f(x) for x in l]] where [f] may raise. *)
Fixpoint map_m {A B : Type} (f : A -> result B) (l : list A)
  : result (list B) :=
  match l with
  | [] => Ok []
  | x :: l' => y <- f x ;; ys <- map_m f l' ;; Ok (y :: ys)
  end.

(** [l.count(x)]. *)
Definition py_count (l : list json) (x : json) : nat :=
  List.length (filter (fun y => py_eq y x) l).

Definition check_array_dim (k : nat) (d : json) : result unit :=
  match as_integral d with
  | None => Raise TypeError "H5T_ARRAY dimension #%d: Must be integer: %s"
  | Some z =>
      if z <=? 0
      then Raise ValueError
             "H5T_ARRAY dimension #%d: Dimension size must be positive: %s"
      else Ok tt
  end.

(** The nesting depth of a value: the recursion of [check_type] descends one
    level of it at each call. *)
Fixpoint json_depth (j : json) : nat :=
  match j with
  | JList l => S (fold_right (fun x n => Nat.max (json_depth x) n) O l)
  | JObj d =>
      S ((fix members (d : list (string * json)) : nat :=
            match d with
            | [] => O
            | (_, v) :: d' => Nat.max (json_depth v) (members d')
            end) d)
  | _ => O
  end.

(** [check_type], with the depth of the recursion bounded by [fuel]. *)
Fixpoint check_type_rec (fuel : nat) (t : json) : result unit :=
  match fuel with
  | O => Raise RuntimeError "maximum recursion depth exceeded"
  | S fuel' =>
      has_class <- py_contains "class" t ;;
      (if has_class : bool then Ok tt
       else Raise KeyError "Datatype class missing") ;;
      tcls <- py_getitem t "class" ;;
      if py_eq tcls (JStr "H5T_COMPOUND") then
        has_fields <- py_contains "fields" t ;;
        (if has_fields : bool then Ok tt
         else Raise KeyError "Missing compound datatype member list") ;;
        fields <- py_getitem t "fields" ;;
        match fields with
        | JList fs =>
            (if Nat.eqb (List.length fs) 0
             then Raise ValueError
                    "Compound datatype must have at least one member"
             else Ok tt) ;;
            fld_names <-
              map_m (fun f =>
                       has_name <- py_contains "name" f ;;
                       (if has_name : bool then Ok tt
                        else Raise KeyError "Missing compound member name") ;;
                       name <- py_getitem f "name" ;;
                       n <- py_len name ;;
                       (if Nat.eqb n 0
                        then Raise ValueError
                               "Empty name for a compound member"
                        else Ok tt) ;;
                       has_type <- py_contains "type" f ;;
                       (if has_type : bool then Ok tt
                        else Raise KeyError
                               "Compound member %s missing datatype") ;;
                       ftype <- py_getitem f "type" ;;
                       check_type_rec fuel' ftype ;;
                       Ok name) fs ;;
            for_each (fun f =>
                        if Nat.ltb 1 (py_count fld_names f)
                        then Raise ValueError
                               "%s: Compound member name is not unique"
                        else Ok tt) fld_names
        | _ => Raise TypeError "Compound datatype members must be in a list"
        end
      else if py_eq tcls (JStr "H5T_VLEN") then
        has_base <- py_contains "base" t ;;
        (if has_base : bool then Ok tt
         else Raise KeyError "H5T_VLEN datatype base missing") ;;
        base <- py_getitem t "base" ;;
        check_type_rec fuel' base
      else if py_eq tcls (JStr "H5T_ARRAY") then
        has_dims <- py_contains "dims" t ;;
        (if has_dims : bool then Ok tt
         else Raise KeyError "H5T_ARRAY dimensions missing") ;;
        dims <- py_getitem t "dims" ;;
        match dims with
        | JList ds =>
            let rank := Z.of_nat (List.length ds) in
            (if negb ((0 <? rank) && (rank <=? 32))
             then Raise ValueError "Invalid H5T_ARRAY rank: %d"
             else Ok tt) ;;
            for_enumerate check_array_dim 0 ds ;;
            has_base <- py_contains "base" t ;;
            (if has_base : bool then Ok tt
             else Raise KeyError "H5T_ARRAY datatype base missing") ;;
            base <- py_getitem t "base" ;;
            check_type_rec fuel' base
        | _ => Raise TypeError "H5T_ARRAY dimensions must be in a list"
        end
      else _check_atomic_type t
  end.

(** Every recursive call is on a member of [t], so [json_depth t] levels
    (and one for the call itself) are enough. *)
Definition check_type (t : json) : result unit :=
  check_type_rec (S (json_depth t)) t.

Definition atomic_type (cls base : string) : json :=
  JObj [("class", JStr cls); ("base", JStr base)].

(** ** [value_check_factory] and [value_check] *)

(** [np.iinfo(dtype).min] and [.max]; a floating-point dtype is refused. *)
Definition iinfo (d : dtype) : result (Z * Z) :=
  match d with
  | i1 => Ok (- 2 ^ 7, 2 ^ 7 - 1)
  | u1 => Ok (0, 2 ^ 8 - 1)
  | i2 => Ok (- 2 ^ 15, 2 ^ 15 - 1)
  | u2 => Ok (0, 2 ^ 16 - 1)
  | i4 => Ok (- 2 ^ 31, 2 ^ 31 - 1)
  | u4 => Ok (0, 2 ^ 32 - 1)
  | i8 => Ok (- 2 ^ 63, 2 ^ 63 - 1)
  | u8 => Ok (0, 2 ^ 64 - 1)
  | f4 | f8 => Raise ValueError "Invalid integer data type"
  end.

(** [np.finfo(dtype).max] ([.min] is its opposite); an integer dtype is
    refused. *)
Definition finfo_max (d : dtype) : result Q :=
  match d with
  | f4 => Ok (inject_Z ((2 ^ 24 - 1) * 2 ^ 104))
  | f8 => Ok (inject_Z ((2 ^ 53 - 1) * 2 ^ 971))
  | _ => Raise ValueError "data type not inexact"
  end.

(** [np.allclose([a], [b], rtol=1.e-8)], that is
    [|a - b| <= atol + rtol * |b|] with the default [atol = 1e-8]; the
    arithmetic is taken on the rationals (NumPy rounds to binary64). *)
Definition allclose (a b : Q) : bool :=
  Qle_bool (Qabs (a - b)) ((1 # 100000000) + (1 # 100000000) * Qabs b)%Q.

Definition Qlt_bool (a b : Q) : bool := negb (Qle_bool b a).

Definition check_string (v : json) : result unit :=
  if is_basestring v then Ok tt
  else Raise TypeError "%s: Value datatype error: Not a string.".

Definition check_integer (minval maxval : Z) (v : json) : result unit :=
  match as_integral v with
  | None => Raise TypeError "%s: Value datatype error: Not an integer."
  | Some z =>
      if (z <? minval) || (z >? maxval)
      then Raise ValueError "%s: Value out of range for %s datatype"
      else Ok tt
  end.

(** [np.allclose([a], [v], rtol=1.e-8)] for a number [v] of Python: an
    integer outside the 64-bit types makes [[v]] an array of objects, on
    which [np.allclose] raises TypeError. *)
Definition np_allclose (a : Q) (v : json) : result bool :=
  match v with
  | JInt z =>
      if (z <? - 2 ^ 63) || (2 ^ 64 - 1 <? z)
      then Raise TypeError "ufunc 'isfinite' not supported for the input types"
      else Ok (allclose a (inject_Z z))
  | JBool b => Ok (allclose a (inject_Z (Z.b2z b)))
  | JReal q => Ok (allclose a q)
  | _ => Raise TypeError "ufunc 'isfinite' not supported for the input types"
  end.

(** [x and not np.allclose(...)]: the second operand is evaluated only when
    the first is true. *)
Definition and_not_close (x : bool) (a : Q) (v : json) : result bool :=
  if x then close <- np_allclose a v ;; Ok (negb close) else Ok false.

Definition check_real (minval maxval : Q) (v : json) : result unit :=
  match as_real v with
  | None => Raise TypeError "%s: Value datatype error: Not a float."
  | Some q =>
      below <- and_not_close (Qlt_bool q minval) minval v ;;
      out <- (if below : bool then Ok true
              else and_not_close (Qlt_bool maxval q) maxval v) ;;
      if out : bool
      then Raise ValueError "%s: Value out of range for %s datatype"
      else Ok tt
  end.

Definition check_pass (v : json) : result unit := Ok tt.

(** The factory returns the checking function itself, as the source returns
    a closure. *)
Definition value_check_factory (cls base : json)
  : result (json -> result unit) :=
  if py_eq cls (JStr "H5T_STRING") then Ok check_string
  else if py_eq cls (JStr "H5T_INTEGER") then
    dt <- numpy_dtype base ;;
    range <- iinfo dt ;;
    Ok (check_integer (fst range) (snd range))
  else if py_eq cls (JStr "H5T_FLOAT") then
    dt <- numpy_dtype base ;;
    maxval <- finfo_max dt ;;
    Ok (check_real (- maxval)%Q maxval)
  else if str_in cls ["H5T_VLEN"; "H5T_COMPOUND"] then Ok check_pass
  else Raise NotImplementedError "%s: HDF5 datatype class is not supported.".

(** One element of the iteration of [value_check]: a list is walked in turn,
    anything else is given to [cond]. *)
Fixpoint value_check_item (cond : json -> result unit) (n : json)
  : result unit :=
  match n with
  | JList l => for_each (value_check_item cond) l
  | _ => cond n
  end.

(** [value_check(iter_, cond)]; every call site passes a list. *)
Definition value_check (iter_ : list json) (cond : json -> result unit)
  : result unit :=
  for_each (value_check_item cond) iter_.

(** ** The shape NumPy finds for a nested list

    [np.asarray(v).shape]: the length of the list, then the dimensions every
    element agrees on. *)

Fixpoint common_prefix (a b : list nat) : list nat :=
  match a, b with
  | x :: a', y :: b' => if Nat.eqb x y then x :: common_prefix a' b' else []
  | _, _ => []
  end.

Definition common_shape (shapes : list (list nat)) : list nat :=
  match shapes with
  | [] => []
  | s :: rest => fold_left common_prefix rest s
  end.

Fixpoint np_shape (v : json) : list nat :=
  match v with
  | JList l => List.length l :: common_shape (map np_shape l)
  | _ => []
  end.

(** ** [validate_h5json]

    The function is one sequence of blocks, each opened by a comment in the
    source; every block is a definition here and [validate_h5json] runs them
    in the source's order. *)

(** [if reqd: for k in reqd: if k not in h5j: raise KeyError]. *)
Definition validate_required (h5j : json) (reqd : list string) : result unit :=
  for_each (fun k =>
              has_k <- py_contains k h5j ;;
              if has_k : bool then Ok tt
              else Raise KeyError "%s: Required but missing") reqd.

(** Dataspace check. *)
Definition validate_shape (h5j : json) : result unit :=
  has_shape <- py_contains "shape" h5j ;;
  if has_shape : bool then
    shape <- py_getitem h5j "shape" ;; check_shape shape
  else Ok tt.

(** Datatype check. *)
Definition validate_type (h5j : json) : result unit :=
  has_type <- py_contains "type" h5j ;;
  if has_type : bool then
    t <- py_getitem h5j "type" ;; check_type t
  else Ok tt.

(** The two branches on the dataspace class that bind the local [val]; a
    class that is neither leaves it unbound ([None]). *)
Definition bind_val (h5j : json) : result (option (list json)) :=
  shape <- py_getitem h5j "shape" ;;
  cls <- py_getitem shape "class" ;;
  if py_eq cls (JStr "H5S_SIMPLE") then
    value <- py_getitem h5j "value" ;;
    match value with
    | JList l =>
        dimsv <- py_getitem shape "dims" ;;
        dims <- as_list dimsv ;;
        if negb (py_eq (JList (map (fun n => JInt (Z.of_nat n)) (np_shape value)))
                       (JList dims))
        then Raise ValueError "Reported %s and actual %s shape mismatch"
        else Ok (Some l)
    | _ => Raise TypeError "Value(s) must be in a list for %s dataspace"
    end
  else if py_eq cls (JStr "H5S_SCALAR") then
    value <- py_getitem h5j "value" ;;
    if is_list value
    then Raise TypeError "Value cannot be in a list for %s dataspace"
    else Ok (Some [value])
  else Ok None.

(** [value_check_factory(h5j['type']['class'], h5j['type'].get('base', None))]. *)
Definition type_checker (h5j : json) : result (json -> result unit) :=
  t <- py_getitem h5j "type" ;;
  tcls <- py_getitem t "class" ;;
  base <- py_get t "base" JNull ;;
  value_check_factory tcls base.

(** Value check. *)
Definition validate_value (h5j : json) : result unit :=
  has_value <- py_contains "value" h5j ;;
  if has_value : bool then
    val <- bind_val h5j ;;
    cond <- type_checker h5j ;;
    match val with
    | Some l => value_check l cond
    | None =>
        Raise UnboundLocalError
              "local variable 'val' referenced before assignment"
    end
  else Ok tt.

(** Check name. *)
Definition validate_name (h5j : json) : result unit :=
  has_name <- py_contains "name" h5j ;;
  if has_name : bool then
    name <- py_getitem h5j "name" ;;
    match name with
    | JStr s =>
        if Nat.eqb (String.length s) 0
        then Raise ValueError "HDF5 object name is an empty string"
        else if is_substring "/" s
        then Raise ValueError "HDF5 object name contains / character"
        else Ok tt
    | _ => Raise TypeError "HDF5 object name must be a string"
    end
  else Ok tt.

Definition validate_name_encoding (cp : json) : result unit :=
  has_enc <- py_contains "nameCharEncoding" cp ;;
  if has_enc : bool then
    enc <- py_getitem cp "nameCharEncoding" ;;
    if negb (str_in enc ["H5T_CSET_UTF8"; "H5T_CSET_ASCII"])
    then Raise ValueError "%s: Invalid character encoding name"
    else Ok tt
  else Ok tt.

(** The body of [for d in cp['layout']['dims']]; the dimension is handed on
    for the product. *)
Definition check_chunk_dim (d : json) : result Z :=
  match as_integral d with
  | None => Raise TypeError "Chunking dimension %s must be integer"
  | Some z =>
      if negb ((0 <? z) && (z <=? 4294967295))
      then Raise ValueError
             "Chunk dimension value %d must be positive integer smaller than 2^32"
      else Ok z
  end.

(** A 64-bit signed integer of NumPy: arithmetic is modular and no overflow
    is reported. *)
Definition wrap_int64 (z : Z) : Z := (z + 2 ^ 63) mod 2 ^ 64 - 2 ^ 63.

(** [np.prod(dims)] for a list of Python integers, each of which fits 64
    bits: the list becomes an [int64] array and the product is taken in
    [int64]. *)
Definition np_prod (dims : list Z) : Z :=
  fold_left (fun acc d => wrap_int64 (acc * d)) dims 1.

(** [d < c] in Python 2 for [d] that is not a string and an integer [c]:
    numbers by value, [None] below everything, a list or a dict above every
    number. *)
Definition py2_lt_int (d : json) (c : Z) : bool :=
  match d with
  | JNull => true
  | _ =>
      match as_real d with
      | Some q => Qlt_bool q (inject_Z c)
      | None => false
      end
  end.

(** The body of [for n, d in enumerate(max_dims)]; the message is formatted
    with [%d], which refuses [None]. *)
Definition check_chunk_max (cdims : list json) (n : nat) (d : json)
  : result unit :=
  if is_basestring d then Ok tt
  else
    c <- py_index cdims n ;;
    match as_integral c with
    | Some cz =>
        if py2_lt_int d cz
        then
          match d with
          | JNull => Raise TypeError "%d format: a number is required, not NoneType"
          | _ => Raise ValueError "Chunking dim size %d greater than max size %d"
          end
        else Ok tt
    | None => Raise TypeError "unorderable"
    end.

(** Layout. *)
Definition validate_layout (h5j cp : json) : result unit :=
  has_layout <- py_contains "layout" cp ;;
  if has_layout : bool then
    layout <- py_getitem cp "layout" ;;
    has_class <- py_contains "class" layout ;;
    (if has_class : bool then Ok tt else Raise KeyError "Missing layout class") ;;
    lcls <- py_getitem layout "class" ;;
    (if negb (str_in lcls ["H5D_CONTIGUOUS"; "H5D_CHUNKED"; "H5D_COMPACT"])
     then Raise ValueError "%s: Invalid layout class"
     else Ok tt) ;;
    if py_eq lcls (JStr "H5D_CHUNKED") then
      has_dims <- py_contains "dims" layout ;;
      (if has_dims : bool then Ok tt
       else Raise KeyError "Missing chunking dimensions") ;;
      cdimsv <- py_getitem layout "dims" ;;
      match cdimsv with
      | JList cdims =>
          sizes <- map_m check_chunk_dim cdims ;;
          (if np_prod sizes >? 4294967295
           then Raise ValueError
                  "Number of elements in a chunk must be less than 2^32"
           else Ok tt) ;;
          shape <- py_getitem h5j "shape" ;;
          scls <- py_getitem shape "class" ;;
          if py_eq scls (JStr "H5S_SIMPLE") then
            sdims <- py_getitem shape "dims" ;;
            rank <- py_len sdims ;;
            (if negb (Nat.eqb rank (List.length cdims))
             then Raise ValueError "Chunk rank must be same as shape rank"
             else Ok tt) ;;
            max_dimsv <- py_get shape "maxdims" sdims ;;
            (* a list: the dataspace has passed [check_shape] *)
            max_dims <- as_list max_dimsv ;;
            for_enumerate (check_chunk_max cdims) 0 max_dims
          else Raise ValueError "%s: This dataspace cannot be chunked"
      | _ => Raise TypeError "Chunking dimensions must be a list"
      end
    else
      has_dims <- py_contains "dims" layout ;;
      if has_dims : bool
      then Raise KeyError "dims not allowed for layout class %s"
      else Ok tt
  else Ok tt.

(** [h5j['type']['class']]. *)
Definition type_class (h5j : json) : result json :=
  t <- py_getitem h5j "type" ;;
  py_getitem t "class".

(** The [H5Z_FILTER_SCALEOFFSET] branch of the filter loop. *)
Definition check_scaleoffset (h5j f : json) : result unit :=
  has_st <- py_contains "scaleType" f ;;
  (if has_st : bool then
     st <- py_getitem f "scaleType" ;;
     if negb (str_in st ["H5Z_SO_FLOAT_DSCALE"; "H5Z_SO_FLOAT_ESCALE";
                         "H5Z_SO_INT"])
     then Raise ValueError "Filter #%d invalid scale-offset filter type: %s"
     else Ok tt
   else Raise KeyError "Filter #%d missing scale type") ;;
  has_so <- py_contains "scaleOffset" f ;;
  (if has_so : bool then Ok tt
   else Raise KeyError "Filter #%d missing scale offset") ;;
  st <- py_getitem f "scaleType" ;;
  int_mismatch <-
    (if py_eq st (JStr "H5Z_SO_INT") then
       tcls <- type_class h5j ;; Ok (negb (py_eq tcls (JStr "H5T_INTEGER")))
     else Ok false) ;;
  (if int_mismatch : bool then
     Raise ValueError
           "%s: Scale-offset filter type only allowed for integer datatypes"
   else
     float_mismatch <-
       (if py_eq st (JStr "H5Z_SO_FLOAT_DSCALE") then
          tcls <- type_class h5j ;; Ok (negb (py_eq tcls (JStr "H5T_FLOAT")))
        else Ok false) ;;
     if float_mismatch : bool then
       Raise ValueError
             "%s: Scale-offset filter type only allowed for floating point datatypes"
     else if py_eq st (JStr "H5Z_SO_FLOAT_ESCALE") then
       Raise ValueError "%s: Scale-offset filter type not supported yet"
     else Ok tt) ;;
  so <- py_getitem f "scaleOffset" ;;
  match as_integral so with
  | None => Raise TypeError "%s: Scale offset value must be integer"
  | Some z =>
      if z <? 0
      then Raise ValueError "%d: Scale offset value cannot be negative"
      else Ok tt
  end.

(** The body of [for n, f in enumerate(fltrs)]. *)
Definition check_filter (h5j : json) (n : nat) (f : json) : result unit :=
  match f with
  | JObj _ =>
      has_class <- py_contains "class" f ;;
      (if has_class : bool then Ok tt
       else Raise KeyError "Filter #%d class missing") ;;
      has_id <- py_contains "id" f ;;
      (if has_id : bool then
         id <- py_getitem f "id" ;;
         match as_integral id with
         | None => Raise TypeError "Filter #%d id must be integer: %s"
         | Some z =>
             if z <=? 0
             then Raise ValueError "Filter #%d id must be positive: %d"
             else Ok tt
         end
       else Raise KeyError "Filter #%d id missing") ;;
      fcls <- py_getitem f "class" ;;
      if py_eq fcls (JStr "H5Z_FILTER_DEFLATE") then
        has_level <- py_contains "level" f ;;
        (if has_level : bool then Ok tt
         else Raise KeyError "Filter #%d missing deflate level") ;;
        level <- py_getitem f "level" ;;
        match as_integral level with
        | None => Raise TypeError "Filter #%d deflate level must be integer: %s"
        | Some z =>
            if negb ((0 <=? z) && (z <=? 9))
            then Raise ValueError "Filter #%d deflate level out of range: %d"
            else Ok tt
        end
      else if py_eq fcls (JStr "H5Z_FILTER_FLETCHER32") then Ok tt
      else if py_eq fcls (JStr "H5Z_FILTER_NBIT") then Ok tt
      else if py_eq fcls (JStr "H5Z_FILTER_SCALEOFFSET") then
        check_scaleoffset h5j f
      else if py_eq fcls (JStr "H5Z_FILTER_SHUFFLE") then Ok tt
      else if py_eq fcls (JStr "H5Z_FILTER_SZIP") then Ok tt
      else if py_eq fcls (JStr "H5Z_FILTER_USER") then
        has_par <- py_contains "parameters" f ;;
        if has_par : bool then Ok tt
        else Raise KeyError "Filter #%d user filter missing parameters"
      else Raise ValueError "%s: Invalid filter class"
  | _ => Raise TypeError "Filter #%d info not in a dict"
  end.

(** Filters. *)
Definition validate_filters (h5j cp : json) : result unit :=
  has_filters <- py_contains "filters" cp ;;
  if has_filters : bool then
    fltrsv <- py_getitem cp "filters" ;;
    match fltrsv with
    | JList fltrs =>
        has_layout <- py_contains "layout" cp ;;
        (if has_layout : bool then
           layout <- py_getitem cp "layout" ;;
           lcls <- py_getitem layout "class" ;;
           if negb (py_eq lcls (JStr "H5D_CHUNKED")) &&
              negb (Nat.eqb (List.length fltrs) 0)
           then Raise ValueError "Filters allowed only with chunked layout"
           else Ok tt
         else Ok tt) ;;
        for_enumerate (check_filter h5j) 0 fltrs ;;
        classes <- map_m (fun f => py_getitem f "class") fltrs ;;
        if existsb (fun c => py_eq c (JStr "H5Z_FILTER_SCALEOFFSET")) classes &&
           existsb (fun c => py_eq c (JStr "H5Z_FILTER_FLETCHER32")) classes
        then Raise ValueError
               "Scale-offset compression filter cannot be combined with the Fletcher32 checksum filter"
        else Ok tt
    | _ => Raise TypeError "Filters must be in a list"
    end
  else Ok tt.

(** fillValue. *)
Definition validate_fill_value (h5j cp : json) : result unit :=
  has_fill <- py_contains "fillValue" cp ;;
  if has_fill : bool then
    cond <- type_checker h5j ;;
    fill <- py_getitem cp "fillValue" ;;
    value_check [fill] cond
  else Ok tt.

(** Creation properties. *)
Definition validate_creation_properties (h5j : json) : result unit :=
  has_cp <- py_contains "creationProperties" h5j ;;
  if has_cp : bool then
    cp <- py_getitem h5j "creationProperties" ;;
    validate_name_encoding cp ;;
    validate_layout h5j cp ;;
    validate_filters h5j cp ;;
    validate_fill_value h5j cp
  else Ok tt.

Definition validate_h5json (h5j : json) (reqd : list string) : result unit :=
  validate_required h5j reqd ;;
  validate_shape h5j ;;
  validate_type h5j ;;
  validate_value h5j ;;
  validate_name h5j ;;
  validate_creation_properties h5j.

(** A dataset description: a simple dataspace without [maxdims], a 32-bit
    integer type and a chunked layout. *)
Definition chunked_dataset (dims chunks : list Z) : json :=
  JObj [("shape", JObj [("class", JStr "H5S_SIMPLE");
                        ("dims", JList (map JInt dims))]);
        ("type", atomic_type "H5T_INTEGER" "H5T_STD_I32LE");
        ("creationProperties",
         JObj [("layout", JObj [("class", JStr "H5D_CHUNKED");
                                ("dims", JList (map JInt chunks))])])].

(** ** [order_objs] *)

Notation "' pat <- c1 ;; c2" :=
  (bind c1 (fun x => match x with pat => c2 end))
  (at level 61, pat pattern, c1 at next level, right associativity).

(** [c[k]] for a key that is itself a decoded value: a dict is looked up
    (its keys are strings), a list or a string is indexed by an integer,
    negative indices counting from the end. *)
Definition py_getitem_key (c k : json) : result json :=
  match c with
  | JObj d =>
      match k with
      | JStr s =>
          match jget s d with
          | Some v => Ok v
          | None => Raise KeyError s
          end
      | JList _ | JObj _ => Raise TypeError "unhashable type"
      | _ => Raise KeyError "%s"
      end
  | JList l =>
      match as_integral k with
      | Some i =>
          let n := Z.of_nat (List.length l) in
          let j := if i <? 0 then i + n else i in
          if (j <? 0) || (n <=? j)
          then Raise IndexError "list index out of range"
          else py_index l (Z.to_nat j)
      | None => Raise TypeError "list indices must be integers"
      end
  | JStr s =>
      match as_integral k with
      | Some i =>
          let n := Z.of_nat (String.length s) in
          let j := if i <? 0 then i + n else i in
          if (j <? 0) || (n <=? j)
          then Raise IndexError "string index out of range"
          else Ok (JStr (substring (Z.to_nat j) 1 s))
      | None => Raise TypeError "string indices must be integers"
      end
  | _ => Raise TypeError "object has no attribute '__getitem__'"
  end.

Fixpoint chars (s : string) : list json :=
  match s with
  | EmptyString => []
  | String c s' => JStr (String c EmptyString) :: chars s'
  end.

(** What [for x in j] goes through. *)
Definition py_iter (j : json) : result (list json) :=
  match j with
  | JList l => Ok l
  | JObj d => Ok (map (fun kv => JStr (fst kv)) d)
  | JStr s => Ok (chars s)
  | _ => Raise TypeError "object is not iterable"
  end.

(** The elements of [l] that pass a test that may raise, in the order of
    [l]. *)
Fixpoint filter_m {A : Type} (test : A -> result bool) (l : list A)
  : result (list A) :=
  match l with
  | [] => Ok []
  | x :: l' =>
      keep <- test x ;;
      rest <- filter_m test l' ;;
      Ok (if keep : bool then x :: rest else rest)
  end.

Fixpoint fold_m {A S : Type} (step : S -> A -> result S) (l : list A) (s : S)
  : result S :=
  match l with
  | [] => Ok s
  | x :: l' => s' <- step s x ;; fold_m step l' s'
  end.

(** [posixpath.join(a, b)]. *)
Definition posixpath_join (a b : string) : string :=
  if prefix "/" b then b
  else if String.eqb a "" || String.eqb (substring (String.length a - 1) 1 a) "/"
  then (a ++ b)%string
  else (a ++ "/" ++ b)%string.

(** An entry of the result lists: the dict [{'id': ..., 'path': ...}]. *)
Record objinfo : Type := { oi_id : json; oi_path : string }.

Definition is_hard_link_to (collection : string) (l : json) : result bool :=
  cls <- py_getitem l "class" ;;
  if py_eq cls (JStr "H5L_TYPE_HARD") then
    coll <- py_getitem l "collection" ;;
    Ok (py_eq coll (JStr collection))
  else Ok false.

Definition _get_hard_links (h5j gid : json) (collection : string)
  : result (list json) :=
  groups <- py_getitem h5j "groups" ;;
  g <- py_getitem_key groups gid ;;
  linksv <- py_get g "links" (JList []) ;;
  links <- py_iter linksv ;;
  filter_m (is_hard_link_to collection) links.

(** [{'id': l['id'], 'path': pp.join(ginfo['path'], l['title'])}]. *)
Definition link_info (ginfo : objinfo) (l : json) : result objinfo :=
  id <- py_getitem l "id" ;;
  title <- py_getitem l "title" ;;
  match title with
  | JStr t => Ok {| oi_id := id; oi_path := posixpath_join (oi_path ginfo) t |}
  | _ => Raise AttributeError "object has no attribute 'startswith'"
  end.

(** [tree_walker], on the pair of the two lists it appends to; [fuel]
    bounds the depth of the recursion, as the interpreter's recursion limit
    does. *)
Fixpoint tree_walker (fuel : nat) (h5j : json) (ginfo : objinfo)
         (st : list objinfo * list objinfo)
  : result (list objinfo * list objinfo) :=
  match fuel with
  | O => Raise RuntimeError "maximum recursion depth exceeded"
  | S fuel' =>
      dlinks <- _get_hard_links h5j (oi_id ginfo) "datasets" ;;
      dinfos <- map_m (link_info ginfo) dlinks ;;
      let dsets := snd st ++ dinfos in
      glinks <- _get_hard_links h5j (oi_id ginfo) "groups" ;;
      chld_grps <- map_m (link_info ginfo) glinks ;;
      let grps := fst st ++ chld_grps in
      fold_m (fun st' cg => tree_walker fuel' h5j cg st') chld_grps
             (grps, dsets)
  end.

Definition order_objs (fuel : nat) (h5j : json) (otype : string)
  : result (list objinfo) :=
  has_root <- py_contains "root" h5j ;;
  (if has_root : bool then Ok tt else Raise KeyError "root key missing") ;;
  root <- py_getitem h5j "root" ;;
  let grps := [{| oi_id := root; oi_path := "/" |}] in
  st <- tree_walker fuel h5j {| oi_id := root; oi_path := "/" |} (grps, []) ;;
  Ok (if String.eqb otype "group" then fst st else snd st).

(** *** The orders to compare [order_objs] with *)

(** The child groups of a group, in link-declaration order. *)
Definition child_groups (h5j : json) (ginfo : objinfo) : result (list objinfo) :=
  glinks <- _get_hard_links h5j (oi_id ginfo) "groups" ;;
  map_m (link_info ginfo) glinks.

Definition child_datasets (h5j : json) (ginfo : objinfo)
  : result (list objinfo) :=
  dlinks <- _get_hard_links h5j (oi_id ginfo) "datasets" ;;
  map_m (link_info ginfo) dlinks.

(** Depth-first pre-order of the groups, as the specification words it: a
    group, then the walk of each of its child groups in turn. *)
Fixpoint preorder_groups (fuel : nat) (h5j : json) (ginfo : objinfo)
  : result (list objinfo) :=
  match fuel with
  | O => Raise RuntimeError "maximum recursion depth exceeded"
  | S fuel' =>
      children <- child_groups h5j ginfo ;;
      subs <- map_m (preorder_groups fuel' h5j) children ;;
      Ok (ginfo :: List.concat subs)
  end.

(** What follows a group in the list of groups: all its child groups, then
    what follows each of them in turn. *)
Fixpoint group_blocks (fuel : nat) (h5j : json) (ginfo : objinfo)
  : result (list objinfo) :=
  match fuel with
  | O => Raise RuntimeError "maximum recursion depth exceeded"
  | S fuel' =>
      children <- child_groups h5j ginfo ;;
      subs <- map_m (group_blocks fuel' h5j) children ;;
      Ok (children ++ List.concat subs)
  end.

(** The datasets in depth-first pre-order of their groups: those of a group,
    then those below each of its child groups in turn. *)
Fixpoint preorder_datasets (fuel : nat) (h5j : json) (ginfo : objinfo)
  : result (list objinfo) :=
  match fuel with
  | O => Raise RuntimeError "maximum recursion depth exceeded"
  | S fuel' =>
      own <- child_datasets h5j ginfo ;;
      children <- child_groups h5j ginfo ;;
      subs <- map_m (preorder_datasets fuel' h5j) children ;;
      Ok (own ++ List.concat subs)
  end.

(** A hierarchy of depth at most [n] below a group, every link of which can
    be read: no cycle is reachable from the group. *)
Fixpoint walkable (n : nat) (h5j : json) (ginfo : objinfo) : Prop :=
  match n with
  | O => False
  | S n' =>
      exists own children,
        child_datasets h5j ginfo = Ok own /\
        child_groups h5j ginfo = Ok children /\
        Forall (walkable n' h5j) children
  end.

(** A design file: the root identifier and the groups with their links. *)
Definition hard_link (collection id title : string) : json :=
  JObj [("class", JStr "H5L_TYPE_HARD"); ("collection", JStr collection);
        ("id", JStr id); ("title", JStr title)].

Definition group_with (links : list json) : json :=
  JObj [("links", JList links)].

(** / -> /a -> /a/b *)
Definition chain_design : json :=
  JObj [("root", JStr "root");
        ("groups",
         JObj [("root", group_with [hard_link "groups" "a" "a"]);
               ("a", group_with [hard_link "groups" "b" "b"]);
               ("b", group_with [])])].

(** / with the groups a and b, a with the group c. *)
Definition fork_design : json :=
  JObj [("root", JStr "root");
        ("groups",
         JObj [("root", group_with [hard_link "groups" "a" "a";
                                    hard_link "groups" "b" "b"]);
               ("a", group_with [hard_link "groups" "c" "c"]);
               ("b", group_with []);
               ("c", group_with [])])].

(** ** [substitute_uuids]

    The function updates the dicts of [objs] in place and returns the new
    root UUID.  The dicts come from the database, one per object, so no two
    entries of [objs] are the same dict: the store the function works on is
    the list of what the dicts hold, and the embedding returns what they
    hold afterwards next to the value the source returns. *)

(** [s.split('/')]. *)
Fixpoint split_slash (s : string) : list string :=
  match s with
  | EmptyString => [EmptyString]
  | String c s' =>
      if Ascii.eqb c "/"%char then EmptyString :: split_slash s'
      else
        match split_slash s' with
        | part :: parts => String c part :: parts
        | [] => [String c EmptyString]
        end
  end.

(** ['/'.join(parts)]. *)
Fixpoint join_slash (parts : list string) : string :=
  match parts with
  | [] => EmptyString
  | [part] => part
  | part :: parts' => (part ++ "/" ++ join_slash parts')%string
  end.

(** Can the value be a dict key? *)
Definition hashable (k : json) : bool :=
  match k with
  | JList _ | JObj _ => false
  | _ => true
  end.

Fixpoint lookup_key (k : json) (m : list (json * string)) : option string :=
  match m with
  | [] => None
  | (k', v) :: m' => if py_eq k' k then Some v else lookup_key k m'
  end.

(** [sub_uuid]: the entries of the [defaultdict] and the number of UUIDs
    drawn so far. *)
Record subst : Type := { known : list (json * string); drawn : nat }.

Definition empty_subst : subst := {| known := []; drawn := O |}.

Section Rewriter.

(** [uuid4 n]: what the [n]-th call of [str(uuid4())] returns. *)
Variable uuid4 : nat -> string.

(** [sub_uuid[k]]: the stored substitute, or a new UUID that is stored. *)
Definition sub_uuid_get (k : json) (s : subst) : result (string * subst) :=
  if hashable k then
    match lookup_key k (known s) with
    | Some v => Ok (v, s)
    | None =>
        let v := uuid4 (drawn s) in
        Ok (v, {| known := known s ++ [(k, v)]; drawn := S (drawn s) |})
    end
  else Raise TypeError "unhashable type".

Definition replace_uuid (val : json) (s : subst) : result (json * subst) :=
  match val with
  | JStr v =>
      if prefix "datasets/" v then
        match split_slash v with
        | p0 :: p1 :: rest =>
            '(n, s') <- sub_uuid_get (JStr p1) s ;;
            Ok (JStr (join_slash (p0 :: n :: rest)), s')
        | _ => Raise IndexError "list assignment index out of range"
        end
      else Ok (val, s)
  | _ => Ok (val, s)
  end.

(** What one position of the list being scrubbed holds afterwards: a
    nested list is scrubbed in place, anything else is replaced by
    [func(item)]. *)
Fixpoint scrub_item (item : json) (s : subst) {struct item}
  : result (json * subst) :=
  match item with
  | JList l =>
      '(l', s') <-
        (fix scrub_items (l : list json) (s : subst) {struct l}
           : result (list json * subst) :=
           match l with
           | [] => Ok ([], s)
           | x :: xs =>
               '(x', s1) <- scrub_item x s ;;
               '(xs', s2) <- scrub_items xs s1 ;;
               Ok (x' :: xs', s2)
           end) l s ;;
      Ok (JList l', s')
  | _ => replace_uuid item s
  end.

(** [scrub_value(val, replacer)]: an empty string or dict has nothing to
    go through; in a string no item can be assigned, a dict grows while it
    is iterated, and a number, a boolean or [None] cannot be iterated. *)
Definition scrub_value (val : json) (s : subst) : result (json * subst) :=
  match val with
  | JList _ => scrub_item val s
  | JStr EmptyString => Ok (val, s)
  | JStr _ => Raise TypeError "object does not support item assignment"
  | JObj [] => Ok (val, s)
  | JObj _ => Raise RuntimeError "dictionary changed size during iteration"
  | _ => Raise TypeError "object is not iterable"
  end.

(** [o[k] = v]. *)
Definition py_setitem (o : json) (k : string) (v : json) : result json :=
  match o with
  | JObj d => Ok (JObj (jset k v d))
  | JList _ => Raise TypeError "list indices must be integers, not str"
  | _ => Raise TypeError "object does not support item assignment"
  end.

(** The body of [for o in objs], on what [o] holds. *)
Definition substitute_obj (o : json) (s : subst) : result (json * subst) :=
  id <- py_getitem o "id" ;;
  '(new_id, s1) <- sub_uuid_get id s ;;
  o1 <- py_setitem o "id" (JStr new_id) ;;
  has_pid <- py_contains "_pid" o1 ;;
  '(o2, s2) <-
    (if has_pid : bool then
       pid <- py_getitem o1 "_pid" ;;
       '(new_pid, s2) <- sub_uuid_get pid s1 ;;
       o2 <- py_setitem o1 "_pid" (JStr new_pid) ;;
       Ok (o2, s2)
     else Ok (o1, s1)) ;;
  objtype <- py_getitem o2 "_objtype" ;;
  is_link_attr <-
    (if py_eq objtype (JStr "attribute") then
       name <- py_getitem o2 "name" ;;
       Ok (str_in name ["REFERENCE_LIST"; "DIMENSION_LIST"])
     else Ok false) ;;
  if is_link_attr : bool then
    has_value <- py_contains "value" o2 ;;
    if has_value : bool then
      value <- py_getitem o2 "value" ;;
      '(value', s3) <- scrub_value value s2 ;;
      o3 <- py_setitem o2 "value" value' ;;
      Ok (o3, s3)
    else Ok (o2, s2)
  else Ok (o2, s2).

Fixpoint substitute_objs (objs : list json) (s : subst)
  : result (list json * subst) :=
  match objs with
  | [] => Ok ([], s)
  | o :: objs' =>
      '(o', s1) <- substitute_obj o s ;;
      '(objs'', s2) <- substitute_objs objs' s1 ;;
      Ok (o' :: objs'', s2)
  end.

(** The run of [substitute_uuids]: what the dicts of [objs] hold at the
    end, the value returned, and [sub_uuid] at the end. *)
Definition substitute_uuids_run (objs : list json) (root_uuid : json)
  : result (list json * string * subst) :=
  '(_, s0) <- sub_uuid_get root_uuid empty_subst ;;
  '(objs', s1) <- substitute_objs objs s0 ;;
  '(new_root, s2) <- sub_uuid_get root_uuid s1 ;;
  Ok (objs', new_root, s2).

Definition substitute_uuids (objs : list json) (root_uuid : json)
  : result (list json * string) :=
  '(objs', new_root, _) <- substitute_uuids_run objs root_uuid ;;
  Ok (objs', new_root).

End Rewriter.

(** A generator to run the rewriter with: new-, new-x, new-xx, ... *)
Fixpoint xs (n : nat) : string :=
  match n with
  | O => EmptyString
  | S n' => String "x" (xs n')
  end.

Definition sample_uuid4 (n : nat) : string := ("new-" ++ xs n)%string.

(** The design of two objects: the root group G1 and the dataset D1 in it. *)
Definition two_objects : list json :=
  [JObj [("_objtype", JStr "group"); ("id", JStr "G1"); ("name", JStr "/")];
   JObj [("_objtype", JStr "dataset"); ("_pid", JStr "G1"); ("id", JStr "D1");
         ("name", JStr "data")]].

(** ** What the specification says, to compare the code with *)

(** The enumeration of predefined types of the specification: 8/16/32/64-bit
    integers and 32/64-bit floats, each with an endianness suffix. *)
Definition spec_predefined_bases : list string :=
  flat_map (fun kv => [(fst kv ++ "LE")%string; (fst kv ++ "BE")%string])
           conv_map.

(** The premise of the specification on a simple dataspace: as many
    [maxdims] as [dims], every numeric [maxdims] entry at least its [dims]
    entry, or the unlimited marker. *)
Definition spec_maxdim_covers (d m : json) : Prop :=
  m = JStr "H5S_UNLIMITED" \/
  exists zd zm, as_integral d = Some zd /\ as_integral m = Some zm /\ zd <= zm.

Definition spec_simple_premise (dims maxdims : list json) : Prop :=
  Forall2 spec_maxdim_covers dims maxdims.

(** [l[i] = v] on a list. *)
Fixpoint list_set {A : Type} (l : list A) (i : nat) (v : A) : list A :=
  match l, i with
  | [], _ => []
  | _ :: l', O => v :: l'
  | x :: l', S i' => x :: list_set l' i' v
  end.

(** The product of the chunk dimensions, on the integers. *)
Definition product (dims : list Z) : Z := fold_right Z.mul 1 dims.

(** What [check_shape] asks of a [dims] entry, and of a [maxdims] entry
    next to its [dims] entry. *)
Definition dim_in_range (d : json) : Prop :=
  exists z, as_integral d = Some z /\ 0 <= z <= uint64_max.

Definition maxdim_in_range (d m : json) : Prop :=
  m = JStr "H5S_UNLIMITED" \/
  (as_integral m = None /\ is_basestring m = false) \/
  exists zd zm,
    as_integral d = Some zd /\ as_integral m = Some zm /\
    0 < zm < uint64_max /\ zd <= zm.

(** [max_dims] of the layout check:
    [h5j['shape'].get('maxdims', h5j['shape']['dims'])]. *)
Definition effective_max_dims (shape : json) : result json :=
  sdims <- py_getitem shape "dims" ;;
  py_get shape "maxdims" sdims.

(** A filter entry to run the validator with. *)
Definition shuffle_filter : json :=
  JObj [("class", JStr "H5Z_FILTER_SHUFFLE"); ("id", JInt 2)].

Definition scaleoffset_filter (scale_type : string) : json :=
  JObj [("class", JStr "H5Z_FILTER_SCALEOFFSET"); ("id", JInt 6);
        ("scaleType", JStr scale_type); ("scaleOffset", JInt 2)].

(** A chunked dataset of 32-bit integers with a list of filters. *)
Definition filtered_dataset (layout_class : string) (filters : list json) : json :=
  JObj [("shape", JObj [("class", JStr "H5S_SIMPLE"); ("dims", JList [JInt 10])]);
        ("type", atomic_type "H5T_INTEGER" "H5T_STD_I32LE");
        ("creationProperties",
         JObj [("layout", JObj (("class", JStr layout_class) ::
                                if String.eqb layout_class "H5D_CHUNKED"
                                then [("dims", JList [JInt 5])] else []));
               ("filters", JList filters)])].

(** / holds a, and a holds / again. *)
Definition cycle_design : json :=
  JObj [("root", JStr "root");
        ("groups",
         JObj [("root", group_with [hard_link "groups" "a" "a"]);
               ("a", group_with [hard_link "groups" "root" "back"])])].

(** The entry [order_objs] starts from. *)
Definition root_info (root : json) : objinfo := {| oi_id := root; oi_path := "/" |}.

(** What the walk of one group adds to the two lists. *)
Definition walk_adds (h5j : json) (n : nat) (g : objinfo) : Prop :=
  exists gb db,
    group_blocks n h5j g = Ok gb /\
    preorder_datasets n h5j g = Ok db /\
    forall grps dsets,
      tree_walker n h5j g (grps, dsets) = Ok (grps ++ gb, dsets ++ db).

(** *** The rewriting by one fixed mapping

    The specification describes the rewriter by the mapping from old to new
    identifiers: the identifier and the parent identifier of every object
    are replaced through it, and in the value of an attribute named
    REFERENCE_LIST or DIMENSION_LIST every string that starts with
    [datasets/] has its identifier segment replaced through it. *)

Definition sub_of (m : list (json * string)) (k : json) : string :=
  match lookup_key k m with
  | Some v => v
  | None => EmptyString
  end.

Definition remap_string (m : list (json * string)) (val : json) : json :=
  match val with
  | JStr v =>
      if prefix "datasets/" v then
        match split_slash v with
        | p0 :: p1 :: rest => JStr (join_slash (p0 :: sub_of m (JStr p1) :: rest))
        | _ => val
        end
      else val
  | _ => val
  end.

Fixpoint remap_value (m : list (json * string)) (item : json) : json :=
  match item with
  | JList l => JList (map (remap_value m) l)
  | _ => remap_string m item
  end.

Definition is_link_attribute (d : list (string * json)) : bool :=
  match jget "_objtype" d with
  | Some t =>
      py_eq t (JStr "attribute") &&
      match jget "name" d with
      | Some n => str_in n ["REFERENCE_LIST"; "DIMENSION_LIST"]
      | None => false
      end
  | None => false
  end.

Definition remap_obj (m : list (json * string)) (o : json) : json :=
  match o with
  | JObj d =>
      let d1 := match jget "id" d with
                | Some id => jset "id" (JStr (sub_of m id)) d
                | None => d
                end in
      let d2 := match jget "_pid" d1 with
                | Some pid => jset "_pid" (JStr (sub_of m pid)) d1
                | None => d1
                end in
      if is_link_attribute d2 then
        match jget "value" d2 with
        | Some v => JObj (jset "value" (remap_value m v) d2)
        | None => JObj d2
        end
      else JObj d2
  | _ => o
  end.

(** The identifier segment of a string that [replace_uuid] rewrites. *)
Definition segment_of (val : json) : option string :=
  match val with
  | JStr v =>
      if prefix "datasets/" v then
        match split_slash v with
        | _ :: p1 :: _ => Some p1
        | _ => None
        end
      else None
  | _ => None
  end.

Fixpoint segments (item : json) : list string :=
  match item with
  | JList l => flat_map segments l
  | _ => match segment_of item with
         | Some p => [p]
         | None => []
         end
  end.

(** The old identifiers of an object that the rewriter maps: its [id], its
    [_pid], and the identifier segments in the value of a link-tracking
    attribute. *)
Definition old_ids (o : json) : list json :=
  match o with
  | JObj d =>
      match jget "id" d with Some id => [id] | None => [] end ++
      match jget "_pid" d with Some pid => [pid] | None => [] end ++
      if is_link_attribute d then
        match jget "value" d with
        | Some v => map JStr (segments v)
        | None => []
        end
      else []
  | _ => []
  end.

(** [m] holds the entries of [s], and perhaps later ones. *)
Definition later (s : subst) (m : list (json * string)) : Prop :=
  exists added, m = known s ++ added.

(** The key has a substitute in the mapping. *)
Definition mapped (m : list (json * string)) (k : json) : Prop :=
  exists v, lookup_key k m = Some v.

(** The substitutes are the UUIDs drawn so far, in the order they were
    drawn. *)
Definition drawn_in_order (uuid4 : nat -> string) (s : subst) : Prop :=
  map snd (known s) = map uuid4 (seq 0 (drawn s)).

(** A later state of [sub_uuid]: entries were added at the end, none was
    changed. *)
Definition grows (uuid4 : nat -> string) (s s' : subst) : Prop :=
  (exists added, known s' = known s ++ added) /\
  (drawn_in_order uuid4 s -> drawn_in_order uuid4 s').

(** Does an identifier occur in a value: as a string or as a segment of a
    path string, at any depth. *)
Fixpoint mentions (id : string) (j : json) : bool :=
  match j with
  | JStr s => existsb (String.eqb id) (split_slash s)
  | JList l => existsb (mentions id) l
  | JObj d =>
      (fix members (d : list (string * json)) : bool :=
         match d with
         | [] => false
         | (_, v) :: d' => mentions id v || members d'
         end) d
  | _ => false
  end.

(** The two objects and an attribute of the dataset that refers to it. *)
Definition referring_objects : list json :=
  two_objects ++
  [JObj [("_objtype", JStr "attribute"); ("_pid", JStr "D1"); ("id", JStr "A1");
         ("name", JStr "target"); ("value", JStr "datasets/D1")];
   JObj [("_objtype", JStr "attribute"); ("_pid", JStr "D1"); ("id", JStr "A2");
         ("name", JStr "DIMENSION_LIST");
         ("value", JList [JList [JStr "datasets/D1"; JStr "groups/G1"]])]].

(** What the four objects hold after the run with [sample_uuid4]. *)
Definition referring_objects_rewritten : list json :=
  [JObj [("_objtype", JStr "group"); ("id", JStr "new-"); ("name", JStr "/")];
   JObj [("_objtype", JStr "dataset"); ("_pid", JStr "new-");
         ("id", JStr "new-x"); ("name", JStr "data")];
   JObj [("_objtype", JStr "attribute"); ("_pid", JStr "new-x");
         ("id", JStr "new-xx"); ("name", JStr "target");
         ("value", JStr "datasets/D1")];
   JObj [("_objtype", JStr "attribute"); ("_pid", JStr "new-x");
         ("id", JStr "new-xxx"); ("name", JStr "DIMENSION_LIST");
         ("value", JList [JList [JStr "datasets/new-x"; JStr "groups/G1"]])]].

(** What the two objects hold after the run with [sample_uuid4]. *)
Definition two_objects_rewritten : list json :=
  [JObj [("_objtype", JStr "group"); ("id", JStr "new-"); ("name", JStr "/")];
   JObj [("_objtype", JStr "dataset"); ("_pid", JStr "new-");
         ("id", JStr "new-x"); ("name", JStr "data")]].

(** ** Further definitions

    What the properties of the second part are stated with. *)

(** The whole of what [check_shape] asks of a simple dataspace. *)
Definition simple_dataspace_ok (sh : list (string * json)) : Prop :=
  exists dims,
    jget "dims" sh = Some (JList dims) /\
    (0 < List.length dims <= 32)%nat /\
    Forall dim_in_range dims /\
    (jget "maxdims" sh = None \/
     exists maxdims,
       jget "maxdims" sh = Some (JList maxdims) /\
       Forall2 maxdim_in_range dims maxdims).

(** The scalars of a value, left to right: what is left of it once the
    nesting of lists is removed. *)
Fixpoint leaves (v : json) : list json :=
  match v with
  | JList l => flat_map leaves l
  | _ => [v]
  end.

(** An integer within the bounds of an integer datatype. *)
Definition integer_within (lo hi : Z) (v : json) : Prop :=
  exists z, as_integral v = Some z /\ lo <= z <= hi.

(** What [validate_h5json] asks of one filter entry. *)
Definition filter_classes : list string :=
  ["H5Z_FILTER_DEFLATE"; "H5Z_FILTER_FLETCHER32"; "H5Z_FILTER_NBIT";
   "H5Z_FILTER_SCALEOFFSET"; "H5Z_FILTER_SHUFFLE"; "H5Z_FILTER_SZIP";
   "H5Z_FILTER_USER"].

Definition filter_ok (f : json) : Prop :=
  exists fd cls id zid,
    f = JObj fd /\
    jget "class" fd = Some (JStr cls) /\ In cls filter_classes /\
    jget "id" fd = Some id /\ as_integral id = Some zid /\ 0 < zid /\
    (cls = "H5Z_FILTER_DEFLATE" ->
     exists level z,
       jget "level" fd = Some level /\ as_integral level = Some z /\
       0 <= z <= 9) /\
    (cls = "H5Z_FILTER_SCALEOFFSET" ->
     exists offset z,
       jget "scaleOffset" fd = Some offset /\ as_integral offset = Some z /\
       0 <= z) /\
    (cls = "H5Z_FILTER_USER" -> jget "parameters" fd <> None).

(** What [validate_h5json] asks of a chunk dimension. *)
Definition chunk_dim_ok (c : json) : Prop :=
  exists z, as_integral c = Some z /\ 0 < z <= 4294967295.

(** ** [h5dtype_name] *)

(** The [conv_map] of [h5dtype_name]. *)
Definition name_conv_map : list (string * string) :=
  [("H5T_STD_I8", "int8"); ("H5T_STD_U8", "uint8");
   ("H5T_STD_I16", "int16"); ("H5T_STD_U16", "uint16");
   ("H5T_STD_I32", "int32"); ("H5T_STD_U32", "uint32");
   ("H5T_STD_I64", "int64"); ("H5T_STD_U64", "uint64");
   ("H5T_IEEE_F32", "float32"); ("H5T_IEEE_F64", "float64");
   ("H5T_STRING", "string"); ("H5T_COMPOUND", "compound");
   ("H5T_ARRAY", "array"); ("H5T_BITFIELD", "bitfield");
   ("H5T_REFERENCE", "reference"); ("H5T_OPAQUE", "opaque");
   ("H5T_VLEN", "vlen")].

Fixpoint name_conv_map_get (k : string) (m : list (string * string))
  : option string :=
  match m with
  | [] => None
  | (k', v) :: m' => if String.eqb k k' then Some v else name_conv_map_get k m'
  end.

(** [conv_map[key]] for a key that is a decoded value: a string is looked
    up, a number, a boolean or [None] is not a key of the map, a list or a
    dict cannot be hashed. *)
Definition name_conv_map_item (key : json) : result string :=
  match key with
  | JStr s =>
      match name_conv_map_get s name_conv_map with
      | Some v => Ok v
      | None => Raise KeyError s
      end
  | JList _ | JObj _ => Raise TypeError "unhashable type"
  | _ => Raise KeyError "%s"
  end.

(** [try: ... except KeyError: raise ValueError(...)]. *)
Definition except_key_error {A : Type} (c : result A) (msg : string) : result A :=
  match c with
  | Raise KeyError _ => Raise ValueError msg
  | _ => c
  end.

(** [j[:-2]]: the slice of a string or of a list; anything else cannot be
    sliced. *)
Definition py_slice_drop2 (j : json) : result json :=
  match j with
  | JStr s => Ok (JStr (drop_last2 s))
  | JList l => Ok (JList (firstn (List.length l - 2) l))
  | JObj _ => Raise TypeError "unhashable type"
  | _ => Raise TypeError "object has no attribute '__getitem__'"
  end.

Definition h5dtype_name (h5dtype : json) : result string :=
  except_key_error
    (dtcls <- py_getitem h5dtype "class" ;;
     if str_in dtcls ["H5T_FLOAT"; "H5T_INTEGER"] then
       base <- py_getitem h5dtype "base" ;;
       key <- py_slice_drop2 base ;;
       name_conv_map_item key
     else name_conv_map_item dtcls)
    "%s: Invalid HDF5 datatype".

(** ** [merge_dicts]

    The keys come out of a Python set, in no order one can rely on: the
    embedding yields the keys of the first dict and then those of the
    second alone, each key once, and the properties read the result
    through its keys. *)

Definition has_key (k : string) (d : list (string * json)) : bool :=
  match jget k d with Some _ => true | None => false end.

(** The bindings a dict is read through: the first one of each key. *)
Fixpoint first_bindings (seen : list string) (d : list (string * json))
  : list (string * json) :=
  match d with
  | [] => []
  | (k, v) :: d' =>
      if existsb (String.eqb k) seen then first_bindings seen d'
      else (k, v) :: first_bindings (k :: seen) d'
  end.

(** What is yielded for a key that both dicts have: the merge of two dicts,
    else the value of the second. *)
Fixpoint merge_item (v1 v2 : json) {struct v1} : json :=
  match v1 with
  | JObj a =>
      match v2 with
      | JObj b =>
          JObj
            ((fix of_first (seen : list string) (entries : list (string * json))
                : list (string * json) :=
                match entries with
                | [] => []
                | (k, x) :: rest =>
                    if existsb (String.eqb k) seen then of_first seen rest
                    else (k, match jget k b with
                             | Some y => merge_item x y
                             | None => x
                             end) :: of_first (k :: seen) rest
                end) [] a
             ++ filter (fun kv => negb (has_key (fst kv) a))
                       (first_bindings [] b))
      | _ => v2
      end
  | _ => v2
  end.

(** [dict(merge_dicts(d1, d2))], on what the dicts hold. *)
Definition merge_dicts (d1 d2 : list (string * json)) : list (string * json) :=
  match merge_item (JObj d1) (JObj d2) with
  | JObj d => d
  | _ => []
  end.

(** ** [is_dimscale] and [is_dimlist] *)

(** [any(test(a) for a in l)]: the tests are made in turn up to the first
    that is true. *)
Fixpoint py_any {A : Type} (test : A -> result bool) (l : list A) : result bool :=
  match l with
  | [] => Ok false
  | x :: l' =>
      b <- test x ;;
      if b : bool then Ok true else py_any test l'
  end.

Definition named_with_class (name cls : string) (a : json) : result bool :=
  n <- py_getitem a "name" ;;
  if py_eq n (JStr name) then
    t <- py_getitem a "type" ;;
    c <- py_getitem t "class" ;;
    Ok (py_eq c (JStr cls))
  else Ok false.

Definition named_with_value (name value : string) (a : json) : result bool :=
  n <- py_getitem a "name" ;;
  if py_eq n (JStr name) then
    v <- py_getitem a "value" ;;
    Ok (py_eq v (JStr value))
  else Ok false.

Definition is_dimscale (attrs : list json) : result bool :=
  ref_list <- py_any (named_with_class "REFERENCE_LIST" "H5T_COMPOUND") attrs ;;
  cls_ <- py_any (named_with_value "CLASS" "DIMENSION_SCALE") attrs ;;
  Ok (ref_list && cls_).

Definition is_dimlist (attrs : list json) : result bool :=
  dim_list <- py_any (named_with_class "DIMENSION_LIST" "H5T_VLEN") attrs ;;
  Ok dim_list.

(** ** [random_string] *)

(** [string.hexdigits]. *)
Definition hexdigits : string := "0123456789abcdefABCDEF".

(** [random_string(nchar)], where [pick i] is the index that the [i]-th call
    of [random.choice] draws in [string.hexdigits]. *)
Definition random_string (pick : nat -> nat) (nchar : Z) : string :=
  string_of_list_ascii
    (map (fun i => nth (pick i mod 22) (list_ascii_of_string hexdigits) "0"%char)
         (seq 0 (Z.to_nat nchar))).

(** [np.dtype(d).name]. *)
Definition np_dtype_name (d : dtype) : string :=
  match d with
  | i1 => "int8" | u1 => "uint8" | i2 => "int16" | u2 => "uint16"
  | i4 => "int32" | u4 => "uint32" | i8 => "int64" | u8 => "uint64"
  | f4 => "float32" | f8 => "float64"
  end.

(** [isinstance(j, dict)]. *)
Definition is_dict (j : json) : bool :=
  match j with JObj _ => true | _ => false end.

(** The pairs that [merge_dicts] yields for the keys of the first dict,
    named for the proofs. *)
Fixpoint merge_first (b : list (string * json)) (seen : list string)
  (entries : list (string * json)) : list (string * json) :=
  match entries with
  | [] => []
  | (k, x) :: rest =>
      if existsb (String.eqb k) seen then merge_first b seen rest
      else (k, match jget k b with
               | Some y => merge_item x y
               | None => x
               end) :: merge_first b (k :: seen) rest
  end.

Definition vlen_of_compound : json :=
  JObj [("class", JStr "H5T_VLEN");
        ("base", JObj [("class", JStr "H5T_COMPOUND");
                       ("fields",
                        JList [JObj [("name", JStr "x");
                                     ("type", atomic_type "H5T_FLOAT"
                                                          "H5T_IEEE_F64LE")]])])].

Definition scale_attributes : list json :=
  [JObj [("name", JStr "CLASS"); ("value", JStr "DIMENSION_SCALE")];
   JObj [("name", JStr "REFERENCE_LIST");
         ("type", JObj [("class", JStr "H5T_COMPOUND")])]].

(** ** The lists of [order_objs] *)

Definition absolute (o : objinfo) : Prop := prefix "/" (oi_path o) = true.

(** [c] is an entry for a hard link to a group (to a dataset) in the group
    of the entry [p]. *)
Definition child_group_of (h5j : json) (p c : objinfo) : Prop :=
  exists children, child_groups h5j p = Ok children /\ In c children.

Definition child_dataset_of (h5j : json) (p d : objinfo) : Prop :=
  exists own, child_datasets h5j p = Ok own /\ In d own.

(** Every entry of [added] is a child group of an entry of [known] or of an
    entry before it in [added]. *)
Fixpoint parents_first (h5j : json) (known added : list objinfo) : Prop :=
  match added with
  | [] => True
  | c :: rest =>
      (exists p, In p known /\ child_group_of h5j p c) /\
      parents_first h5j (known ++ [c]) rest
  end.

(** What one walk adds: the groups after their parents, the datasets under
    the walked group or a group that the walk adds. *)
Definition adds_below (h5j : json) (roots : list objinfo)
  (st st' : list objinfo * list objinfo) : Prop :=
  exists ga da,
    fst st' = fst st ++ ga /\ snd st' = snd st ++ da /\
    (forall known, incl roots known -> parents_first h5j known ga) /\
    (forall d, In d da ->
               exists p, In p (roots ++ ga) /\ child_dataset_of h5j p d).

(** / holds the dataset t and the group g, which holds the dataset u. *)
Definition dataset_design : json :=
  JObj [("root", JStr "root");
        ("groups",
         JObj [("root", group_with [hard_link "datasets" "t" "t";
                                    hard_link "groups" "g" "g"]);
               ("g", group_with [hard_link "datasets" "u" "u"])])].

(** ** The strings of [replace_uuid] *)

(** A string without a slash: one part of a path. *)
Fixpoint no_slash (s : string) : bool :=
  match s with
  | EmptyString => true
  | String c s' => negb (Ascii.eqb c "/"%char) && no_slash s'
  end.

(** Every call of [uuid4] returns a UUID of its own. *)
Definition never_repeats (uuid4 : nat -> string) : Prop :=
  forall i j, uuid4 i = uuid4 j -> i = j.

(** ** [h5json_to_db] *)

(** The truth value of a decoded value: [None], [False], zero and the empty
    string, list and dict are false. *)
Definition py_truthy (j : json) : bool :=
  match j with
  | JNull => false
  | JBool b => b
  | JInt z => negb (z =? 0)
  | JReal q => negb (Qeq_bool q 0)
  | JStr s => negb (String.eqb s "")
  | JList l => match l with [] => false | _ => true end
  | JObj d => match d with [] => false | _ => true end
  end.

Section Database.

(** [json.dumps], on the dicts that [h5json_to_db] builds. *)
Variable dumps : json -> string.

(** The row is the dict [dbinfo], with its keys in the order in which they
    are assigned. *)
Definition h5json_to_db (otype : string) (oinfo : json)
  : result (list (string * json)) :=
  name <- py_getitem oinfo "name" ;;
  let dbinfo := jset "name" name [] in
  description <- py_get oinfo "description" (JStr "") ;;
  let dbinfo := jset "description" description dbinfo in
  has_uuid <- py_contains "uuid" oinfo ;;
  dbinfo <-
    (if has_uuid : bool then
       uuid <- py_getitem oinfo "uuid" ;;
       Ok (jset "uuid" uuid dbinfo)
     else Ok dbinfo) ;;
  '(dbinfo, misc, dims, maxdims, data) <-
    (if String.eqb otype "attribute" then
       let dbinfo := jset "layout" (JStr "N/A") dbinfo in
       let dbinfo := jset "rank" (JInt 0) dbinfo in
       shape <- py_getitem oinfo "shape" ;;
       cls <- py_getitem shape "class" ;;
       '(dbinfo, dims, maxdims) <-
         (if py_eq cls (JStr "H5S_SIMPLE") then
            sdims <- py_getitem shape "dims" ;;
            rank <- py_len sdims ;;
            smaxdims <- py_get shape "maxdims" sdims ;;
            Ok (jset "rank" (JInt (Z.of_nat rank)) dbinfo,
                [("dims", sdims)], [("maxdims", smaxdims)])
          else Ok (dbinfo, [("dims", JList [])], [("maxdims", JList [])])) ;;
       value <- py_getitem oinfo "value" ;;
       datatype <- py_getitem oinfo "type" ;;
       Ok (dbinfo, [("datatype", datatype)], dims, maxdims, [("value", value)])
     else if String.eqb otype "dataset" then
       let dbinfo := jset "rank" (JInt 0) dbinfo in
       shape <- py_getitem oinfo "shape" ;;
       cls <- py_getitem shape "class" ;;
       '(dbinfo, dims, maxdims) <-
         (if py_eq cls (JStr "H5S_SIMPLE") then
            sdims <- py_getitem shape "dims" ;;
            rank <- py_len sdims ;;
            smaxdims <- py_getitem shape "maxdims" ;;
            Ok (jset "rank" (JInt (Z.of_nat rank)) dbinfo,
                [("dims", sdims)], [("maxdims", smaxdims)])
          else Ok (dbinfo, [("dims", JList [])], [("maxdims", JList [])])) ;;
       datatype <- py_getitem oinfo "type" ;;
       let misc := [("datatype", datatype)] in
       cp <- py_getitem oinfo "creationProperties" ;;
       layout <- py_get cp "layout" (JObj []) ;;
       layout_class <- py_get layout "class" (JStr "H5D_CONTIGUOUS") ;;
       let dbinfo := jset "layout" layout_class dbinfo in
       misc <-
         (if py_eq layout_class (JStr "H5D_CHUNKED") then
            cp_layout <- py_getitem cp "layout" ;;
            chunks <- py_getitem cp_layout "dims" ;;
            Ok (jset "chunks" chunks misc)
          else Ok misc) ;;
       has_filters <- py_contains "filters" cp ;;
       misc <-
         (if has_filters : bool then
            filters <- py_getitem cp "filters" ;;
            Ok (jset "filters" filters misc)
          else Ok misc) ;;
       has_fill <- py_contains "fillValue" cp ;;
       misc <-
         (if has_fill : bool then
            fill <- py_getitem cp "fillValue" ;;
            Ok (jset "fillValue" fill misc)
          else Ok misc) ;;
       value <- py_get oinfo "value" (JList []) ;;
       data <-
         (if py_truthy value then
            value <- py_getitem oinfo "value" ;;
            Ok [("value", value)]
          else Ok [("value", JObj [])]) ;;
       Ok (dbinfo, misc, dims, maxdims, data)
     else if String.eqb otype "group" then
       let dbinfo := jset "rank" (JInt 0) dbinfo in
       let dbinfo := jset "layout" (JStr "N/A") dbinfo in
       Ok (dbinfo, [], [], [], [("value", JObj [])])
     else Raise NotImplementedError "%s: Object type not supported") ;;
  let dbinfo := jset "misc" (JStr (dumps (JObj misc))) dbinfo in
  let dbinfo := jset "dims" (JStr (dumps (JObj dims))) dbinfo in
  let dbinfo := jset "maxdims" (JStr (dumps (JObj maxdims))) dbinfo in
  let dbinfo := jset "data" (JStr (dumps (JObj data))) dbinfo in
  let dbinfo := jset "type" (JStr otype) dbinfo in
  Ok dbinfo.

End Database.

(** A dataset description with a simple dataspace, with or without
    [maxdims]. *)
Definition plain_dataset (shape : list (string * json)) : json :=
  JObj [("name", JStr "d");
        ("shape", JObj shape);
        ("type", atomic_type "H5T_INTEGER" "H5T_STD_I32LE");
        ("creationProperties", JObj []);
        ("value", JList [JInt 1; JInt 2])].

(** A stand-in for [json.dumps] to run the conversion with. *)
Definition sample_dumps (j : json) : string :=
  match j with
  | JObj [] => "{}"
  | JObj ((k, _) :: _) => k
  | _ => "?"
  end.

(** * Properties *)

(** ** Sample runs *)

Example check_shape_ex1 :
  check_shape (simple_shape [JInt 2; JInt 3] [JInt 2; JStr "H5S_UNLIMITED"])
  = Ok tt.
Proof. reflexivity. Qed.

Example check_shape_ex2 :
  check_shape (simple_shape [JInt 0] [JInt 0])
  = Raise ValueError "Dataspace maxdims: Dimension size out of range: %d".
Proof. reflexivity. Qed.

Example check_type_ex1 : check_type (atomic_type "H5T_INTEGER" "H5T_STD_I32LE") = Ok tt.
Proof. reflexivity. Qed.

Example check_type_ex2 :
  check_type (JObj [("class", JStr "H5T_COMPOUND");
                    ("fields", JList [JObj [("name", JStr "x"); ("type", atomic_type "H5T_FLOAT" "H5T_IEEE_F64LE")];
                                      JObj [("name", JStr "x"); ("type", atomic_type "H5T_FLOAT" "H5T_IEEE_F64LE")]])])
  = Raise ValueError "%s: Compound member name is not unique".
Proof. reflexivity. Qed.

Example np_shape_ex :
  np_shape (JList [JList [JInt 1; JInt 2; JInt 3]; JList [JInt 4; JInt 5; JInt 6]])
  = [2%nat; 3%nat].
Proof. reflexivity. Qed.

Example validate_ex1 : validate_h5json (chunked_dataset [2; 3] [2; 3]) [] = Ok tt.
Proof. reflexivity. Qed.

Example validate_ex2 :
  validate_h5json (chunked_dataset [2; 3] [2; 4]) []
  = Raise ValueError "Chunking dim size %d greater than max size %d".
Proof. reflexivity. Qed.

Example validate_ex3 :
  validate_h5json (chunked_dataset [65536; 65536; 65536; 65536] [65536; 65536; 65536; 65536]) []
  = Ok tt.
Proof. vm_compute. reflexivity. Qed.

Example order_objs_fork :
  order_objs 5 fork_design "group"
  = Ok [{| oi_id := JStr "root"; oi_path := "/" |};
        {| oi_id := JStr "a"; oi_path := "/a" |};
        {| oi_id := JStr "b"; oi_path := "/b" |};
        {| oi_id := JStr "c"; oi_path := "/a/c" |}].
Proof. reflexivity. Qed.

Example substitute_uuids_two :
  substitute_uuids sample_uuid4 two_objects (JStr "G1")
  = Ok ([JObj [("_objtype", JStr "group"); ("id", JStr "new-"); ("name", JStr "/")];
         JObj [("_objtype", JStr "dataset"); ("_pid", JStr "new-"); ("id", JStr "new-x");
               ("name", JStr "data")]], "new-").
Proof. reflexivity. Qed.

(** ** The error monad and the loops *)

Lemma bind_ok {A B : Type} (c : result A) (k : A -> result B) (b : B) :
  bind c k = Ok b -> exists a, c = Ok a /\ k a = Ok b.
Proof.
  destruct c as [a | e msg]; simpl; intros H.
  - exists a; split; [reflexivity | exact H].
  - discriminate H.
Qed.

Lemma bind_unit_ok {B : Type} (c : result unit) (k : unit -> result B) (b : B) :
  bind c k = Ok b -> c = Ok tt /\ k tt = Ok b.
Proof.
  intros H; apply bind_ok in H; destruct H as [[] [H1 H2]]; auto.
Qed.

(** The steps of a run that returned: what a bind gave, and the run of the
    rest. *)
Tactic Notation "bind_inv" hyp(H) "as" ident(x) ident(Hx) :=
  apply bind_ok in H; destruct H as [x [Hx H]].

Tactic Notation "bind_drop" hyp(H) "as" ident(x) :=
  apply bind_ok in H; destruct H as [x [_ H]].

Tactic Notation "bind_skip" hyp(H) :=
  apply bind_unit_ok in H; destruct H as [_ H].

Lemma for_enumerate_ok {A : Type} (body : nat -> A -> result unit) (l : list A) :
  forall start,
    (forall j x, nth_error l j = Some x -> body (start + j)%nat x = Ok tt) ->
    for_enumerate body start l = Ok tt.
Proof.
  induction l as [| x l IH]; intros start H; simpl; [reflexivity |].
  rewrite <- (Nat.add_0_r start) at 1.
  rewrite (H O x eq_refl); simpl.
  apply IH; intros j y Hj.
  replace (S start + j)%nat with (start + S j)%nat by lia.
  apply H; exact Hj.
Qed.

Lemma for_enumerate_ok_inv {A : Type} (body : nat -> A -> result unit) (l : list A) :
  forall start,
    for_enumerate body start l = Ok tt ->
    forall j x, nth_error l j = Some x -> body (start + j)%nat x = Ok tt.
Proof.
  induction l as [| y l IH]; intros start H j x Hj.
  - destruct j; discriminate Hj.
  - simpl in H; apply bind_unit_ok in H; destruct H as [Hy Hl].
    destruct j as [| j]; simpl in Hj.
    + injection Hj as <-; rewrite Nat.add_0_r; exact Hy.
    + replace (start + S j)%nat with (S start + j)%nat by lia.
      apply (IH _ Hl); exact Hj.
Qed.

Lemma for_enumerate_first_failure {A : Type} (body : nat -> A -> result unit)
      (l : list A) (e : exn) (msg : string) :
  forall start i x,
    nth_error l i = Some x ->
    body (start + i)%nat x = Raise e msg ->
    (forall j y, (j < i)%nat -> nth_error l j = Some y ->
                 body (start + j)%nat y = Ok tt) ->
    for_enumerate body start l = Raise e msg.
Proof.
  induction l as [| y l IH]; intros start i x Hi Hx Hbefore.
  - destruct i; discriminate Hi.
  - destruct i as [| i]; simpl in Hi |- *.
    + injection Hi as <-; rewrite Nat.add_0_r in Hx; rewrite Hx; reflexivity.
    + rewrite <- (Nat.add_0_r start) at 1.
      rewrite (Hbefore O y); [simpl | lia | reflexivity].
      apply (IH (S start) i x Hi).
      * replace (S start + i)%nat with (start + S i)%nat by lia; exact Hx.
      * intros j z Hj Hz.
        replace (S start + j)%nat with (start + S j)%nat by lia.
        apply Hbefore; [lia | exact Hz].
Qed.

Lemma for_enumerate_some_failure {A : Type} (body : nat -> A -> result unit)
      (l : list A) (e : exn) (msg : string) :
  forall start i x,
    (forall j y, nth_error l j = Some y ->
                 body (start + j)%nat y = Ok tt \/
                 body (start + j)%nat y = Raise e msg) ->
    nth_error l i = Some x ->
    body (start + i)%nat x = Raise e msg ->
    for_enumerate body start l = Raise e msg.
Proof.
  induction l as [| y l IH]; intros start i x Hall Hi Hx.
  - destruct i; discriminate Hi.
  - simpl.
    destruct (Hall O y eq_refl) as [Hy | Hy]; rewrite Nat.add_0_r in Hy;
      rewrite Hy; [simpl | reflexivity].
    destruct i as [| i]; simpl in Hi.
    + injection Hi as <-; rewrite Nat.add_0_r in Hx; congruence.
    + apply (IH (S start) i x).
      * intros j z Hj.
        replace (S start + j)%nat with (start + S j)%nat by lia.
        apply Hall; exact Hj.
      * exact Hi.
      * replace (S start + i)%nat with (start + S i)%nat by lia; exact Hx.
Qed.

Lemma map_m_nth {A B : Type} (f : A -> result B) (l : list A) (ys : list B) :
  map_m f l = Ok ys ->
  forall j x, nth_error l j = Some x -> exists y, f x = Ok y.
Proof.
  revert ys; induction l as [| a l IH]; intros ys H j x Hj.
  - destruct j; discriminate Hj.
  - simpl in H; bind_inv H as y Hy.
    apply bind_ok in H; destruct H as [ys' [Hys _]].
    destruct j as [| j]; simpl in Hj.
    + injection Hj as <-; eauto.
    + eapply IH; eauto.
Qed.

Lemma py_eq_str (j : json) (s : string) :
  py_eq j (JStr s) = true <-> j = JStr s.
Proof.
  split.
  - destruct j as [| b | z | q | t | l | d]; simpl; try discriminate.
    intros H; apply String.eqb_eq in H; subst; reflexivity.
  - intros ->; simpl; apply String.eqb_refl.
Qed.

(** ** Datatype validation *)

Lemma conv_map_get_in (k : string) (m : list (string * dtype)) :
  (exists d, conv_map_get k m = Some d) <-> In k (map fst m).
Proof.
  induction m as [| [k' v] m IH]; simpl.
  - split; [intros [d H]; discriminate H | intros []].
  - destruct (String.eqb k k') eqn:E.
    + apply String.eqb_eq in E; subst; split; eauto.
    + apply String.eqb_neq in E; rewrite IH; split; [auto | intros [H | H]; congruence].
Qed.

Lemma str_in_true (s : string) (choices : list string) :
  In s choices -> str_in (JStr s) choices = true.
Proof.
  intros H; unfold str_in; apply existsb_exists.
  exists s; split; [exact H | apply py_eq_str; reflexivity].
Qed.

(** C5, as the code has it. An atomic Integer or Float datatype descriptor
    whose [base] is a string passes [check_type] exactly when the string
    without its last two characters is one of the ten names of [conv_map];
    the two characters themselves are not looked at.  Any other [base]
    string fails with the ValueError "Invalid predefined datatype". *)
Theorem atomic_numeric_base_rule (d : list (string * json)) (cls base : string) :
  jget "class" d = Some (JStr cls) ->
  cls = "H5T_INTEGER" \/ cls = "H5T_FLOAT" ->
  jget "base" d = Some (JStr base) ->
  (check_type (JObj d) = Ok tt <-> In (drop_last2 base) (map fst conv_map)) /\
  (~ In (drop_last2 base) (map fst conv_map) ->
   check_type (JObj d) = Raise ValueError "%s: Invalid predefined datatype").
Proof.
  intros Hcls Hnum Hbase.
  assert (Hrun : check_type (JObj d) = (numpy_dtype (JStr base) ;; Ok tt)).
  { unfold check_type; simpl json_depth.
    cbn [check_type_rec py_contains py_getitem bind]; rewrite Hcls.
    cbn [bind].
    unfold _check_atomic_type; cbn [py_getitem py_contains bind]; rewrite Hcls, Hbase.
    destruct Hnum as [-> | ->]; reflexivity. }
  rewrite Hrun; unfold numpy_dtype.
  destruct (conv_map_get (drop_last2 base) conv_map) as [dt |] eqn:E; simpl.
  - assert (In (drop_last2 base) (map fst conv_map))
      by (apply conv_map_get_in; eauto).
    split; [tauto | intros Hn; contradiction].
  - assert (~ In (drop_last2 base) (map fst conv_map)).
    { intros Hin; apply conv_map_get_in in Hin; destruct Hin as [dt Hdt]; congruence. }
    split; [split; [discriminate | contradiction] | reflexivity].
Qed.

Lemma atomic_numeric_base_rule_witness :
  check_type (atomic_type "H5T_FLOAT" "H5T_IEEE_F64BE") = Ok tt <->
  In (drop_last2 "H5T_IEEE_F64BE") (map fst conv_map).
Proof.
  apply (atomic_numeric_base_rule
           [("class", JStr "H5T_FLOAT"); ("base", JStr "H5T_IEEE_F64BE")]
           "H5T_FLOAT" "H5T_IEEE_F64BE");
    [reflexivity | right; reflexivity | reflexivity].
Defined.

(** C5, as the specification states it, fails: a [base] that is not in the
    enumeration of predefined types passes the validation. *)
Lemma unknown_suffix_base_accepted :
  ~ In "H5T_STD_I32XX" spec_predefined_bases /\
  check_type (atomic_type "H5T_INTEGER" "H5T_STD_I32XX") = Ok tt.
Proof.
  split; [| reflexivity].
  vm_compute; intros H.
  repeat (destruct H as [H | H]; [discriminate H |]).
  exact H.
Qed.

(** Every member of the enumeration of the specification is accepted. *)
Lemma spec_predefined_bases_accepted :
  Forall (fun base => check_type (atomic_type "H5T_INTEGER" base) = Ok tt)
         spec_predefined_bases.
Proof. repeat constructor. Qed.

(** ** Dataspace validation *)

Lemma jget_jset_same k v d : jget k (jset k v d) = Some v.
Proof.
  induction d as [| [k' v'] d IH]; simpl.
  - rewrite String.eqb_refl; reflexivity.
  - destruct (String.eqb k k') eqn:E; simpl; rewrite E; auto.
Qed.

Lemma jget_jset_other k k' v d : k' <> k -> jget k' (jset k v d) = jget k' d.
Proof.
  intros Hne; induction d as [| [k0 v0] d IH]; simpl.
  - destruct (String.eqb k' k) eqn:E; [apply String.eqb_eq in E; contradiction | reflexivity].
  - destruct (String.eqb k k0) eqn:E; simpl.
    + apply String.eqb_eq in E; subst k0.
      destruct (String.eqb k' k) eqn:E'; [apply String.eqb_eq in E'; contradiction | reflexivity].
    + rewrite IH; reflexivity.
Qed.

Lemma rank_test (n : nat) :
  (0 < n <= 32)%nat ->
  negb ((0 <? Z.of_nat n) && (Z.of_nat n <=? 32)) = false.
Proof.
  intros H.
  assert ((0 <? Z.of_nat n) = true) as -> by (apply Z.ltb_lt; lia).
  assert ((Z.of_nat n <=? 32) = true) as -> by (apply Z.leb_le; lia).
  reflexivity.
Qed.

Lemma check_shape_simple (sh : list (string * json)) (dims maxdims : list json) :
  jget "class" sh = Some (JStr "H5S_SIMPLE") ->
  jget "dims" sh = Some (JList dims) ->
  jget "maxdims" sh = Some (JList maxdims) ->
  (0 < List.length dims <= 32)%nat ->
  List.length maxdims = List.length dims ->
  Forall dim_in_range dims ->
  check_shape (JObj sh) = for_enumerate (check_shape_maxdim dims) 0 maxdims.
Proof.
  intros Hcls Hdims Hmax Hrank Hlen Hin.
  unfold check_shape; cbn [py_contains py_getitem bind]; rewrite Hcls.
  cbn [bind str_in existsb py_eq String.eqb Ascii.eqb Bool.eqb negb orb andb].
  rewrite Hdims, Hmax.
  cbn [bind for_each]; unfold check_shape_rank; cbn [py_getitem bind].
  rewrite Hdims, Hmax; cbn [bind].
  rewrite (rank_test _ Hrank).
  assert (Hrank' : (0 < List.length maxdims <= 32)%nat) by lia.
  rewrite (rank_test _ Hrank'); cbn [bind as_list].
  rewrite for_enumerate_ok; cbn [bind].
  - rewrite Hlen, Nat.eqb_refl; reflexivity.
  - intros j x Hj.
    assert (Hx : dim_in_range x)
      by (rewrite Forall_forall in Hin; apply Hin; eapply nth_error_In; eauto).
    destruct Hx as [z [Hz Hr]]; unfold check_shape_dim; rewrite Hz.
    assert ((z <? 0) = false) as -> by (apply Z.ltb_ge; lia).
    assert ((z >? uint64_max) = false) as -> by (rewrite Z.gtb_ltb; apply Z.ltb_ge; lia).
    reflexivity.
Qed.

Lemma maxdim_in_range_passes (dims : list json) (i : nat) (d m : json) :
  nth_error dims i = Some d -> maxdim_in_range d m ->
  check_shape_maxdim dims i m = Ok tt.
Proof.
  intros Hd [-> | [[Hint Hstr] | [zd [zm [Hzd [Hzm [Hr Hle]]]]]]];
    unfold check_shape_maxdim.
  - reflexivity.
  - rewrite Hint, Hstr; reflexivity.
  - rewrite Hzm.
    assert ((zm <=? 0) = false) as -> by (apply Z.leb_gt; lia).
    assert ((zm >=? uint64_max) = false) as -> by (rewrite Z.geb_leb; apply Z.leb_gt; lia).
    unfold py_index; rewrite Hd; cbn [bind orb]; rewrite Hzd.
    assert ((zd >? zm) = false) as -> by (rewrite Z.gtb_ltb; apply Z.ltb_ge; lia).
    reflexivity.
Qed.

Lemma nth_error_list_set_same {A : Type} (l : list A) (i : nat) (v x : A) :
  nth_error l i = Some x -> nth_error (list_set l i v) i = Some v.
Proof.
  revert i; induction l as [| y l IH]; intros [| i] H; simpl in *;
    try discriminate; auto.
Qed.

Lemma nth_error_list_set_other {A : Type} (l : list A) (i j : nat) (v : A) :
  i <> j -> nth_error (list_set l i v) j = nth_error l j.
Proof.
  revert i j; induction l as [| y l IH]; intros [| i] [| j] H; simpl;
    try reflexivity; try (exfalso; apply H; reflexivity); apply IH; lia.
Qed.

Lemma length_list_set {A : Type} (l : list A) (i : nat) (v : A) :
  List.length (list_set l i v) = List.length l.
Proof.
  revert i; induction l as [| y l IH]; intros [| i]; simpl; auto.
Qed.

Lemma Forall2_nth_error {A B : Type} (R : A -> B -> Prop) (l : list A) (m : list B) :
  Forall2 R l m ->
  forall j y, nth_error m j = Some y ->
              exists x, nth_error l j = Some x /\ R x y.
Proof.
  induction 1 as [| x y l m Hxy H IH]; intros [| j] z Hj; simpl in *;
    try discriminate.
  - injection Hj as <-; eauto.
  - eauto.
Qed.

(** C6, as the code has it. A simple dataspace with 1 to 32 [dims], each an
    integer from 0 to 2^64-1, and as many [maxdims], each the unlimited
    marker, or an integer from 1 to 2^64-2 that is at least its [dims]
    entry, or a value that is neither an integer nor a string, passes
    [check_shape].  When one [maxdims] entry is then changed to an integer
    below its [dims] entry, [check_shape] fails: with "dims greater than
    maxdims" when the new value is positive, with "Dimension size out of
    range" when it is zero or negative. *)
Theorem simple_dataspace_rule (sh : list (string * json)) (dims maxdims : list json) :
  jget "class" sh = Some (JStr "H5S_SIMPLE") ->
  jget "dims" sh = Some (JList dims) ->
  jget "maxdims" sh = Some (JList maxdims) ->
  (0 < List.length dims <= 32)%nat ->
  Forall dim_in_range dims ->
  Forall2 maxdim_in_range dims maxdims ->
  check_shape (JObj sh) = Ok tt /\
  forall i d zd v,
    nth_error dims i = Some d -> as_integral d = Some zd -> v < zd ->
    check_shape (JObj (jset "maxdims" (JList (list_set maxdims i (JInt v))) sh))
    = if 0 <? v
      then Raise ValueError "Dimension #%d: dims greater than maxdims"
      else Raise ValueError "Dataspace maxdims: Dimension size out of range: %d".
Proof.
  intros Hcls Hdims Hmax Hrank Hin Hcov.
  assert (Hlen : List.length maxdims = List.length dims)
    by (symmetry; eapply Forall2_length; eauto).
  split.
  - rewrite (check_shape_simple sh dims maxdims Hcls Hdims Hmax Hrank Hlen Hin).
    apply for_enumerate_ok; intros j m Hj.
    destruct (Forall2_nth_error _ _ _ Hcov _ _ Hj) as [d [Hd Hdm]].
    apply (maxdim_in_range_passes _ _ _ _ Hd Hdm).
  - intros i d zd v Hd Hzd Hlt.
    assert (Hi : exists m, nth_error maxdims i = Some m).
    { destruct (nth_error maxdims i) eqn:E; eauto.
      apply nth_error_None in E.
      assert (i < List.length dims)%nat by (apply nth_error_Some; congruence).
      lia. }
    destruct Hi as [m Hm].
    rewrite (check_shape_simple _ dims (list_set maxdims i (JInt v))).
    + assert (Hin_range : dim_in_range d)
        by (rewrite Forall_forall in Hin; apply Hin; eapply nth_error_In; eauto).
      destruct Hin_range as [z [Hz Hr]]; assert (z = zd) by congruence; subst z.
      assert (Hbefore : forall j y, (j < i)%nat ->
                nth_error (list_set maxdims i (JInt v)) j = Some y ->
                check_shape_maxdim dims (0 + j) y = Ok tt).
      { intros j y Hji Hy.
        rewrite nth_error_list_set_other in Hy by lia.
        destruct (Forall2_nth_error _ _ _ Hcov _ _ Hy) as [d' [Hd' Hdm]].
        apply (maxdim_in_range_passes _ _ _ _ Hd' Hdm). }
      assert (Hset : nth_error (list_set maxdims i (JInt v)) i = Some (JInt v))
        by (eapply nth_error_list_set_same; eauto).
      destruct (0 <? v) eqn:Hpos;
        apply (for_enumerate_first_failure _ _ _ _ 0%nat i (JInt v) Hset);
        try exact Hbefore;
        unfold check_shape_maxdim; cbn [as_integral Nat.add].
      * apply Z.ltb_lt in Hpos.
        assert ((v <=? 0) = false) as -> by (apply Z.leb_gt; lia).
        assert ((v >=? uint64_max) = false) as ->
            by (rewrite Z.geb_leb; apply Z.leb_gt; lia).
        unfold py_index; rewrite Hd; cbn [bind orb]; rewrite Hzd.
        assert ((zd >? v) = true) as -> by (rewrite Z.gtb_ltb; apply Z.ltb_lt; lia).
        reflexivity.
      * apply Z.ltb_ge in Hpos.
        assert ((v <=? 0) = true) as -> by (apply Z.leb_le; lia).
        reflexivity.
    + rewrite jget_jset_other by discriminate; exact Hcls.
    + rewrite jget_jset_other by discriminate; exact Hdims.
    + apply jget_jset_same.
    + exact Hrank.
    + rewrite length_list_set; exact Hlen.
    + exact Hin.
Qed.

Lemma simple_dataspace_rule_witness :
  check_shape (simple_shape [JInt 2; JInt 3] [JInt 4; JStr "H5S_UNLIMITED"])
  = Ok tt /\
  forall i d zd v,
    nth_error [JInt 2; JInt 3] i = Some d -> as_integral d = Some zd -> v < zd ->
    check_shape
      (JObj (jset "maxdims"
                  (JList (list_set [JInt 4; JStr "H5S_UNLIMITED"] i (JInt v)))
                  [("class", JStr "H5S_SIMPLE");
                   ("dims", JList [JInt 2; JInt 3]);
                   ("maxdims", JList [JInt 4; JStr "H5S_UNLIMITED"])]))
    = if 0 <? v
      then Raise ValueError "Dimension #%d: dims greater than maxdims"
      else Raise ValueError "Dataspace maxdims: Dimension size out of range: %d".
Proof.
  apply (simple_dataspace_rule
           [("class", JStr "H5S_SIMPLE"); ("dims", JList [JInt 2; JInt 3]);
            ("maxdims", JList [JInt 4; JStr "H5S_UNLIMITED"])]
           [JInt 2; JInt 3] [JInt 4; JStr "H5S_UNLIMITED"]).
  - reflexivity.
  - reflexivity.
  - reflexivity.
  - simpl; lia.
  - repeat constructor; eexists; (split; [reflexivity | unfold uint64_max; lia]).
  - constructor; [| constructor; [| constructor]].
    + right; right; exists 2, 4; unfold uint64_max; repeat split; lia.
    + left; reflexivity.
Defined.

(** C6, as the specification states it, fails twice.  A dataspace within
    its premise is refused: [dims = [0]] with [maxdims = [0]].  And the
    valid dataspace [dims = [3]], [maxdims = [5]], once its [maxdims] entry
    is changed to 0, which is below 3, fails with "Dimension size out of
    range", not with "dims greater than maxdims". *)
Lemma maxdims_premise_not_enough :
  (spec_simple_premise [JInt 0] [JInt 0] /\
   check_shape (simple_shape [JInt 0] [JInt 0])
   = Raise ValueError "Dataspace maxdims: Dimension size out of range: %d") /\
  (check_shape (simple_shape [JInt 3] [JInt 5]) = Ok tt /\ 0 < 3 /\
   check_shape (simple_shape [JInt 3] (list_set [JInt 5] 0 (JInt 0)))
   = Raise ValueError "Dataspace maxdims: Dimension size out of range: %d").
Proof.
  split; [split; [| reflexivity] | split; [reflexivity | split; [lia | reflexivity]]].
  constructor; [| constructor].
  right; exists 0, 0; repeat split; lia.
Qed.

(** ** Object validation *)

Lemma py_getitem_ok (c : json) (k : string) (v : json) :
  py_getitem c k = Ok v -> exists d, c = JObj d /\ jget k d = Some v.
Proof.
  destruct c as [| b | z | q | t | l | d]; simpl; try discriminate.
  destruct (jget k d) as [w |] eqn:E; [| discriminate].
  intros H; injection H as <-; eauto.
Qed.

Lemma py_contains_of_getitem (c : json) (k : string) (v : json) :
  py_getitem c k = Ok v -> py_contains k c = Ok true.
Proof.
  intros H; apply py_getitem_ok in H; destruct H as [d [-> H]].
  simpl; rewrite H; reflexivity.
Qed.

Lemma validate_ok_stages (h5j : json) (reqd : list string) :
  validate_h5json h5j reqd = Ok tt ->
  validate_required h5j reqd = Ok tt /\ validate_shape h5j = Ok tt /\
  validate_type h5j = Ok tt /\ validate_value h5j = Ok tt /\
  validate_name h5j = Ok tt /\ validate_creation_properties h5j = Ok tt.
Proof.
  unfold validate_h5json; intros H.
  repeat (apply bind_unit_ok in H; destruct H as [? H]).
  repeat split; assumption.
Qed.

Lemma creation_properties_ok (h5j cp : json) :
  validate_creation_properties h5j = Ok tt ->
  py_getitem h5j "creationProperties" = Ok cp ->
  validate_name_encoding cp = Ok tt /\ validate_layout h5j cp = Ok tt /\
  validate_filters h5j cp = Ok tt /\ validate_fill_value h5j cp = Ok tt.
Proof.
  unfold validate_creation_properties; intros H Hcp.
  rewrite (py_contains_of_getitem _ _ _ Hcp), Hcp in H; cbn [bind] in H.
  repeat (apply bind_unit_ok in H; destruct H as [? H]).
  repeat split; assumption.
Qed.

Lemma validated_parts (h5j : json) (reqd : list string) (cp : json) :
  validate_h5json h5j reqd = Ok tt ->
  py_getitem h5j "creationProperties" = Ok cp ->
  validate_layout h5j cp = Ok tt /\ validate_filters h5j cp = Ok tt.
Proof.
  intros H Hcp; apply validate_ok_stages in H.
  destruct H as (_ & _ & _ & _ & _ & H).
  destruct (creation_properties_ok _ _ H Hcp) as (_ & ? & ? & _); auto.
Qed.

Lemma Qlt_bool_false (a b : Q) : Qlt_bool a b = false -> (b <= a)%Q.
Proof.
  unfold Qlt_bool; intros H; apply negb_false_iff in H.
  apply Qle_bool_iff; exact H.
Qed.

Lemma chunk_layout_ok (h5j cp shape layout : json) (cdims : list json) :
  validate_layout h5j cp = Ok tt ->
  py_getitem h5j "shape" = Ok shape ->
  py_getitem shape "class" = Ok (JStr "H5S_SIMPLE") ->
  py_getitem cp "layout" = Ok layout ->
  py_getitem layout "class" = Ok (JStr "H5D_CHUNKED") ->
  py_getitem layout "dims" = Ok (JList cdims) ->
  exists max_dims,
    effective_max_dims shape = Ok (JList max_dims) /\
    for_enumerate (check_chunk_max cdims) 0 max_dims = Ok tt.
Proof.
  intros H Hshape Hscls Hlayout Hlcls Hcdims.
  unfold validate_layout in H.
  rewrite (py_contains_of_getitem _ _ _ Hlayout), Hlayout in H; cbn [bind] in H.
  rewrite (py_contains_of_getitem _ _ _ Hlcls), Hlcls in H.
  cbn [bind str_in existsb py_eq String.eqb Ascii.eqb Bool.eqb negb orb andb] in H.
  rewrite (py_contains_of_getitem _ _ _ Hcdims), Hcdims in H; cbn [bind] in H.
  bind_drop H as sizes.
  bind_skip H.
  rewrite Hshape in H; cbn [bind] in H; rewrite Hscls in H.
  cbn [bind py_eq String.eqb Ascii.eqb Bool.eqb] in H.
  bind_inv H as sdims Hsdims.
  bind_drop H as rank.
  bind_skip H.
  bind_inv H as mdv Hmdv.
  bind_inv H as max_dims Hlist.
  destruct mdv; try discriminate Hlist; injection Hlist as ->.
  exists max_dims; split; [| exact H].
  unfold effective_max_dims; rewrite Hsdims; exact Hmdv.
Qed.

(** C7. When [validate_h5json] accepts a description with a simple dataspace
    and a chunked layout, then on every axis whose effective maximum
    dimension (the [maxdims] entry when the dataspace has [maxdims], else
    the [dims] entry) is a number, the chunk dimension is at most that
    number; an axis whose [maxdims] entry is a string (the unlimited
    marker) is not compared.  Shape [dims = [2, 3]] without [maxdims] and
    chunks [[2, 4]] fails the check; [dims = [2]] with an unlimited
    [maxdims] and chunks [[100]] passes. *)
Theorem chunk_dims_within_effective_max
        (h5j : json) (reqd : list string) (shape cp layout : json)
        (cdims : list json) :
  validate_h5json h5j reqd = Ok tt ->
  py_getitem h5j "shape" = Ok shape ->
  py_getitem shape "class" = Ok (JStr "H5S_SIMPLE") ->
  py_getitem h5j "creationProperties" = Ok cp ->
  py_getitem cp "layout" = Ok layout ->
  py_getitem layout "class" = Ok (JStr "H5D_CHUNKED") ->
  py_getitem layout "dims" = Ok (JList cdims) ->
  (exists max_dims,
      effective_max_dims shape = Ok (JList max_dims) /\
      forall n d q,
        nth_error max_dims n = Some d -> as_real d = Some q ->
        exists c cz,
          nth_error cdims n = Some c /\ as_integral c = Some cz /\
          (inject_Z cz <= q)%Q) /\
  validate_h5json (chunked_dataset [2; 3] [2; 4]) []
  = Raise ValueError "Chunking dim size %d greater than max size %d" /\
  validate_h5json
    (JObj [("shape", JObj [("class", JStr "H5S_SIMPLE");
                           ("dims", JList [JInt 2]);
                           ("maxdims", JList [JStr "H5S_UNLIMITED"])]);
           ("type", atomic_type "H5T_INTEGER" "H5T_STD_I32LE");
           ("creationProperties",
            JObj [("layout", JObj [("class", JStr "H5D_CHUNKED");
                                   ("dims", JList [JInt 100])])])]) []
  = Ok tt.
Proof.
  intros H Hshape Hscls Hcp Hlayout Hlcls Hcdims.
  split; [| split; reflexivity].
  destruct (validated_parts _ _ _ H Hcp) as [Hl _].
  destruct (chunk_layout_ok _ _ _ _ _ Hl Hshape Hscls Hlayout Hlcls Hcdims)
    as [max_dims [Hmax Hloop]].
  exists max_dims; split; [exact Hmax |].
  intros n d q Hd Hq.
  pose proof (for_enumerate_ok_inv _ _ _ Hloop _ _ Hd) as Hbody.
  unfold check_chunk_max in Hbody; cbn [Nat.add] in Hbody.
  assert (Hstr : is_basestring d = false)
    by (destruct d; try reflexivity; discriminate Hq).
  rewrite Hstr in Hbody.
  bind_inv Hbody as c Hc.
  unfold py_index in Hc.
  destruct (nth_error cdims n) as [c' |] eqn:Hn; [| discriminate Hc].
  injection Hc as ->.
  destruct (as_integral c) as [cz |] eqn:Hcz; [| discriminate Hbody].
  exists c, cz; repeat split; try reflexivity; try assumption.
  destruct (py2_lt_int d cz) eqn:Hlt; [destruct d; discriminate Hbody |].
  apply Qlt_bool_false.
  unfold py2_lt_int in Hlt; rewrite Hq in Hlt.
  destruct d; try exact Hlt; discriminate Hq.
Qed.

(** The same check read the other way: once the chunk dimensions are read and the
    ranks agree, an axis whose chunk dimension exceeds a numeric effective
    maximum makes the loop over [max_dims] raise; it is the ValueError when
    no entry of [max_dims] is [None]. *)
Lemma chunk_exceeding_axis_rejected
      (cdims max_dims : list json) (sizes : list Z)
      (n : nat) (d c : json) (q : Q) (cz : Z) :
  map_m check_chunk_dim cdims = Ok sizes ->
  List.length max_dims = List.length cdims ->
  ~ In JNull max_dims ->
  nth_error max_dims n = Some d -> as_real d = Some q ->
  nth_error cdims n = Some c -> as_integral c = Some cz ->
  (q < inject_Z cz)%Q ->
  for_enumerate (check_chunk_max cdims) 0 max_dims
  = Raise ValueError "Chunking dim size %d greater than max size %d".
Proof.
  intros Hsizes Hlen Hnull Hd Hq Hc Hcz Hlt.
  apply (for_enumerate_some_failure _ _ _ _ 0%nat n d); [| exact Hd |].
  - intros j y Hy; cbn [Nat.add]; unfold check_chunk_max.
    assert (Hy_null : y <> JNull)
      by (intros ->; apply Hnull; eapply nth_error_In; exact Hy).
    destruct (is_basestring y); [left; reflexivity |].
    assert (Hj : (j < List.length cdims)%nat)
      by (rewrite <- Hlen; apply nth_error_Some; congruence).
    destruct (nth_error cdims j) as [cj |] eqn:Ecj;
      [| apply nth_error_None in Ecj; lia].
    unfold py_index; rewrite Ecj; cbn [bind].
    destruct (map_m_nth _ _ _ Hsizes _ _ Ecj) as [zj Hzj].
    unfold check_chunk_dim in Hzj.
    destruct (as_integral cj) as [z |]; [| discriminate Hzj].
    destruct (py2_lt_int y z); [right | left; reflexivity].
    destruct y; try reflexivity; contradiction Hy_null; reflexivity.
  - cbn [Nat.add]; unfold check_chunk_max.
    assert (Hstr : is_basestring d = false)
      by (destruct d; try reflexivity; discriminate Hq).
    rewrite Hstr; unfold py_index; rewrite Hc; cbn [bind]; rewrite Hcz.
    assert (py2_lt_int d cz = true) as ->;
      [| destruct d; try reflexivity; discriminate Hq].
    unfold py2_lt_int; rewrite Hq.
    assert (Qlt_bool q (inject_Z cz) = true).
    { unfold Qlt_bool; apply negb_true_iff.
      destruct (Qle_bool (inject_Z cz) q) eqn:E; [| reflexivity].
      apply Qle_bool_iff in E; exfalso; apply (Qlt_not_le _ _ Hlt E). }
    destruct d; try assumption; reflexivity.
Qed.

Lemma check_filter_scaleoffset (h5j : json) (n : nat) (f : json) :
  check_filter h5j n f = Ok tt ->
  py_getitem f "class" = Ok (JStr "H5Z_FILTER_SCALEOFFSET") ->
  check_scaleoffset h5j f = Ok tt.
Proof.
  intros H Hcls.
  destruct (py_getitem_ok _ _ _ Hcls) as [fd [-> Hfd]].
  unfold check_filter in H.
  bind_drop H as has_class.
  bind_skip H.
  bind_drop H as has_id.
  bind_skip H.
  rewrite Hcls in H; exact H.
Qed.

Lemma check_scaleoffset_ok (h5j f st : json) :
  check_scaleoffset h5j f = Ok tt ->
  py_getitem f "scaleType" = Ok st ->
  st <> JStr "H5Z_SO_FLOAT_ESCALE" /\
  (st = JStr "H5Z_SO_INT" -> type_class h5j = Ok (JStr "H5T_INTEGER")) /\
  (st = JStr "H5Z_SO_FLOAT_DSCALE" -> type_class h5j = Ok (JStr "H5T_FLOAT")).
Proof.
  intros H Hst; unfold check_scaleoffset in H.
  rewrite (py_contains_of_getitem _ _ _ Hst), Hst in H; cbn [bind] in H.
  bind_skip H.
  bind_drop H as has_so.
  bind_skip H.
  bind_inv H as int_mismatch Hint.
  apply bind_unit_ok in H; destruct H as [H _].
  destruct int_mismatch; [discriminate H |].
  bind_inv H as float_mismatch Hfloat.
  destruct float_mismatch; [discriminate H |].
  repeat split.
  - intros ->; discriminate H.
  - intros ->; cbn in Hint.
    bind_inv Hint as tcls Htcls.
    injection Hint as Hint; apply negb_false_iff, py_eq_str in Hint; subst tcls.
    exact Htcls.
  - intros ->; cbn in Hfloat.
    bind_inv Hfloat as tcls Htcls.
    injection Hfloat as Hfloat; apply negb_false_iff, py_eq_str in Hfloat; subst tcls.
    exact Htcls.
Qed.

(** C9. In a description that [validate_h5json] accepts, no ScaleOffset
    filter entry has the scale type H5Z_SO_FLOAT_ESCALE, one with
    H5Z_SO_INT goes with the datatype class H5T_INTEGER, and one with
    H5Z_SO_FLOAT_DSCALE goes with the datatype class H5T_FLOAT.  The
    ScaleOffset check itself refuses H5Z_SO_FLOAT_ESCALE as "not supported
    yet". *)
Theorem scaleoffset_scale_type_rule
        (h5j : json) (reqd : list string) (cp : json) (fltrs : list json)
        (f st : json) :
  validate_h5json h5j reqd = Ok tt ->
  py_getitem h5j "creationProperties" = Ok cp ->
  py_getitem cp "filters" = Ok (JList fltrs) ->
  In f fltrs ->
  py_getitem f "class" = Ok (JStr "H5Z_FILTER_SCALEOFFSET") ->
  py_getitem f "scaleType" = Ok st ->
  (st <> JStr "H5Z_SO_FLOAT_ESCALE" /\
   (st = JStr "H5Z_SO_INT" -> type_class h5j = Ok (JStr "H5T_INTEGER")) /\
   (st = JStr "H5Z_SO_FLOAT_DSCALE" -> type_class h5j = Ok (JStr "H5T_FLOAT"))) /\
  (forall (g : json) (so : json),
      py_getitem g "scaleType" = Ok (JStr "H5Z_SO_FLOAT_ESCALE") ->
      py_getitem g "scaleOffset" = Ok so ->
      check_scaleoffset h5j g
      = Raise ValueError "%s: Scale-offset filter type not supported yet").
Proof.
  intros H Hcp Hfl Hin Hcls Hst; split.
  - destruct (validated_parts _ _ _ H Hcp) as [_ Hf].
    unfold validate_filters in Hf.
    rewrite (py_contains_of_getitem _ _ _ Hfl), Hfl in Hf; cbn [bind] in Hf.
    bind_drop Hf as has_layout.
    bind_skip Hf.
    apply bind_unit_ok in Hf; destruct Hf as [Hloop _].
    apply In_nth_error in Hin; destruct Hin as [n Hn].
    pose proof (for_enumerate_ok_inv _ _ _ Hloop _ _ Hn) as Hbody.
    apply (check_scaleoffset_ok h5j f st); [| exact Hst].
    eapply check_filter_scaleoffset; eauto.
  - intros g so Hg Hso; unfold check_scaleoffset.
    rewrite (py_contains_of_getitem _ _ _ Hg), Hg; cbn [bind].
    rewrite (py_contains_of_getitem _ _ _ Hso); reflexivity.
Qed.

(** C8, as the code has it. When the creation properties carry a layout
    whose class is not H5D_CHUNKED and a non-empty list of filters, the
    filter check fails with "Filters allowed only with chunked layout",
    [validate_h5json] never accepts the description, and it fails with that
    error when the checks before the filters pass. *)
Theorem filters_with_unchunked_layout
        (h5j : json) (reqd : list string) (cp layout lcls : json)
        (fltrs : list json) :
  py_getitem h5j "creationProperties" = Ok cp ->
  py_getitem cp "filters" = Ok (JList fltrs) ->
  fltrs <> [] ->
  py_getitem cp "layout" = Ok layout ->
  py_getitem layout "class" = Ok lcls ->
  lcls <> JStr "H5D_CHUNKED" ->
  validate_filters h5j cp
  = Raise ValueError "Filters allowed only with chunked layout" /\
  validate_h5json h5j reqd <> Ok tt /\
  (validate_required h5j reqd = Ok tt -> validate_shape h5j = Ok tt ->
   validate_type h5j = Ok tt -> validate_value h5j = Ok tt ->
   validate_name h5j = Ok tt -> validate_name_encoding cp = Ok tt ->
   validate_layout h5j cp = Ok tt ->
   validate_h5json h5j reqd
   = Raise ValueError "Filters allowed only with chunked layout").
Proof.
  intros Hcp Hfl Hne Hlayout Hlcls Hnot.
  assert (Hstage : validate_filters h5j cp
                   = Raise ValueError "Filters allowed only with chunked layout").
  { unfold validate_filters.
    rewrite (py_contains_of_getitem _ _ _ Hfl), Hfl; cbn [bind].
    rewrite (py_contains_of_getitem _ _ _ Hlayout), Hlayout; cbn [bind].
    rewrite Hlcls; cbn [bind].
    assert (py_eq lcls (JStr "H5D_CHUNKED") = false) as ->.
    { destruct (py_eq lcls (JStr "H5D_CHUNKED")) eqn:E; [| reflexivity].
      apply py_eq_str in E; contradiction. }
    destruct fltrs; [contradiction | reflexivity]. }
  split; [exact Hstage |]; split.
  - intros H; destruct (validated_parts _ _ _ H Hcp) as [_ Hf]; congruence.
  - intros H1 H2 H3 H4 H5 H6 H7; unfold validate_h5json.
    rewrite H1, H2, H3, H4, H5; cbn [bind].
    unfold validate_creation_properties.
    rewrite (py_contains_of_getitem _ _ _ Hcp), Hcp; cbn [bind].
    rewrite H6, H7, Hstage; reflexivity.
Qed.

(** C8, as the specification states it, fails: the test is made only when
    the creation properties carry a layout.  A description with a
    non-empty filter list and no layout (so no chunked layout) is
    accepted. *)
Lemma filters_without_layout_accepted :
  py_contains "layout" (JObj [("filters", JList [shuffle_filter])]) = Ok false /\
  validate_h5json
    (JObj [("shape", JObj [("class", JStr "H5S_SIMPLE"); ("dims", JList [JInt 10])]);
           ("type", atomic_type "H5T_INTEGER" "H5T_STD_I32LE");
           ("creationProperties", JObj [("filters", JList [shuffle_filter])])]) []
  = Ok tt.
Proof. split; reflexivity. Qed.

(** C10, as the code has it. A description that has its required fields, a
    [value], a valid dataspace of class H5S_NULL, and a valid [type] for
    which [value_check_factory] gives a checker, makes [validate_h5json]
    raise UnboundLocalError: [val] is read without having been bound. *)
Theorem null_dataspace_value_unbound
        (h5j : json) (reqd : list string) (shape value : json)
        (cond : json -> result unit) :
  validate_required h5j reqd = Ok tt ->
  py_getitem h5j "shape" = Ok shape ->
  check_shape shape = Ok tt ->
  py_getitem shape "class" = Ok (JStr "H5S_NULL") ->
  py_getitem h5j "value" = Ok value ->
  validate_type h5j = Ok tt ->
  type_checker h5j = Ok cond ->
  validate_h5json h5j reqd
  = Raise UnboundLocalError "local variable 'val' referenced before assignment".
Proof.
  intros Hreq Hshape Hcheck Hcls Hvalue Htype Hcond.
  unfold validate_h5json; rewrite Hreq; cbn [bind].
  unfold validate_shape.
  rewrite (py_contains_of_getitem _ _ _ Hshape), Hshape; cbn [bind].
  rewrite Hcheck, Htype; cbn [bind].
  unfold validate_value.
  rewrite (py_contains_of_getitem _ _ _ Hvalue); cbn [bind].
  unfold bind_val; rewrite Hshape; cbn [bind]; rewrite Hcls.
  cbn [bind py_eq String.eqb Ascii.eqb Bool.eqb]; rewrite Hcond; reflexivity.
Qed.

(** C10, as stated for every description with a [value] and a null
    dataspace, fails: with a reference datatype the validator raises
    NotImplementedError (unsupported datatype class), without a [type] it
    raises KeyError, and with a required field missing it raises the
    KeyError of the first check; in none of them is [val] read. *)
Lemma null_dataspace_value_other_errors :
  validate_h5json
    (JObj [("shape", JObj [("class", JStr "H5S_NULL")]);
           ("type", atomic_type "H5T_REFERENCE" "H5T_STD_REF_OBJ");
           ("value", JStr "datasets/D1")]) []
  = Raise NotImplementedError "%s: HDF5 datatype class is not supported." /\
  validate_h5json
    (JObj [("shape", JObj [("class", JStr "H5S_NULL")]); ("value", JInt 1)]) []
  = Raise KeyError "type" /\
  validate_h5json
    (JObj [("shape", JObj [("class", JStr "H5S_NULL")]);
           ("type", atomic_type "H5T_INTEGER" "H5T_STD_I32LE");
           ("value", JInt 1)]) ["name"]
  = Raise KeyError "%s: Required but missing".
Proof. repeat split; reflexivity. Qed.

Lemma wrap_int64_small (z : Z) : - 2 ^ 63 <= z < 2 ^ 63 -> wrap_int64 z = z.
Proof.
  intros H; unfold wrap_int64; rewrite Z.mod_small; lia.
Qed.

Lemma product_pos (l : list Z) : Forall (fun d => 0 < d) l -> 0 < product l.
Proof.
  induction 1 as [| d l Hd _ IH]; simpl; [lia | unfold product in *; simpl; nia].
Qed.

Lemma np_prod_from (l : list Z) :
  Forall (fun d => 0 < d) l ->
  forall acc, 0 < acc -> acc * product l < 2 ^ 63 ->
  fold_left (fun a d => wrap_int64 (a * d)) l acc = acc * product l.
Proof.
  induction 1 as [| d l Hd Hl IH]; intros acc Hacc Hbound; simpl.
  - unfold product; simpl; lia.
  - pose proof (product_pos _ Hl) as Hp.
    change (product (d :: l)) with (d * product l) in Hbound.
    assert (Hsmall : acc * d < 2 ^ 63) by nia.
    rewrite wrap_int64_small by nia.
    rewrite IH; [change (product (d :: l)) with (d * product l); ring | nia |].
    rewrite <- Z.mul_assoc; exact Hbound.
Qed.

(** Below 2^63 the product NumPy computes is the product. *)
Lemma np_prod_exact (l : list Z) :
  Forall (fun d => 0 < d) l -> product l < 2 ^ 63 -> np_prod l = product l.
Proof.
  intros Hl Hb; unfold np_prod; rewrite np_prod_from; auto; lia.
Qed.

(** C4. The chunk dimensions 65536 x 65536 x 65536 x 65536 are each within
    1..2^32-1 and their product 2^64 is not less than 2^32, yet the product
    [np.prod] computes in 64 bits is 0 and [validate_h5json] accepts the
    description instead of raising "Number of elements in a chunk must be
    less than 2^32". *)
Theorem chunk_product_wraps_around :
  Forall (fun d => 0 < d <= 4294967295) [65536; 65536; 65536; 65536] /\
  2 ^ 32 <= product [65536; 65536; 65536; 65536] /\
  np_prod [65536; 65536; 65536; 65536] = 0 /\
  validate_h5json
    (chunked_dataset [65536; 65536; 65536; 65536]
                     [65536; 65536; 65536; 65536]) []
  = Ok tt.
Proof.
  split; [repeat constructor; lia |].
  split; [vm_compute; discriminate |].
  split; vm_compute; reflexivity.
Qed.

Lemma chunk_dims_within_effective_max_witness :
  exists max_dims,
    effective_max_dims (JObj [("class", JStr "H5S_SIMPLE");
                              ("dims", JList [JInt 2; JInt 3])])
    = Ok (JList max_dims) /\
    forall n d q,
      nth_error max_dims n = Some d -> as_real d = Some q ->
      exists c cz,
        nth_error [JInt 2; JInt 3] n = Some c /\ as_integral c = Some cz /\
        (inject_Z cz <= q)%Q.
Proof.
  apply (chunk_dims_within_effective_max
           (chunked_dataset [2; 3] [2; 3]) []
           (JObj [("class", JStr "H5S_SIMPLE"); ("dims", JList [JInt 2; JInt 3])])
           (JObj [("layout", JObj [("class", JStr "H5D_CHUNKED");
                                   ("dims", JList [JInt 2; JInt 3])])])
           (JObj [("class", JStr "H5D_CHUNKED"); ("dims", JList [JInt 2; JInt 3])])
           [JInt 2; JInt 3]); reflexivity.
Defined.

Lemma scaleoffset_scale_type_rule_witness :
  JStr "H5Z_SO_INT" <> JStr "H5Z_SO_FLOAT_ESCALE" /\
  (JStr "H5Z_SO_INT" = JStr "H5Z_SO_INT" ->
   type_class (filtered_dataset "H5D_CHUNKED" [scaleoffset_filter "H5Z_SO_INT"])
   = Ok (JStr "H5T_INTEGER")) /\
  (JStr "H5Z_SO_INT" = JStr "H5Z_SO_FLOAT_DSCALE" ->
   type_class (filtered_dataset "H5D_CHUNKED" [scaleoffset_filter "H5Z_SO_INT"])
   = Ok (JStr "H5T_FLOAT")).
Proof.
  apply (scaleoffset_scale_type_rule
           (filtered_dataset "H5D_CHUNKED" [scaleoffset_filter "H5Z_SO_INT"]) []
           (JObj [("layout", JObj [("class", JStr "H5D_CHUNKED");
                                   ("dims", JList [JInt 5])]);
                  ("filters", JList [scaleoffset_filter "H5Z_SO_INT"])])
           [scaleoffset_filter "H5Z_SO_INT"]
           (scaleoffset_filter "H5Z_SO_INT") (JStr "H5Z_SO_INT"));
    [reflexivity | reflexivity | reflexivity | left; reflexivity
     | reflexivity | reflexivity].
Defined.

Lemma filters_with_unchunked_layout_witness :
  validate_h5json (filtered_dataset "H5D_CONTIGUOUS" [shuffle_filter]) []
  = Raise ValueError "Filters allowed only with chunked layout".
Proof.
  apply (filters_with_unchunked_layout
           (filtered_dataset "H5D_CONTIGUOUS" [shuffle_filter]) []
           (JObj [("layout", JObj [("class", JStr "H5D_CONTIGUOUS")]);
                  ("filters", JList [shuffle_filter])])
           (JObj [("class", JStr "H5D_CONTIGUOUS")])
           (JStr "H5D_CONTIGUOUS") [shuffle_filter]);
    try reflexivity; discriminate.
Defined.

Lemma null_dataspace_value_unbound_witness :
  validate_h5json
    (JObj [("shape", JObj [("class", JStr "H5S_NULL")]);
           ("type", atomic_type "H5T_INTEGER" "H5T_STD_I32LE");
           ("value", JInt 1)]) []
  = Raise UnboundLocalError "local variable 'val' referenced before assignment".
Proof.
  apply (null_dataspace_value_unbound
           (JObj [("shape", JObj [("class", JStr "H5S_NULL")]);
                  ("type", atomic_type "H5T_INTEGER" "H5T_STD_I32LE");
                  ("value", JInt 1)]) []
           (JObj [("class", JStr "H5S_NULL")]) (JInt 1)
           (check_integer (- 2 ^ 31) (2 ^ 31 - 1)));
    reflexivity.
Defined.

(** Where the product stays below 2^63 the check of the source is the
    check of the specification. *)
Lemma chunk_product_check_exact (l : list Z) :
  Forall (fun d => 0 < d) l -> product l < 2 ^ 63 ->
  (np_prod l >? 4294967295) = true <-> 2 ^ 32 <= product l.
Proof.
  intros Hl Hb; rewrite (np_prod_exact l Hl Hb), Z.gtb_ltb, Z.ltb_lt; lia.
Qed.

(** ** The fuel of [check_type] and of [tree_walker] *)

Lemma jget_depth (k : string) (d : list (string * json)) (v : json) :
  jget k d = Some v -> (json_depth v < json_depth (JObj d))%nat.
Proof.
  induction d as [| [k' w] d IH]; simpl; [discriminate |].
  destruct (String.eqb k k').
  - intros H; injection H as ->; lia.
  - intros H; apply IH in H; simpl in H; lia.
Qed.

Lemma py_getitem_depth (c : json) (k : string) (v : json) :
  py_getitem c k = Ok v -> (json_depth v < json_depth c)%nat.
Proof.
  intros H; apply py_getitem_ok in H; destruct H as [d [-> H]].
  eapply jget_depth; eauto.
Qed.

Lemma in_list_depth (x : json) (l : list json) :
  In x l -> (json_depth x < json_depth (JList l))%nat.
Proof.
  induction l as [| y l IH]; simpl; [intros [] |].
  intros [-> | H]; [lia | apply IH in H; simpl in H; lia].
Qed.

Lemma map_m_ext_in {A B : Type} (f g : A -> result B) (l : list A) :
  (forall x, In x l -> f x = g x) -> map_m f l = map_m g l.
Proof.
  induction l as [| x l IH]; intros H; simpl; [reflexivity |].
  rewrite (H x (or_introl eq_refl)), IH; [reflexivity |].
  intros y Hy; apply H; right; exact Hy.
Qed.

Lemma bind_ext {A B : Type} (c : result A) (k1 k2 : A -> result B) :
  (forall a, c = Ok a -> k1 a = k2 a) -> bind c k1 = bind c k2.
Proof.
  destruct c as [a | e msg]; simpl; [intros H; apply H; reflexivity | reflexivity].
Qed.

(** Past the depth of the descriptor the fuel does not matter: the
    recursion of [check_type] never runs out of it. *)
Lemma check_type_rec_stable (n : nat) :
  forall (t : json) (m : nat),
    (json_depth t < n)%nat -> (json_depth t < m)%nat ->
    check_type_rec n t = check_type_rec m t.
Proof.
  induction n as [| n IH]; intros t m Hn Hm; [lia |].
  destruct m as [| m]; [lia |].
  cbn [check_type_rec].
  apply bind_ext; intros has_class _.
  apply bind_ext; intros _ _.
  apply bind_ext; intros tcls _.
  destruct (py_eq tcls (JStr "H5T_COMPOUND")).
  { apply bind_ext; intros has_fields _.
    apply bind_ext; intros _ _.
    apply bind_ext; intros fields Hfields.
    apply py_getitem_depth in Hfields.
    destruct fields as [| b | z | q | s | fs | d]; try reflexivity.
    apply bind_ext; intros _ _.
    f_equal.
    apply map_m_ext_in; intros f Hf.
    apply in_list_depth in Hf.
    apply bind_ext; intros has_name _.
    apply bind_ext; intros _ _.
    apply bind_ext; intros name _.
    apply bind_ext; intros len _.
    apply bind_ext; intros _ _.
    apply bind_ext; intros has_type _.
    apply bind_ext; intros _ _.
    apply bind_ext; intros ftype Hftype.
    apply py_getitem_depth in Hftype.
    rewrite (IH ftype m) by lia; reflexivity. }
  destruct (py_eq tcls (JStr "H5T_VLEN")).
  { apply bind_ext; intros has_base _.
    apply bind_ext; intros _ _.
    apply bind_ext; intros base Hbase.
    apply py_getitem_depth in Hbase.
    apply IH; lia. }
  destruct (py_eq tcls (JStr "H5T_ARRAY")); [| reflexivity].
  apply bind_ext; intros has_dims _.
  apply bind_ext; intros _ _.
  apply bind_ext; intros dims _.
  destruct dims as [| b | z | q | s | ds | d]; try reflexivity.
  apply bind_ext; intros _ _.
  apply bind_ext; intros _ _.
  apply bind_ext; intros has_base _.
  apply bind_ext; intros _ _.
  apply bind_ext; intros base Hbase.
  apply py_getitem_depth in Hbase.
  apply IH; lia.
Qed.

Lemma check_type_any_fuel (t : json) (n : nat) :
  (json_depth t < n)%nat -> check_type_rec n t = check_type t.
Proof.
  intros H; unfold check_type; apply check_type_rec_stable; lia.
Qed.

Lemma fold_m_more {A S : Type} (f g : S -> A -> result S) (l : list A) :
  (forall s x r, f s x = Ok r -> g s x = Ok r) ->
  forall s r, fold_m f l s = Ok r -> fold_m g l s = Ok r.
Proof.
  intros Hfg; induction l as [| x l IH]; intros s r H; simpl in *; [exact H |].
  apply bind_ok in H; destruct H as [s' [Hx H]].
  rewrite (Hfg _ _ _ Hx); simpl; apply IH; exact H.
Qed.

(** A walk that returns with some fuel returns the same with more. *)
Lemma tree_walker_more_fuel (h5j : json) (n : nat) :
  forall g st r,
    tree_walker n h5j g st = Ok r -> tree_walker (S n) h5j g st = Ok r.
Proof.
  induction n as [| n IH]; intros g st r H; [discriminate H |].
  cbn [tree_walker] in H.
  bind_inv H as dlinks Hdl.
  bind_inv H as dinfos Hdi.
  bind_inv H as glinks Hgl.
  bind_inv H as chld Hch.
  remember (S n) as n1; cbn [tree_walker]; subst n1.
  rewrite Hdl; cbn [bind]; rewrite Hdi; cbn [bind].
  rewrite Hgl; cbn [bind]; rewrite Hch; cbn [bind].
  eapply fold_m_more; [| exact H].
  intros s x r'; apply IH.
Qed.

(** ** The hierarchy walker *)

Section Walk.

Variable h5j : json.

Lemma walk_children (n : nat) (children : list objinfo) :
  Forall (walk_adds h5j n) children ->
  exists gbs dbs,
    map_m (group_blocks n h5j) children = Ok gbs /\
    map_m (preorder_datasets n h5j) children = Ok dbs /\
    forall grps dsets,
      fold_m (fun st cg => tree_walker n h5j cg st) children (grps, dsets)
      = Ok (grps ++ List.concat gbs, dsets ++ List.concat dbs).
Proof.
  induction 1 as [| c children [gb [db [Hgb [Hdb Hc]]]] _ IH].
  - exists [], []; repeat split; intros; simpl; rewrite !app_nil_r; reflexivity.
  - destruct IH as [gbs [dbs [Hgbs [Hdbs Hfold]]]].
    exists (gb :: gbs), (db :: dbs); simpl.
    rewrite Hgb, Hdb, Hgbs, Hdbs; repeat split.
    intros grps dsets; rewrite Hc; simpl; rewrite Hfold, <- !app_assoc.
    reflexivity.
Qed.

Lemma tree_walker_adds (n : nat) :
  forall g, walkable n h5j g -> walk_adds h5j n g.
Proof.
  induction n as [| n IH]; intros g Hw; [destruct Hw |].
  destruct Hw as [own [children [Hown [Hch Hall]]]].
  assert (Hsub : Forall (walk_adds h5j n) children)
    by (eapply Forall_impl; [exact IH | exact Hall]).
  destruct (walk_children n children Hsub) as [gbs [dbs [Hgbs [Hdbs Hfold]]]].
  exists (children ++ List.concat gbs), (own ++ List.concat dbs).
  repeat split.
  - simpl; rewrite Hch; simpl; rewrite Hgbs; reflexivity.
  - simpl; rewrite Hown; simpl; rewrite Hch; simpl; rewrite Hdbs; reflexivity.
  - intros grps dsets.
    unfold child_datasets in Hown; apply bind_ok in Hown.
    destruct Hown as [dlinks [Hdl Hown]].
    unfold child_groups in Hch; apply bind_ok in Hch.
    destruct Hch as [glinks [Hgl Hch]].
    cbn [tree_walker]; rewrite Hdl; cbn [bind]; rewrite Hown; cbn [bind].
    rewrite Hgl; cbn [bind]; rewrite Hch; cbn [bind fst snd].
    rewrite Hfold, <- !app_assoc; reflexivity.
Qed.

Lemma walkable_more (n : nat) :
  forall g, walkable n h5j g -> walkable (S n) h5j g.
Proof.
  induction n as [| n IH]; intros g Hw; [destruct Hw |].
  destruct Hw as [own [children [Hown [Hch Hall]]]].
  exists own, children; repeat split; try assumption.
  eapply Forall_impl; [exact IH | exact Hall].
Qed.

End Walk.

Lemma filter_m_keeps {A : Type} (test : A -> result bool) (l kept : list A) :
  filter_m test l = Ok kept -> Forall (fun x => test x = Ok true) kept.
Proof.
  revert kept; induction l as [| x l IH]; simpl; intros kept H.
  - injection H as <-; constructor.
  - bind_inv H as keep Hx.
    bind_inv H as rest Hrest.
    injection H as <-; destruct keep; auto.
Qed.

Lemma hard_links_only (h5j gid : json) (collection : string) (links : list json) :
  _get_hard_links h5j gid collection = Ok links ->
  Forall (fun l => py_getitem l "class" = Ok (JStr "H5L_TYPE_HARD") /\
                   py_getitem l "collection" = Ok (JStr collection)) links.
Proof.
  unfold _get_hard_links; intros H.
  bind_drop H as groups.
  bind_drop H as g.
  bind_drop H as linksv.
  bind_drop H as all.
  apply filter_m_keeps in H.
  eapply Forall_impl; [| exact H].
  intros l Hl; unfold is_hard_link_to in Hl.
  bind_inv Hl as cls Hcls.
  destruct (py_eq cls (JStr "H5L_TYPE_HARD")) eqn:E; [| discriminate Hl].
  apply py_eq_str in E; subst cls.
  bind_inv Hl as coll Hcoll.
  injection Hl as Hl; apply py_eq_str in Hl; subst coll; auto.
Qed.

(** C3, as the code has it. In a hierarchy without a cycle below the root
    (of depth at most [n], every link readable), [order_objs] returns, for
    the groups, the root and then, for every group walked depth-first in
    link-declaration order, the block of all its child groups before what
    lies below each of them ([group_blocks]), and, for the datasets, those
    of each group in depth-first pre-order of the groups
    ([preorder_datasets]).  Only links of class H5L_TYPE_HARD and of the
    requested collection are followed.  The chain / -> /a -> /a/b gives
    exactly /, /a, /a/b in that order. *)
Theorem order_objs_order (n : nat) (h5j root : json) :
  py_getitem h5j "root" = Ok root ->
  walkable n h5j (root_info root) ->
  (exists gb db,
      group_blocks n h5j (root_info root) = Ok gb /\
      preorder_datasets n h5j (root_info root) = Ok db /\
      order_objs n h5j "group" = Ok (root_info root :: gb) /\
      forall otype, otype <> "group" -> order_objs n h5j otype = Ok db) /\
  (forall gid collection links,
      _get_hard_links h5j gid collection = Ok links ->
      Forall (fun l => py_getitem l "class" = Ok (JStr "H5L_TYPE_HARD") /\
                       py_getitem l "collection" = Ok (JStr collection)) links) /\
  order_objs 3 chain_design "group"
  = Ok [{| oi_id := JStr "root"; oi_path := "/" |};
        {| oi_id := JStr "a"; oi_path := "/a" |};
        {| oi_id := JStr "b"; oi_path := "/a/b" |}].
Proof.
  intros Hroot Hw; split; [| split; [intros; eapply hard_links_only; eauto | reflexivity]].
  destruct (tree_walker_adds h5j n _ Hw) as [gb [db [Hgb [Hdb Hrun]]]].
  exists gb, db; repeat split; try assumption.
  - unfold order_objs.
    rewrite (py_contains_of_getitem _ _ _ Hroot), Hroot; cbn [bind].
    fold (root_info root); rewrite Hrun; reflexivity.
  - intros otype Hne; unfold order_objs.
    rewrite (py_contains_of_getitem _ _ _ Hroot), Hroot; cbn [bind].
    fold (root_info root); rewrite Hrun; cbn [bind fst snd].
    destruct (String.eqb otype "group") eqn:E;
      [apply String.eqb_eq in E; contradiction | reflexivity].
Qed.

Lemma order_objs_order_witness :
  exists gb db,
    group_blocks 3 fork_design (root_info (JStr "root")) = Ok gb /\
    preorder_datasets 3 fork_design (root_info (JStr "root")) = Ok db /\
    order_objs 3 fork_design "group" = Ok (root_info (JStr "root") :: gb) /\
    forall otype, otype <> "group" -> order_objs 3 fork_design otype = Ok db.
Proof.
  apply (order_objs_order 3 fork_design (JStr "root")); [reflexivity |].
  simpl; repeat (eexists; repeat split; try reflexivity; repeat constructor).
Defined.

(** C3, as the specification states it, fails for the groups: with / holding
    a and b, and a holding c, [order_objs] lists b before c, the child of
    a, where the depth-first pre-order lists c before b. *)
Lemma siblings_before_descendants :
  order_objs 3 fork_design "group"
  = Ok [{| oi_id := JStr "root"; oi_path := "/" |};
        {| oi_id := JStr "a"; oi_path := "/a" |};
        {| oi_id := JStr "b"; oi_path := "/b" |};
        {| oi_id := JStr "c"; oi_path := "/a/c" |}] /\
  preorder_groups 3 fork_design (root_info (JStr "root"))
  = Ok [{| oi_id := JStr "root"; oi_path := "/" |};
        {| oi_id := JStr "a"; oi_path := "/a" |};
        {| oi_id := JStr "c"; oi_path := "/a/c" |};
        {| oi_id := JStr "b"; oi_path := "/b" |}] /\
  order_objs 3 fork_design "group"
  <> preorder_groups 3 fork_design (root_info (JStr "root")).
Proof.
  repeat split; try reflexivity.
  vm_compute; discriminate.
Qed.

(** On a hierarchy with a cycle the walk runs out of any fuel: the
    recursion does not end by itself. *)
Lemma tree_walker_cycle (n : nat) :
  forall path st,
    (tree_walker n cycle_design {| oi_id := JStr "root"; oi_path := path |} st
     = Raise RuntimeError "maximum recursion depth exceeded") /\
    (tree_walker n cycle_design {| oi_id := JStr "a"; oi_path := path |} st
     = Raise RuntimeError "maximum recursion depth exceeded").
Proof.
  induction n as [| n IH]; intros path st; [split; reflexivity |].
  split; cbn [tree_walker oi_id].
  - replace (_get_hard_links cycle_design (JStr "root") "datasets")
      with (@Ok (list json) []) by reflexivity.
    replace (_get_hard_links cycle_design (JStr "root") "groups")
      with (Ok [hard_link "groups" "a" "a"]) by reflexivity.
    cbn [bind map_m link_info py_getitem jget hard_link String.eqb Ascii.eqb
         Bool.eqb oi_path fold_m].
    rewrite (proj2 (IH _ _)); reflexivity.
  - replace (_get_hard_links cycle_design (JStr "a") "datasets")
      with (@Ok (list json) []) by reflexivity.
    replace (_get_hard_links cycle_design (JStr "a") "groups")
      with (Ok [hard_link "groups" "root" "back"]) by reflexivity.
    cbn [bind map_m link_info py_getitem jget hard_link String.eqb Ascii.eqb
         Bool.eqb oi_path fold_m].
    rewrite (proj1 (IH _ _)); reflexivity.
Qed.

(** ** The UUID rewriter *)

Lemma json_nested_ind (P : json -> Prop) :
  P JNull -> (forall b, P (JBool b)) -> (forall z, P (JInt z)) ->
  (forall q, P (JReal q)) -> (forall s, P (JStr s)) ->
  (forall l, Forall P l -> P (JList l)) ->
  (forall d, P (JObj d)) ->
  forall j, P j.
Proof.
  intros Hnull Hbool Hint Hreal Hstr Hlist Hobj.
  fix IH 1; intros [| b | z | q | s | l | d].
  - exact Hnull.
  - apply Hbool.
  - apply Hint.
  - apply Hreal.
  - apply Hstr.
  - apply Hlist; induction l as [| x l IHl]; constructor;
      [apply IH | exact IHl].
  - apply Hobj.
Qed.

Lemma py_eq_refl_hashable (k : json) : hashable k = true -> py_eq k k = true.
Proof.
  destruct k as [| b | z | q | s | l | d]; simpl; try discriminate; intros _;
    try reflexivity.
  - apply Qeq_bool_iff; reflexivity.
  - apply Qeq_bool_iff; reflexivity.
  - apply Qeq_bool_iff; reflexivity.
  - apply String.eqb_refl.
Qed.

Lemma lookup_key_app_some (k : json) (m m2 : list (json * string)) (v : string) :
  lookup_key k m = Some v -> lookup_key k (m ++ m2) = Some v.
Proof.
  induction m as [| [k' v'] m IH]; simpl; [discriminate |].
  destruct (py_eq k' k); auto.
Qed.

Lemma lookup_key_app_none (k : json) (m m2 : list (json * string)) :
  lookup_key k m = None -> lookup_key k (m ++ m2) = lookup_key k m2.
Proof.
  induction m as [| [k' v'] m IH]; simpl; [reflexivity |].
  destruct (py_eq k' k); [discriminate | auto].
Qed.

Lemma lookup_key_in (k : json) (m : list (json * string)) (v : string) :
  lookup_key k m = Some v -> In v (map snd m).
Proof.
  induction m as [| [k' v'] m IH]; simpl; [discriminate |].
  destruct (py_eq k' k); [intros H; injection H as ->; auto | auto].
Qed.

Section RewriterRun.

Variable uuid4 : nat -> string.

Lemma grows_refl (s : subst) : grows uuid4 s s.
Proof. split; [exists []; rewrite app_nil_r; reflexivity | auto]. Qed.

Lemma grows_trans (s1 s2 s3 : subst) :
  grows uuid4 s1 s2 -> grows uuid4 s2 s3 -> grows uuid4 s1 s3.
Proof.
  intros [[a1 H1] I1] [[a2 H2] I2]; split; [| auto].
  exists (a1 ++ a2); rewrite H2, H1, app_assoc; reflexivity.
Qed.

Lemma later_grows (s s' : subst) (m : list (json * string)) :
  grows uuid4 s s' -> later s' m -> later s m.
Proof.
  intros [[a1 H1] _] [a2 H2]; exists (a1 ++ a2).
  rewrite H2, H1, app_assoc; reflexivity.
Qed.

Lemma later_self (s : subst) : later s (known s).
Proof. exists []; rewrite app_nil_r; reflexivity. Qed.

Lemma sub_of_later (s : subst) (m : list (json * string)) (k : json) (v : string) :
  lookup_key k (known s) = Some v -> later s m -> sub_of m k = v.
Proof.
  intros H [added ->]; unfold sub_of.
  rewrite (lookup_key_app_some _ _ _ _ H); reflexivity.
Qed.

Lemma drawn_value (s : subst) (k : json) (v : string) :
  drawn_in_order uuid4 s -> lookup_key k (known s) = Some v ->
  exists n, (n < drawn s)%nat /\ v = uuid4 n.
Proof.
  intros Hinv H; apply lookup_key_in in H; rewrite Hinv in H.
  apply in_map_iff in H; destruct H as [n [Hn Hin]].
  apply in_seq in Hin; exists n; split; [lia | auto].
Qed.

Lemma sub_uuid_get_grows (k : json) (s : subst) (v : string) (s' : subst) :
  sub_uuid_get uuid4 k s = Ok (v, s') ->
  grows uuid4 s s' /\ lookup_key k (known s') = Some v.
Proof.
  unfold sub_uuid_get.
  destruct (hashable k) eqn:Hk; [| discriminate].
  destruct (lookup_key k (known s)) as [w |] eqn:E; intros H; injection H as <- <-.
  - split; [apply grows_refl | exact E].
  - split; [split |]; cbn [known drawn].
    + eexists; reflexivity.
    + unfold drawn_in_order; cbn [known drawn]; intros Hinv.
      rewrite map_app, Hinv, seq_S, map_app; reflexivity.
    + rewrite (lookup_key_app_none _ _ _ E); simpl.
      rewrite (py_eq_refl_hashable _ Hk); reflexivity.
Qed.

Lemma mapped_grows (s s' : subst) (k : json) :
  grows uuid4 s s' -> mapped (known s) k -> mapped (known s') k.
Proof.
  intros [[added ->] _] [v Hv]; exists v; apply lookup_key_app_some; exact Hv.
Qed.

Lemma replace_uuid_grows (val : json) (s : subst) (val' : json) (s' : subst) :
  replace_uuid uuid4 val s = Ok (val', s') ->
  grows uuid4 s s' /\
  (forall m, later s' m -> val' = remap_string m val) /\
  (forall p, segment_of val = Some p -> mapped (known s') (JStr p)).
Proof.
  unfold replace_uuid, remap_string, segment_of.
  destruct val as [| b | z | q | v | l | d];
    try (intros H; injection H as <- <-;
         split; [apply grows_refl | split; [reflexivity | discriminate]]).
  destruct (prefix "datasets/" v);
    [| intros H; injection H as <- <-;
       split; [apply grows_refl | split; [reflexivity | discriminate]]].
  destruct (split_slash v) as [| p0 [| p1 rest]]; try discriminate.
  intros H; apply bind_ok in H; destruct H as [[n s1] [Hget H]].
  injection H as <- <-.
  destruct (sub_uuid_get_grows _ _ _ _ Hget) as [Hg Hl].
  split; [exact Hg | split].
  - intros m Hm; rewrite (sub_of_later _ _ _ _ Hl Hm); reflexivity.
  - intros p Hp; injection Hp as <-; exists n; exact Hl.
Qed.

Lemma scrub_item_grows :
  forall (item : json) (s : subst) (item' : json) (s' : subst),
    scrub_item uuid4 item s = Ok (item', s') ->
    grows uuid4 s s' /\
    (forall m, later s' m -> item' = remap_value m item) /\
    Forall (fun p => mapped (known s') (JStr p)) (segments item).
Proof.
  assert (Hleaf : forall item s item' s',
             replace_uuid uuid4 item s = Ok (item', s') ->
             (forall l, item <> JList l) ->
             grows uuid4 s s' /\
             (forall m, later s' m -> item' = remap_string m item) /\
             Forall (fun p => mapped (known s') (JStr p))
                    match segment_of item with Some p => [p] | None => [] end).
  { intros item s item' s' H _.
    destruct (replace_uuid_grows _ _ _ _ H) as [Hg [Hr Hs]].
    split; [exact Hg | split; [exact Hr |]].
    destruct (segment_of item) as [p |]; constructor; auto. }
  induction item as [| b | z | q | v | l IHl | d] using json_nested_ind;
    try (intros s item' s' H; apply (Hleaf _ _ _ _ H); discriminate).
  induction IHl as [| x xs Hx _ IHxs]; intros s item' s' H.
  - injection H as <- <-.
    split; [apply grows_refl | split; [reflexivity | constructor]].
  - cbn [scrub_item] in H.
    apply bind_ok in H; destruct H as [[l' s2] [Hloop H]].
    injection H as <- <-.
    apply bind_ok in Hloop; destruct Hloop as [[x' s1] [Hhead Hloop]].
    apply bind_ok in Hloop; destruct Hloop as [[xs' s3] [Htail Hloop]].
    injection Hloop as <- <-.
    destruct (Hx _ _ _ Hhead) as [Hg1 [Hr1 Hs1]].
    assert (Hrest : scrub_item uuid4 (JList xs) s1 = Ok (JList xs', s3))
      by (cbn [scrub_item]; rewrite Htail; reflexivity).
    destruct (IHxs _ _ _ Hrest) as [Hg2 [Hr2 Hs2]].
    split; [eapply grows_trans; eauto | split].
    + intros m Hm; cbn [remap_value map].
      rewrite <- (Hr1 m (later_grows _ _ _ Hg2 Hm)).
      pose proof (Hr2 m Hm) as Hxs; cbn [remap_value] in Hxs.
      injection Hxs as ->; reflexivity.
    + cbn [segments flat_map]; apply Forall_app; split; [| exact Hs2].
      eapply Forall_impl; [| exact Hs1].
      intros p Hp; eapply mapped_grows; eauto.
Qed.

Lemma scrub_value_grows (val : json) (s : subst) (val' : json) (s' : subst) :
  scrub_value uuid4 val s = Ok (val', s') ->
  grows uuid4 s s' /\
  (forall m, later s' m -> val' = remap_value m val) /\
  Forall (fun p => mapped (known s') (JStr p)) (segments val).
Proof.
  destruct val as [| b | z | q | v | l | d]; simpl; try discriminate.
  - destruct v; [| discriminate].
    intros H; injection H as <- <-.
    split; [apply grows_refl | split; [reflexivity | constructor]].
  - apply (scrub_item_grows (JList l)).
  - destruct d; [| discriminate].
    intros H; injection H as <- <-.
    split; [apply grows_refl | split; [reflexivity | constructor]].
Qed.

End RewriterRun.

(** The tests on [_objtype], [name] and [value] read the same from a dict
    whose [id] and [_pid] were assigned. *)
Lemma is_link_attribute_jset (k : string) (v : json) (d : list (string * json)) :
  k <> "_objtype" -> k <> "name" ->
  is_link_attribute (jset k v d) = is_link_attribute d.
Proof.
  intros H1 H2; unfold is_link_attribute.
  rewrite !jget_jset_other by congruence; reflexivity.
Qed.

Section RewriterObjects.

Variable uuid4 : nat -> string.

Lemma substitute_obj_grows (o : json) (s : subst) (o' : json) (s' : subst) :
  substitute_obj uuid4 o s = Ok (o', s') ->
  grows uuid4 s s' /\
  (forall m, later s' m -> o' = remap_obj m o) /\
  Forall (mapped (known s')) (old_ids o).
Proof.
  unfold substitute_obj; intros H.
  bind_inv H as id Hid.
  destruct (py_getitem_ok _ _ _ Hid) as [d [-> Hd]].
  apply bind_ok in H; destruct H as [[new_id s1] [Hget1 H]].
  destruct (sub_uuid_get_grows _ _ _ _ _ Hget1) as [Hg1 Hl1].
  cbn [py_setitem bind py_contains] in H.
  set (d1 := jset "id" (JStr new_id) d) in *.
  apply bind_ok in H; destruct H as [[o2 s2] [Hpid H]].
  assert (Hstep2 : grows uuid4 s1 s2 /\
                   (forall m, later s2 m ->
                      o2 = JObj match jget "_pid" d1 with
                                | Some pid => jset "_pid" (JStr (sub_of m pid)) d1
                                | None => d1
                                end) /\
                   (forall pid, jget "_pid" d1 = Some pid ->
                                mapped (known s2) pid)).
  { cbn [py_getitem] in Hpid.
    destruct (jget "_pid" d1) as [pid |] eqn:Epid; cbn [bind] in Hpid.
    - apply bind_ok in Hpid; destruct Hpid as [[new_pid s2'] [Hget2 Hpid]].
      injection Hpid as <- <-.
      destruct (sub_uuid_get_grows _ _ _ _ _ Hget2) as [Hg2 Hl2].
      split; [exact Hg2 | split].
      + intros m Hm; rewrite (sub_of_later _ _ _ _ Hl2 Hm); reflexivity.
      + intros pid' Hpid'; injection Hpid' as <-; exists new_pid; exact Hl2.
    - injection Hpid as <- <-.
      split; [apply grows_refl | split; [reflexivity | discriminate]]. }
  destruct Hstep2 as [Hg2 [Ho2 Hp2]].
  assert (Ho2' : exists d2, o2 = JObj d2 /\
                   is_link_attribute d2 = is_link_attribute d /\
                   jget "value" d2 = jget "value" d).
  { rewrite (Ho2 (known s2) (later_self s2)); eexists; split; [reflexivity |].
    subst d1; destruct (jget "_pid" (jset "id" (JStr new_id) d)); split;
      rewrite ?is_link_attribute_jset, ?jget_jset_other by discriminate;
      reflexivity. }
  destruct Ho2' as [d2 [-> [Hlink2 Hvalue2]]].
  bind_inv H as objtype Hot.
  bind_inv H as is_link Hlink.
  cbn [py_getitem] in Hot, Hlink.
  destruct (jget "_objtype" d2) as [ot |] eqn:Eot; [| discriminate Hot].
  injection Hot as <-.
  assert (His : is_link = is_link_attribute d2).
  { unfold is_link_attribute; rewrite Eot.
    destruct (py_eq ot (JStr "attribute")); cbn [andb].
    - destruct (jget "name" d2); [| discriminate Hlink].
      injection Hlink as <-; reflexivity.
    - injection Hlink as <-; reflexivity. }
  assert (Hfinal :
            exists s3, grows uuid4 s2 s3 /\ s' = s3 /\
              (forall m, later s3 m ->
                 o' = if is_link_attribute d2
                      then match jget "value" d2 with
                           | Some v => JObj (jset "value" (remap_value m v) d2)
                           | None => JObj d2
                           end
                      else JObj d2) /\
              Forall (mapped (known s3))
                     (if is_link_attribute d2
                      then match jget "value" d2 with
                           | Some v => map JStr (segments v)
                           | None => []
                           end
                      else [])).
  { rewrite <- His; destruct is_link.
    - cbn [py_contains py_getitem bind] in H.
      destruct (jget "value" d2) as [v |] eqn:Ev; cbn [bind] in H.
      + apply bind_ok in H; destruct H as [[v' s3] [Hscrub H]].
        injection H as <- <-.
        destruct (scrub_value_grows _ _ _ _ _ Hscrub) as [Hg3 [Hr3 Hs3]].
        exists s3; split; [exact Hg3 | split; [reflexivity | split]].
        * intros m Hm; rewrite (Hr3 m Hm); reflexivity.
        * apply Forall_map; exact Hs3.
      + injection H as <- <-; exists s2.
        split; [apply grows_refl | split; [reflexivity | split; [reflexivity | constructor]]].
    - injection H as <- <-; exists s2.
      split; [apply grows_refl | split; [reflexivity | split; [reflexivity | constructor]]]. }
  destruct Hfinal as [s3 [Hg3 [-> [Ho' Hs3]]]].
  split; [eapply grows_trans; [exact Hg1 | eapply grows_trans; eauto] | split].
  - intros m Hm; unfold remap_obj; rewrite Hd.
    assert (Hm2 : later s2 m) by (eapply later_grows; eauto).
    assert (Hm1 : later s1 m) by (eapply later_grows; eauto).
    rewrite (sub_of_later _ _ _ _ Hl1 Hm1); fold d1.
    pose proof (Ho2 m Hm2) as Hd2; injection Hd2 as Hd2.
    cbv zeta; rewrite <- Hd2.
    apply Ho'; exact Hm.
  - unfold old_ids; rewrite Hd.
    assert (Hpid_same : jget "_pid" d1 = jget "_pid" d)
      by (subst d1; apply jget_jset_other; discriminate).
    rewrite <- Hpid_same, <- Hlink2, <- Hvalue2.
    apply Forall_app; split; [| apply Forall_app; split; [| exact Hs3]].
    + constructor; [| constructor].
      apply (mapped_grows uuid4 s1 s3);
        [eapply grows_trans; eauto | exists new_id; exact Hl1].
    + destruct (jget "_pid" d1) as [pid |] eqn:Epid; constructor; [| constructor].
      apply (mapped_grows uuid4 s2 s3); [exact Hg3 | apply Hp2; reflexivity].
Qed.

Lemma substitute_objs_grows (objs : list json) :
  forall (s : subst) (objs' : list json) (s' : subst),
    substitute_objs uuid4 objs s = Ok (objs', s') ->
    grows uuid4 s s' /\
    (forall m, later s' m -> objs' = map (remap_obj m) objs) /\
    Forall (fun o => Forall (mapped (known s')) (old_ids o)) objs.
Proof.
  induction objs as [| o objs IH]; intros s objs' s' H; simpl in H.
  - injection H as <- <-.
    split; [apply grows_refl | split; [reflexivity | constructor]].
  - apply bind_ok in H; destruct H as [[o' s1] [Ho H]].
    apply bind_ok in H; destruct H as [[objs'' s2] [Hobjs H]].
    injection H as <- <-.
    destruct (substitute_obj_grows _ _ _ _ Ho) as [Hg1 [Hr1 Hs1]].
    destruct (IH _ _ _ Hobjs) as [Hg2 [Hr2 Hs2]].
    split; [eapply grows_trans; eauto | split].
    + intros m Hm; simpl.
      rewrite <- (Hr1 m (later_grows _ _ _ _ Hg2 Hm)), <- (Hr2 m Hm); reflexivity.
    + constructor; [| exact Hs2].
      eapply Forall_impl; [| exact Hs1].
      intros k Hk; eapply mapped_grows; eauto.
Qed.

(** The run is the rewriting by the mapping it ends with; the mapping
    holds every old identifier met, the root first, and its substitutes
    are the UUIDs drawn, in order. *)
Lemma run_is_remap (objs : list json) (root : json) (objs' : list json)
      (new_root : string) (s : subst) :
  substitute_uuids_run uuid4 objs root = Ok (objs', new_root, s) ->
  objs' = map (remap_obj (known s)) objs /\
  lookup_key root (known s) = Some new_root /\
  new_root = uuid4 0 /\
  drawn_in_order uuid4 s /\
  Forall (fun o => Forall (mapped (known s)) (old_ids o)) objs.
Proof.
  unfold substitute_uuids_run; intros H.
  apply bind_ok in H; destruct H as [[r0 s0] [Hseed H]].
  apply bind_ok in H; destruct H as [[objs1 s1] [Hobjs H]].
  apply bind_ok in H; destruct H as [[r2 s2] [Hlast H]].
  injection H as <- <- <-.
  destruct (sub_uuid_get_grows _ _ _ _ _ Hseed) as [Hg0 Hl0].
  destruct (substitute_objs_grows _ _ _ _ Hobjs) as [Hg1 [Hr1 Hs1]].
  destruct (sub_uuid_get_grows _ _ _ _ _ Hlast) as [Hg2 Hl2].
  split; [| split; [| split; [| split]]].
  - apply Hr1; destruct Hg2 as [Hadd _]; exact Hadd.
  - exact Hl2.
  - assert (Hr0 : r0 = uuid4 0).
    { unfold sub_uuid_get in Hseed; destruct (hashable root); [| discriminate].
      cbn in Hseed; injection Hseed as <- _; reflexivity. }
    destruct (grows_trans _ _ _ _ Hg1 Hg2) as [[added Hadd] _].
    rewrite Hadd, (lookup_key_app_some _ _ _ _ Hl0) in Hl2.
    congruence.
  - apply Hg2, Hg1, Hg0; reflexivity.
  - eapply Forall_impl; [| exact Hs1].
    intros o Ho; eapply Forall_impl; [| exact Ho].
    intros k Hk; eapply mapped_grows; eauto.
Qed.

End RewriterObjects.

Lemma remap_obj_id (m : list (json * string)) (d : list (string * json)) (id : json) :
  jget "id" d = Some id ->
  py_getitem (remap_obj m (JObj d)) "id" = Ok (JStr (sub_of m id)).
Proof.
  intros Hid; unfold remap_obj; rewrite Hid; cbv zeta.
  set (d1 := jset "id" (JStr (sub_of m id)) d).
  assert (H1 : jget "id" d1 = Some (JStr (sub_of m id))) by apply jget_jset_same.
  set (d2 := match jget "_pid" d1 with
             | Some pid => jset "_pid" (JStr (sub_of m pid)) d1
             | None => d1
             end).
  assert (H2 : jget "id" d2 = Some (JStr (sub_of m id))).
  { subst d2; destruct (jget "_pid" d1);
      rewrite ?jget_jset_other by discriminate; exact H1. }
  destruct (is_link_attribute d2); [destruct (jget "value" d2) |];
    cbn [py_getitem]; rewrite ?jget_jset_other by discriminate;
    rewrite H2; reflexivity.
Qed.

Lemma remap_obj_pid (m : list (json * string)) (d : list (string * json)) (p : json) :
  py_getitem (remap_obj m (JObj d)) "_pid" = Ok p ->
  exists pid, jget "_pid" d = Some pid /\ p = JStr (sub_of m pid).
Proof.
  unfold remap_obj; cbv zeta.
  set (d1 := match jget "id" d with
             | Some id => jset "id" (JStr (sub_of m id)) d
             | None => d
             end).
  assert (H1 : jget "_pid" d1 = jget "_pid" d).
  { subst d1; destruct (jget "id" d);
      rewrite ?jget_jset_other by discriminate; reflexivity. }
  rewrite H1.
  destruct (jget "_pid" d) as [pid |] eqn:Epid.
  - intros H; exists pid; split; [reflexivity |].
    destruct (is_link_attribute _); [destruct (jget "value" _) |];
      cbn [py_getitem] in H; rewrite ?jget_jset_other in H by discriminate;
      rewrite jget_jset_same in H; injection H as <-; reflexivity.
  - intros H; exfalso.
    destruct (is_link_attribute d1); [destruct (jget "value" d1) |];
      cbn [py_getitem] in H; rewrite ?jget_jset_other in H by discriminate;
      rewrite H1 in H; discriminate H.
Qed.

Lemma remap_obj_no_id (m : list (json * string)) (d : list (string * json)) :
  jget "id" d = None ->
  py_getitem (remap_obj m (JObj d)) "id" = Raise KeyError "id".
Proof.
  intros Hid; unfold remap_obj; rewrite Hid; cbv zeta.
  set (d2 := match jget "_pid" d with
             | Some pid => jset "_pid" (JStr (sub_of m pid)) d
             | None => d
             end).
  assert (H2 : jget "id" d2 = None).
  { subst d2; destruct (jget "_pid" d);
      rewrite ?jget_jset_other by discriminate; exact Hid. }
  destruct (is_link_attribute d2); [destruct (jget "value" d2) |];
    cbn [py_getitem]; rewrite ?jget_jset_other by discriminate;
    rewrite H2; reflexivity.
Qed.

Lemma remap_obj_frame (m : list (json * string)) (o : json) (k : string) :
  k <> "id" -> k <> "_pid" -> k <> "value" ->
  py_getitem (remap_obj m o) k = py_getitem o k.
Proof.
  intros Hid Hpid Hval; destruct o as [| b | z | q | t | l | d]; try reflexivity.
  unfold remap_obj; cbv zeta.
  set (d1 := match jget "id" d with
             | Some id => jset "id" (JStr (sub_of m id)) d
             | None => d
             end).
  assert (H1 : jget k d1 = jget k d).
  { subst d1; destruct (jget "id" d);
      rewrite ?jget_jset_other by assumption; reflexivity. }
  set (d2 := match jget "_pid" d1 with
             | Some pid => jset "_pid" (JStr (sub_of m pid)) d1
             | None => d1
             end).
  assert (H2 : jget k d2 = jget k d).
  { subst d2; destruct (jget "_pid" d1);
      rewrite ?jget_jset_other by assumption; exact H1. }
  destruct (is_link_attribute d2); [destruct (jget "value" d2) |];
    cbn [py_getitem]; rewrite ?jget_jset_other by assumption;
    rewrite H2; reflexivity.
Qed.

Lemma remap_obj_pid_of (m : list (json * string)) (d : list (string * json))
  (pid : json) :
  jget "_pid" d = Some pid ->
  py_getitem (remap_obj m (JObj d)) "_pid" = Ok (JStr (sub_of m pid)).
Proof.
  intros Hpid; unfold remap_obj; cbv zeta.
  set (d1 := match jget "id" d with
             | Some id => jset "id" (JStr (sub_of m id)) d
             | None => d
             end).
  assert (H1 : jget "_pid" d1 = Some pid).
  { subst d1; destruct (jget "id" d);
      rewrite ?jget_jset_other by discriminate; exact Hpid. }
  rewrite H1.
  destruct (is_link_attribute _); [destruct (jget "value" _) |];
    cbn [py_getitem]; rewrite ?jget_jset_other by discriminate;
    rewrite jget_jset_same; reflexivity.
Qed.

Lemma remap_obj_other_value (m : list (json * string)) (d : list (string * json)) :
  is_link_attribute d = false ->
  py_getitem (remap_obj m (JObj d)) "value" = py_getitem (JObj d) "value".
Proof.
  intros Hlink; unfold remap_obj; cbv zeta.
  set (d1 := match jget "id" d with
             | Some id => jset "id" (JStr (sub_of m id)) d
             | None => d
             end).
  assert (H1 : is_link_attribute d1 = false /\ jget "value" d1 = jget "value" d).
  { subst d1; destruct (jget "id" d);
      rewrite ?is_link_attribute_jset, ?jget_jset_other by discriminate; auto. }
  destruct H1 as [L1 V1].
  set (d2 := match jget "_pid" d1 with
             | Some pid => jset "_pid" (JStr (sub_of m pid)) d1
             | None => d1
             end).
  assert (H2 : is_link_attribute d2 = false /\ jget "value" d2 = jget "value" d).
  { subst d2; destruct (jget "_pid" d1);
      rewrite ?is_link_attribute_jset, ?jget_jset_other by discriminate; auto. }
  destruct H2 as [L2 V2]; rewrite L2; cbn [py_getitem]; rewrite V2; reflexivity.
Qed.

Lemma remap_obj_no_pid (m : list (json * string)) (d : list (string * json)) :
  jget "_pid" d = None ->
  py_getitem (remap_obj m (JObj d)) "_pid" = Raise KeyError "_pid".
Proof.
  intros Hpid; unfold remap_obj; cbv zeta.
  set (d1 := match jget "id" d with
             | Some id => jset "id" (JStr (sub_of m id)) d
             | None => d
             end).
  assert (H1 : jget "_pid" d1 = None).
  { subst d1; destruct (jget "id" d);
      rewrite ?jget_jset_other by discriminate; exact Hpid. }
  rewrite H1.
  destruct (is_link_attribute d1); [destruct (jget "value" d1) |];
    cbn [py_getitem]; rewrite ?jget_jset_other by discriminate;
    rewrite H1; reflexivity.
Qed.

Lemma remap_obj_link_value (m : list (json * string)) (d : list (string * json))
  (v : json) :
  is_link_attribute d = true -> jget "value" d = Some v ->
  py_getitem (remap_obj m (JObj d)) "value" = Ok (remap_value m v).
Proof.
  intros Hlink Hv; unfold remap_obj; cbv zeta.
  set (d1 := match jget "id" d with
             | Some id => jset "id" (JStr (sub_of m id)) d
             | None => d
             end).
  assert (H1 : is_link_attribute d1 = true /\ jget "value" d1 = Some v).
  { subst d1; destruct (jget "id" d);
      rewrite ?is_link_attribute_jset, ?jget_jset_other by discriminate; auto. }
  destruct H1 as [L1 V1].
  set (d2 := match jget "_pid" d1 with
             | Some pid => jset "_pid" (JStr (sub_of m pid)) d1
             | None => d1
             end).
  assert (H2 : is_link_attribute d2 = true /\ jget "value" d2 = Some v).
  { subst d2; destruct (jget "_pid" d1);
      rewrite ?is_link_attribute_jset, ?jget_jset_other by discriminate; auto. }
  destruct H2 as [L2 V2]; rewrite L2, V2; cbn [py_getitem].
  rewrite jget_jset_same; reflexivity.
Qed.

Lemma remap_obj_no_value (m : list (json * string)) (d : list (string * json)) :
  jget "value" d = None ->
  py_getitem (remap_obj m (JObj d)) "value" = Raise KeyError "value".
Proof.
  intros Hv; unfold remap_obj; cbv zeta.
  set (d1 := match jget "id" d with
             | Some id => jset "id" (JStr (sub_of m id)) d
             | None => d
             end).
  assert (V1 : jget "value" d1 = None).
  { subst d1; destruct (jget "id" d);
      rewrite ?jget_jset_other by discriminate; exact Hv. }
  set (d2 := match jget "_pid" d1 with
             | Some pid => jset "_pid" (JStr (sub_of m pid)) d1
             | None => d1
             end).
  assert (V2 : jget "value" d2 = None).
  { subst d2; destruct (jget "_pid" d1);
      rewrite ?jget_jset_other by discriminate; exact V1. }
  rewrite V2; destruct (is_link_attribute d2); cbn [py_getitem];
    rewrite V2; reflexivity.
Qed.

Section RewriterClaims.

Variable uuid4 : nat -> string.

Lemma substitute_objs_have_id (objs : list json) :
  forall (s : subst) (objs' : list json) (s' : subst),
    substitute_objs uuid4 objs s = Ok (objs', s') ->
    Forall (fun o => exists d id, o = JObj d /\ jget "id" d = Some id) objs.
Proof.
  induction objs as [| o objs IH]; intros s objs' s' H; simpl in H;
    [constructor |].
  apply bind_ok in H; destruct H as [[o' s1] [Ho H]].
  apply bind_ok in H; destruct H as [[objs'' s2] [Hobjs H]].
  constructor; [| eapply IH; eauto].
  unfold substitute_obj in Ho.
  apply bind_ok in Ho; destruct Ho as [id [Hid _]].
  destruct (py_getitem_ok _ _ _ Hid) as [d [-> Hd]]; eauto.
Qed.

Lemma mapped_drawn (s : subst) (k : json) :
  drawn_in_order uuid4 s -> mapped (known s) k ->
  exists n, (n < drawn s)%nat /\ lookup_key k (known s) = Some (uuid4 n).
Proof.
  intros Hinv [v Hv].
  destruct (drawn_value uuid4 s k v Hinv Hv) as [n [Hn ->]]; eauto.
Qed.

(** After a run every object holds a drawn UUID as its [id]. *)
Lemma run_new_ids (objs : list json) (root : json) (objs' : list json)
      (new_root : string) (s : subst) :
  substitute_uuids_run uuid4 objs root = Ok (objs', new_root, s) ->
  forall i o', nth_error objs' i = Some o' ->
    exists o n, nth_error objs i = Some o /\ o' = remap_obj (known s) o /\
                py_getitem o' "id" = Ok (JStr (uuid4 n)).
Proof.
  intros Hrun i o' Hi.
  destruct (run_is_remap uuid4 _ _ _ _ _ Hrun) as (Hmap & _ & _ & Hinv & Hall).
  assert (Hids : Forall (fun o => exists d id, o = JObj d /\ jget "id" d = Some id) objs).
  { unfold substitute_uuids_run in Hrun.
    apply bind_ok in Hrun; destruct Hrun as [[r0 s0] [_ Hrun]].
    apply bind_ok in Hrun; destruct Hrun as [[objs1 s1] [Hobjs _]].
    eapply substitute_objs_have_id; eauto. }
  rewrite Hmap, nth_error_map in Hi.
  destruct (nth_error objs i) as [o |] eqn:Eo; [| discriminate Hi].
  injection Hi as <-.
  rewrite Forall_forall in Hids, Hall.
  destruct (Hids o (nth_error_In _ _ Eo)) as [d [id [-> Hid]]].
  assert (Hm : mapped (known s) id).
  { pose proof (Hall _ (nth_error_In _ _ Eo)) as Ho.
    rewrite Forall_forall in Ho; apply Ho.
    unfold old_ids; rewrite Hid; left; reflexivity. }
  destruct (mapped_drawn s id Hinv Hm) as [n [_ Hn]].
  exists (JObj d), n; split; [reflexivity | split; [reflexivity |]].
  rewrite (remap_obj_id _ _ _ Hid); unfold sub_of; rewrite Hn; reflexivity.
Qed.

(** C1, as the code has it. [substitute_uuids] works on the dicts of its
    input list and returns the new root UUID alone.  After a call that
    returns there is one mapping from old identifiers to drawn UUIDs, with
    the returned value, the first UUID drawn, as the substitute of the
    root, by which the list is rewritten: it has the same objects in the
    same order; the [id] of every object and its [_pid], when it has one,
    are replaced by their substitutes, and an object without [_pid] gets
    none; the [value] of an attribute named REFERENCE_LIST or
    DIMENSION_LIST is rewritten item by item, the identifier part of every
    [datasets/] string being replaced by its substitute; the [value] of
    every other object, and every key other than [id], [_pid] and [value]
    of every object, holds what it held before. *)
Theorem substitute_uuids_in_place
        (objs : list json) (root : json) (objs' : list json) (new_root : string) :
  substitute_uuids uuid4 objs root = Ok (objs', new_root) ->
  exists m : list (json * string),
    lookup_key root m = Some new_root /\ new_root = uuid4 0 /\
    map snd m = map uuid4 (seq 0 (List.length m)) /\
    objs' = map (remap_obj m) objs /\
    List.length objs' = List.length objs /\
    forall i o o',
      nth_error objs i = Some o -> nth_error objs' i = Some o' ->
      exists d,
        o = JObj d /\
        (exists id n,
            jget "id" d = Some id /\ lookup_key id m = Some (uuid4 n) /\
            py_getitem o' "id" = Ok (JStr (uuid4 n))) /\
        (forall pid,
            jget "_pid" d = Some pid ->
            exists n, lookup_key pid m = Some (uuid4 n) /\
                      py_getitem o' "_pid" = Ok (JStr (uuid4 n))) /\
        (jget "_pid" d = None -> py_getitem o' "_pid" = Raise KeyError "_pid") /\
        (is_link_attribute d = true ->
         forall v,
           jget "value" d = Some v ->
           py_getitem o' "value" = Ok (remap_value m v) /\
           Forall (fun p => exists n, lookup_key (JStr p) m = Some (uuid4 n))
                  (segments v)) /\
        (is_link_attribute d = false ->
         py_getitem o' "value" = py_getitem o "value") /\
        (jget "value" d = None ->
         py_getitem o' "value" = Raise KeyError "value") /\
        (forall k, k <> "id" -> k <> "_pid" -> k <> "value" ->
                   py_getitem o' k = py_getitem o k).
Proof.
  unfold substitute_uuids; intros H.
  apply bind_ok in H; destruct H as [[[objs1 r1] s] [Hrun H]].
  injection H as <- <-.
  destruct (run_is_remap uuid4 _ _ _ _ _ Hrun) as (Hmap & Hroot & Hr0 & Hinv & Hall).
  assert (Hids : Forall (fun o => exists d id, o = JObj d /\ jget "id" d = Some id)
                        objs).
  { unfold substitute_uuids_run in Hrun.
    apply bind_ok in Hrun; destruct Hrun as [[r0 s0] [_ Hrun]].
    apply bind_ok in Hrun; destruct Hrun as [[objs0 s1] [Hobjs _]].
    eapply substitute_objs_have_id; eauto. }
  exists (known s).
  split; [exact Hroot | split; [exact Hr0 | split; [| split; [exact Hmap | split]]]].
  - assert (Hlen : List.length (known s) = drawn s).
    { rewrite <- (length_map snd), Hinv, length_map, length_seq; reflexivity. }
    rewrite Hlen; exact Hinv.
  - rewrite Hmap; apply length_map.
  - intros i o o' Ho Ho'.
    rewrite Hmap, nth_error_map, Ho in Ho'; cbn [option_map] in Ho'.
    injection Ho' as <-.
    rewrite Forall_forall in Hids, Hall.
    destruct (Hids o (nth_error_In _ _ Ho)) as [d [id [-> Hid]]].
    pose proof (Hall _ (nth_error_In _ _ Ho)) as Hold.
    rewrite Forall_forall in Hold.
    exists d; split; [reflexivity |].
    split; [| split; [| split; [| split; [| split; [| split]]]]].
    + assert (Hm : mapped (known s) id)
        by (apply Hold; unfold old_ids; rewrite Hid; left; reflexivity).
      destruct (mapped_drawn s id Hinv Hm) as [n [_ Hn]].
      exists id, n; split; [exact Hid | split; [exact Hn |]].
      rewrite (remap_obj_id _ _ _ Hid); unfold sub_of; rewrite Hn; reflexivity.
    + intros pid Hpid.
      assert (Hm : mapped (known s) pid).
      { apply Hold; unfold old_ids; rewrite Hpid.
        apply in_or_app; right; apply in_or_app; left; left; reflexivity. }
      destruct (mapped_drawn s pid Hinv Hm) as [n [_ Hn]].
      exists n; split; [exact Hn |].
      rewrite (remap_obj_pid_of _ _ _ Hpid); unfold sub_of; rewrite Hn.
      reflexivity.
    + apply remap_obj_no_pid.
    + intros Hlink v Hv; split; [apply remap_obj_link_value; assumption |].
      apply Forall_forall; intros p Hp.
      assert (Hm : mapped (known s) (JStr p)).
      { apply Hold; unfold old_ids; rewrite Hlink, Hv.
        apply in_or_app; right; apply in_or_app; right.
        apply in_map; exact Hp. }
      destruct (mapped_drawn s (JStr p) Hinv Hm) as [n [_ Hn]]; eauto.
    + apply remap_obj_other_value.
    + apply remap_obj_no_value.
    + intros k H1 H2 H3; apply remap_obj_frame; assumption.
Qed.

(** C2, as the code has it. A run that returns is the rewriting of every
    object by one mapping, the one [sub_uuid] ends with: [id], [_pid] and
    the identifier segments of the [datasets/] strings in the values of
    REFERENCE_LIST and DIMENSION_LIST attributes are replaced through it.
    The value returned is the substitute of the root, the first UUID
    drawn.  The substitutes are the UUIDs drawn, one per old identifier,
    and every old identifier met has one.  An identifier that the
    generator never returns is not the [id] or the [_pid] of any object
    afterwards. *)
Theorem substitute_uuids_one_mapping
        (objs : list json) (root : json) (objs' : list json)
        (new_root : string) (s : subst) :
  substitute_uuids_run uuid4 objs root = Ok (objs', new_root, s) ->
  objs' = map (remap_obj (known s)) objs /\
  lookup_key root (known s) = Some new_root /\
  new_root = uuid4 0 /\
  map snd (known s) = map uuid4 (seq 0 (drawn s)) /\
  Forall (fun o =>
            Forall (fun k => exists n, (n < drawn s)%nat /\
                                       lookup_key k (known s) = Some (uuid4 n))
                   (old_ids o)) objs /\
  (forall old, (forall n, uuid4 n <> old) ->
     Forall (fun o' => py_getitem o' "id" <> Ok (JStr old) /\
                       py_getitem o' "_pid" <> Ok (JStr old)) objs').
Proof.
  intros Hrun.
  destruct (run_is_remap uuid4 _ _ _ _ _ Hrun) as (Hmap & Hroot & Hr0 & Hinv & Hall).
  assert (Hdrawn : Forall (fun o =>
            Forall (fun k => exists n, (n < drawn s)%nat /\
                                       lookup_key k (known s) = Some (uuid4 n))
                   (old_ids o)) objs).
  { eapply Forall_impl; [| exact Hall].
    intros o Ho; eapply Forall_impl; [| exact Ho].
    intros k Hk; apply mapped_drawn; assumption. }
  repeat split; try assumption.
  intros old Hfresh; rewrite Hmap; apply Forall_map.
  eapply Forall_impl; [| exact Hdrawn].
  intros o Ho; rewrite Forall_forall in Ho.
  destruct o as [| b | z | q | t | l | d]; try (split; discriminate).
  split.
  - destruct (jget "id" d) as [id |] eqn:Eid.
    + rewrite (remap_obj_id _ _ _ Eid).
      destruct (Ho id) as [n [_ Hn]];
        [unfold old_ids; rewrite Eid; left; reflexivity |].
      unfold sub_of; rewrite Hn; intros H; injection H as H.
      exact (Hfresh n H).
    + rewrite remap_obj_no_id by exact Eid; discriminate.
  - intros H; destruct (remap_obj_pid _ _ _ H) as [pid [Epid Hp]].
    destruct (Ho pid) as [n [_ Hn]].
    { unfold old_ids; rewrite Epid; apply in_or_app; right; left; reflexivity. }
    unfold sub_of in Hp; rewrite Hn in Hp; injection Hp as Hp.
    exact (Hfresh n (eq_sym Hp)).
Qed.

End RewriterClaims.

Lemma substitute_uuids_in_place_witness :
  exists m : list (json * string),
    lookup_key (JStr "G1") m = Some "new-" /\ "new-" = sample_uuid4 0 /\
    map snd m = map sample_uuid4 (seq 0 (List.length m)) /\
    referring_objects_rewritten = map (remap_obj m) referring_objects /\
    List.length referring_objects_rewritten = List.length referring_objects /\
    forall i o o',
      nth_error referring_objects i = Some o ->
      nth_error referring_objects_rewritten i = Some o' ->
      exists d,
        o = JObj d /\
        (exists id n,
            jget "id" d = Some id /\ lookup_key id m = Some (sample_uuid4 n) /\
            py_getitem o' "id" = Ok (JStr (sample_uuid4 n))) /\
        (forall pid,
            jget "_pid" d = Some pid ->
            exists n, lookup_key pid m = Some (sample_uuid4 n) /\
                      py_getitem o' "_pid" = Ok (JStr (sample_uuid4 n))) /\
        (jget "_pid" d = None -> py_getitem o' "_pid" = Raise KeyError "_pid") /\
        (is_link_attribute d = true ->
         forall v,
           jget "value" d = Some v ->
           py_getitem o' "value" = Ok (remap_value m v) /\
           Forall (fun p => exists n,
                       lookup_key (JStr p) m = Some (sample_uuid4 n))
                  (segments v)) /\
        (is_link_attribute d = false ->
         py_getitem o' "value" = py_getitem o "value") /\
        (jget "value" d = None ->
         py_getitem o' "value" = Raise KeyError "value") /\
        (forall k, k <> "id" -> k <> "_pid" -> k <> "value" ->
                   py_getitem o' k = py_getitem o k).
Proof.
  apply (substitute_uuids_in_place sample_uuid4 referring_objects (JStr "G1")
                                   referring_objects_rewritten "new-").
  reflexivity.
Defined.

(** C1, as the specification states it, fails: the input is changed.  After
    the call on the two objects G1 and D1, the dicts of the input list hold
    the new identifiers. *)
Lemma substitute_uuids_changes_its_input :
  substitute_uuids sample_uuid4 two_objects (JStr "G1")
  = Ok (two_objects_rewritten, "new-") /\
  two_objects_rewritten <> two_objects.
Proof. split; [reflexivity | discriminate]. Qed.

Lemma substitute_uuids_one_mapping_witness :
  two_objects_rewritten
  = map (remap_obj [(JStr "G1", "new-"); (JStr "D1", "new-x")]) two_objects /\
  lookup_key (JStr "G1") [(JStr "G1", "new-"); (JStr "D1", "new-x")] = Some "new-" /\
  "new-" = sample_uuid4 0.
Proof.
  pose proof (substitute_uuids_one_mapping
                sample_uuid4 two_objects (JStr "G1") two_objects_rewritten "new-"
                {| known := [(JStr "G1", "new-"); (JStr "D1", "new-x")];
                   drawn := 2 |} eq_refl) as H.
  destruct H as [H1 [H2 [H3 _]]].
  split; [exact H1 | split; [exact H2 | exact H3]].
Defined.

(** C2, as the specification states it, fails in its last part: D1 and G1
    are identifiers of the input, the generator never returns them, and
    both still occur in the output, D1 in the value of an attribute that is
    not a link-tracking one, G1 in a string of a DIMENSION_LIST value that
    does not start with [datasets/]. *)
Lemma old_identifier_stays_in_output :
  py_getitem (nth 0 referring_objects JNull) "id" = Ok (JStr "G1") /\
  py_getitem (nth 1 referring_objects JNull) "id" = Ok (JStr "D1") /\
  (forall n, sample_uuid4 n <> "G1") /\
  (forall n, sample_uuid4 n <> "D1") /\
  exists objs' new_root,
    substitute_uuids sample_uuid4 referring_objects (JStr "G1")
    = Ok (objs', new_root) /\
    existsb (mentions "D1") objs' = true /\
    existsb (mentions "G1") objs' = true.
Proof.
  split; [reflexivity | split; [reflexivity | split; [| split]]].
  - intros n; unfold sample_uuid4; simpl; discriminate.
  - intros n; unfold sample_uuid4; simpl; discriminate.
  - eexists; eexists; split; [reflexivity | split; reflexivity].
Qed.

(** * Further properties of the code *)

(** ** What an accepted dataspace looks like *)

Lemma Forall2_of_nth {A B : Type} (R : A -> B -> Prop) (l : list A) :
  forall m : list B,
    List.length l = List.length m ->
    (forall j x y, nth_error l j = Some x -> nth_error m j = Some y -> R x y) ->
    Forall2 R l m.
Proof.
  induction l as [| x l IH]; intros [| y m] Hlen H; try discriminate Hlen;
    constructor.
  - apply (H O); reflexivity.
  - apply IH; [simpl in Hlen; lia |].
    intros j a b Ha Hb; apply (H (S j)); assumption.
Qed.

Lemma Forall_of_nth {A : Type} (P : A -> Prop) (l : list A) :
  (forall j x, nth_error l j = Some x -> P x) -> Forall P l.
Proof.
  intros H; apply Forall_forall; intros x Hx.
  apply In_nth_error in Hx; destruct Hx as [j Hj]; eauto.
Qed.

Lemma check_shape_dim_ok (i : nat) (d : json) :
  check_shape_dim i d = Ok tt <-> dim_in_range d.
Proof.
  unfold check_shape_dim, dim_in_range; split.
  - destruct (as_integral d) as [z |]; [| discriminate].
    destruct (z <? 0) eqn:E1; [discriminate |].
    destruct (z >? uint64_max) eqn:E2; [discriminate |]; intros _.
    apply Z.ltb_ge in E1; rewrite Z.gtb_ltb in E2; apply Z.ltb_ge in E2.
    exists z; split; [reflexivity | lia].
  - intros [z [-> Hr]].
    assert ((z <? 0) = false) as -> by (apply Z.ltb_ge; lia).
    assert ((z >? uint64_max) = false) as ->
        by (rewrite Z.gtb_ltb; apply Z.ltb_ge; lia).
    reflexivity.
Qed.

Lemma check_shape_maxdim_ok (dims : list json) (i : nat) (d m : json) :
  nth_error dims i = Some d -> check_shape_maxdim dims i m = Ok tt ->
  maxdim_in_range d m.
Proof.
  intros Hd; unfold check_shape_maxdim, maxdim_in_range.
  destruct (as_integral m) as [z |] eqn:Ez.
  - destruct (z <=? 0) eqn:E1; [discriminate |].
    destruct (z >=? uint64_max) eqn:E2; [discriminate |].
    unfold py_index; rewrite Hd; cbn [bind orb].
    destruct (as_integral d) as [zd |] eqn:Ezd; [| discriminate].
    destruct (zd >? z) eqn:E3; [discriminate |]; intros _.
    apply Z.leb_gt in E1; rewrite Z.geb_leb in E2; apply Z.leb_gt in E2.
    rewrite Z.gtb_ltb in E3; apply Z.ltb_ge in E3.
    right; right; exists zd, z; repeat split; try reflexivity; lia.
  - destruct (is_basestring m) eqn:Es; cbn [andb].
    + destruct (py_eq m (JStr "H5S_UNLIMITED")) eqn:Eu; [| discriminate].
      apply py_eq_str in Eu; auto.
    + auto.
Qed.

Lemma rank_test_inv (n : nat) :
  negb ((0 <? Z.of_nat n) && (Z.of_nat n <=? 32)) = false ->
  (0 < n <= 32)%nat.
Proof.
  intros H; apply negb_false_iff, andb_true_iff in H; destruct H as [H1 H2].
  apply Z.ltb_lt in H1; apply Z.leb_le in H2; lia.
Qed.

(** X1. A dict with class H5S_SIMPLE passes [check_shape] exactly when its
    [dims] is a list of 1 to 32 integers from 0 to 2^64-1 and its
    [maxdims], when there is one, is a list of the same length whose
    entries are each the unlimited marker, an integer from 1 to 2^64-2 not
    below the [dims] entry, or a value that is neither an integer nor a
    string. *)
Theorem check_shape_simple_iff (sh : list (string * json)) :
  jget "class" sh = Some (JStr "H5S_SIMPLE") ->
  (check_shape (JObj sh) = Ok tt <-> simple_dataspace_ok sh).
Proof.
  intros Hcls; split.
  - unfold check_shape; cbn [py_contains py_getitem bind]; rewrite Hcls.
    cbn [bind str_in existsb py_eq String.eqb Ascii.eqb Bool.eqb negb orb andb].
    destruct (jget "dims" sh) as [dv |] eqn:Edims; cbn [bind]; [| discriminate].
    destruct (jget "maxdims" sh) as [mv |] eqn:Emax; cbn [bind for_each];
      unfold check_shape_rank; cbn [py_getitem bind]; rewrite Edims, ?Emax;
      cbn [bind]; intros H.
    + apply bind_unit_ok in H; destruct H as [Hranks H].
      destruct dv as [| b | z | q | s | dims | d]; try discriminate Hranks.
      destruct (negb ((0 <? Z.of_nat (List.length dims)) &&
                      (Z.of_nat (List.length dims) <=? 32))) eqn:Erank;
        [discriminate Hranks |].
      cbn [bind] in Hranks.
      destruct mv as [| b | z | q | s | maxdims | d]; try discriminate Hranks.
      clear Hranks; cbn [bind as_list] in H.
      apply bind_unit_ok in H; destruct H as [Hd H].
      destruct (Nat.eqb (List.length dims) (List.length maxdims)) eqn:Elen;
        [| discriminate H].
      cbn [negb bind] in H; apply Nat.eqb_eq in Elen.
      exists dims; split; [exact Edims | split; [apply rank_test_inv; exact Erank |]].
      split.
      * apply Forall_of_nth; intros j x Hj.
        apply (check_shape_dim_ok (1 + j)).
        apply (for_enumerate_ok_inv _ _ _ Hd _ _ Hj).
      * right; exists maxdims; split; [exact Emax |].
        apply Forall2_of_nth; [exact Elen |].
        intros j x y Hx Hy.
        apply (check_shape_maxdim_ok dims j x y Hx).
        apply (for_enumerate_ok_inv _ _ _ H _ _ Hy).
    + apply bind_unit_ok in H; destruct H as [Hranks H].
      destruct dv as [| b | z | q | s | dims | d]; try discriminate Hranks.
      destruct (negb ((0 <? Z.of_nat (List.length dims)) &&
                      (Z.of_nat (List.length dims) <=? 32))) eqn:Erank;
        [discriminate Hranks |].
      clear Hranks; cbn [bind as_list] in H.
      apply bind_unit_ok in H; destruct H as [Hd _].
      exists dims; split; [exact Edims | split; [apply rank_test_inv; exact Erank |]].
      split; [| left; exact Emax].
      apply Forall_of_nth; intros j x Hj.
      apply (check_shape_dim_ok (1 + j)).
      apply (for_enumerate_ok_inv _ _ _ Hd _ _ Hj).
  - intros [dims [Hdims [Hrank [Hin [Hnone | [maxdims [Hmax Hcov]]]]]]].
    + unfold check_shape; cbn [py_contains py_getitem bind]; rewrite Hcls.
      cbn [bind str_in existsb py_eq String.eqb Ascii.eqb Bool.eqb negb orb andb].
      rewrite Hdims, Hnone; cbn [bind for_each].
      unfold check_shape_rank; cbn [py_getitem bind]; rewrite Hdims; cbn [bind].
      rewrite (rank_test _ Hrank); cbn [bind as_list].
      rewrite for_enumerate_ok; [reflexivity |].
      intros j x Hj; apply check_shape_dim_ok.
      rewrite Forall_forall in Hin; apply Hin; eapply nth_error_In; eauto.
    + assert (Hlen : List.length maxdims = List.length dims)
        by (symmetry; eapply Forall2_length; eauto).
      rewrite (check_shape_simple sh dims maxdims Hcls Hdims Hmax Hrank Hlen Hin).
      apply for_enumerate_ok; intros j m Hj.
      destruct (Forall2_nth_error _ _ _ Hcov _ _ Hj) as [d [Hd Hdm]].
      apply (maxdim_in_range_passes _ _ _ _ Hd Hdm).
Qed.

Lemma check_shape_simple_iff_witness :
  check_shape (JObj [("class", JStr "H5S_SIMPLE"); ("dims", JList [JInt 4])])
  = Ok tt <->
  simple_dataspace_ok [("class", JStr "H5S_SIMPLE"); ("dims", JList [JInt 4])].
Proof.
  apply (check_shape_simple_iff
           [("class", JStr "H5S_SIMPLE"); ("dims", JList [JInt 4])]).
  reflexivity.
Defined.

(** X2. A dict with class H5S_NULL or H5S_SCALAR passes [check_shape]
    exactly when it has neither [dims] nor [maxdims]; otherwise the
    KeyError "dims and maxdims not allowed" is raised. *)
Theorem check_shape_unsized_iff (sh : list (string * json)) (cls : string) :
  jget "class" sh = Some (JStr cls) ->
  cls = "H5S_NULL" \/ cls = "H5S_SCALAR" ->
  (check_shape (JObj sh) = Ok tt <->
   jget "dims" sh = None /\ jget "maxdims" sh = None) /\
  (check_shape (JObj sh) <> Ok tt ->
   check_shape (JObj sh)
   = Raise KeyError "dims and maxdims not allowed for %s dataspace").
Proof.
  intros Hcls Hc.
  assert (Hrun : check_shape (JObj sh)
                 = if match jget "dims" sh with Some _ => true | None => false end
                      || match jget "maxdims" sh with Some _ => true | None => false end
                   then Raise KeyError "dims and maxdims not allowed for %s dataspace"
                   else Ok tt).
  { unfold check_shape; cbn [py_contains py_getitem bind]; rewrite Hcls.
    destruct Hc as [-> | ->]; reflexivity. }
  rewrite Hrun.
  destruct (jget "dims" sh), (jget "maxdims" sh); cbn [orb];
    (split; [split; [try discriminate; auto | intros [? ?]; try discriminate; auto]
            | intros H; try reflexivity; exfalso; apply H; reflexivity]).
Qed.

Lemma check_shape_unsized_iff_witness :
  check_shape (JObj [("class", JStr "H5S_SCALAR")]) = Ok tt <->
  jget "dims" [("class", JStr "H5S_SCALAR")] = None /\
  jget "maxdims" [("class", JStr "H5S_SCALAR")] = None.
Proof.
  apply (check_shape_unsized_iff [("class", JStr "H5S_SCALAR")] "H5S_SCALAR");
    [reflexivity | right; reflexivity].
Defined.

(** ** What an accepted datatype looks like *)

Lemma map_m_ok {A B : Type} (f : A -> result B) (l : list A) (ys : list B) :
  map_m f l = Ok ys -> Forall2 (fun x y => f x = Ok y) l ys.
Proof.
  revert ys; induction l as [| x l IH]; simpl; intros ys H.
  - injection H as <-; constructor.
  - bind_inv H as y Hy; bind_inv H as ys' Hys; injection H as <-.
    constructor; auto.
Qed.

Lemma for_each_ok {A : Type} (body : A -> result unit) (l : list A) :
  for_each body l = Ok tt <-> Forall (fun x => body x = Ok tt) l.
Proof.
  induction l as [| x l IH]; simpl; split; intros H; try constructor; auto.
  - apply bind_unit_ok in H; tauto.
  - apply bind_unit_ok in H; apply IH; tauto.
  - inversion H as [| ? ? Hx Hl]; subst; rewrite Hx; simpl; apply IH; exact Hl.
Qed.

Lemma Forall2_right {A B : Type} (R : A -> B -> Prop) (l : list A) (m : list B) :
  Forall2 R l m -> Forall (fun y => exists x, In x l /\ R x y) m.
Proof.
  induction 1 as [| x y l m Hxy _ IH]; constructor.
  - exists x; split; [left; reflexivity | exact Hxy].
  - eapply Forall_impl; [| exact IH].
    intros b [a [Ha Hab]]; exists a; split; [right; exact Ha | exact Hab].
Qed.

Lemma Forall2_left {A B : Type} (R : A -> B -> Prop) (l : list A) (m : list B) :
  Forall2 R l m -> Forall (fun x => exists y, R x y) l.
Proof.
  induction 1 as [| x y l m Hxy _ IH]; constructor; eauto.
Qed.

(** X3. A compound datatype that [check_type] accepts has a non-empty list
    of fields; every field has a name of non-zero length and a datatype
    that [check_type] accepts; no name occurs twice. *)
Theorem check_type_compound_sound (d : list (string * json)) :
  jget "class" d = Some (JStr "H5T_COMPOUND") ->
  check_type (JObj d) = Ok tt ->
  exists fs names,
    jget "fields" d = Some (JList fs) /\ fs <> [] /\
    Forall2 (fun f name => py_getitem f "name" = Ok name) fs names /\
    Forall (fun name => exists n, py_len name = Ok (S n)) names /\
    Forall (fun name => (py_count names name <= 1)%nat) names /\
    Forall (fun f => exists ftype,
                py_getitem f "type" = Ok ftype /\ check_type ftype = Ok tt) fs.
Proof.
  intros Hcls H; unfold check_type in H.
  remember (json_depth (JObj d)) as fuel eqn:Hfuel.
  cbn [check_type_rec py_contains py_getitem bind] in H; rewrite Hcls in H.
  cbn [bind py_eq String.eqb Ascii.eqb Bool.eqb] in H.
  destruct (jget "fields" d) as [fields |] eqn:Efields; cbn [bind] in H;
    [| discriminate H].
  destruct fields as [| b | z | q | s | fs | d']; try discriminate H.
  apply bind_unit_ok in H; destruct H as [Hne H].
  bind_inv H as names Hnames.
  apply for_each_ok in H; apply map_m_ok in Hnames.
  assert (Hdepth : (json_depth (JList fs) < fuel)%nat)
    by (subst fuel; eapply jget_depth; eauto).
  exists fs, names; split; [reflexivity | split; [| split; [| split; [| split]]]].
  - intros ->; discriminate Hne.
  - eapply Forall2_impl; [| exact Hnames].
    intros f name Hf; cbv beta in Hf.
    bind_drop Hf as has_name; bind_skip Hf; bind_inv Hf as nm Hnm.
    bind_drop Hf as len; bind_skip Hf; bind_drop Hf as has_type; bind_skip Hf.
    bind_drop Hf as ftype; bind_skip Hf; injection Hf as <-; exact Hnm.
  - eapply Forall_impl; [| exact (Forall2_right _ _ _ Hnames)].
    intros name [f [_ Hf]]; cbv beta in Hf.
    bind_drop Hf as has_name; bind_skip Hf; bind_inv Hf as nm Hnm.
    bind_inv Hf as len Hlen.
    apply bind_unit_ok in Hf; destruct Hf as [Hz Hf].
    bind_drop Hf as has_type; bind_skip Hf.
    bind_drop Hf as ftype; bind_skip Hf; injection Hf as <-.
    destruct len as [| len]; [discriminate Hz | eauto].
  - eapply Forall_impl; [| exact H].
    intros name Hc; cbv beta in Hc.
    destruct (Nat.ltb 1 (py_count names name)) eqn:E; [discriminate Hc |].
    apply Nat.ltb_ge in E; exact E.
  - pose proof (Forall2_left _ _ _ Hnames) as Hall.
    rewrite Forall_forall in Hall |- *; intros f Hin.
    assert (Hf_depth : (json_depth f < json_depth (JList fs))%nat)
      by (apply in_list_depth; exact Hin).
    pose proof (Hall f Hin) as Hrun.
    destruct Hrun as [name Hf]; cbv beta in Hf.
    bind_drop Hf as has_name; bind_skip Hf; bind_drop Hf as nm.
    bind_drop Hf as len; bind_skip Hf; bind_drop Hf as has_type; bind_skip Hf.
    bind_inv Hf as ftype Hftype.
    apply bind_unit_ok in Hf; destruct Hf as [Hrec _].
    exists ftype; split; [exact Hftype |].
    rewrite <- (check_type_any_fuel ftype fuel); [exact Hrec |].
    apply py_getitem_depth in Hftype; lia.
Qed.

Lemma check_type_member (t member : json) (k : string) :
  py_getitem t k = Ok member ->
  check_type_rec (json_depth t) member = check_type member.
Proof.
  intros H; apply check_type_any_fuel; eapply py_getitem_depth; eauto.
Qed.

(** X4. A variable-length datatype passes [check_type] exactly when it has a
    [base] that passes; an array datatype exactly when, besides, its [dims]
    is a list of 1 to 32 positive integers. *)
Theorem check_type_vlen_array_iff (d : list (string * json)) :
  (jget "class" d = Some (JStr "H5T_VLEN") ->
   (check_type (JObj d) = Ok tt <->
    exists base, jget "base" d = Some base /\ check_type base = Ok tt)) /\
  (jget "class" d = Some (JStr "H5T_ARRAY") ->
   (check_type (JObj d) = Ok tt <->
    exists ds base,
      jget "dims" d = Some (JList ds) /\
      (0 < List.length ds <= 32)%nat /\
      Forall (fun x => exists z, as_integral x = Some z /\ 0 < z) ds /\
      jget "base" d = Some base /\ check_type base = Ok tt)).
Proof.
  split; intros Hcls.
  - assert (Hrun : check_type (JObj d)
                   = match jget "base" d with
                     | Some base => check_type base
                     | None => Raise KeyError "H5T_VLEN datatype base missing"
                     end).
    { unfold check_type at 1.
      cbn [check_type_rec py_contains py_getitem bind]; rewrite Hcls.
      cbn [bind py_eq String.eqb Ascii.eqb Bool.eqb].
      destruct (jget "base" d) as [base |] eqn:Ebase; cbn [bind]; [| reflexivity].
      apply (check_type_member (JObj d) base "base"); simpl; rewrite Ebase.
      reflexivity. }
    rewrite Hrun; destruct (jget "base" d) as [base |]; split.
    + eauto.
    + intros [b [Hb H]]; injection Hb as <-; exact H.
    + discriminate.
    + intros [b [Hb _]]; discriminate Hb.
  - assert (Hrun : check_type (JObj d)
                   = match jget "dims" d with
                     | Some (JList ds) =>
                         (if negb ((0 <? Z.of_nat (List.length ds)) &&
                                   (Z.of_nat (List.length ds) <=? 32))
                          then Raise ValueError "Invalid H5T_ARRAY rank: %d"
                          else Ok tt) ;;
                         for_enumerate check_array_dim 0 ds ;;
                         match jget "base" d with
                         | Some base => check_type base
                         | None => Raise KeyError "H5T_ARRAY datatype base missing"
                         end
                     | Some _ => Raise TypeError "H5T_ARRAY dimensions must be in a list"
                     | None => Raise KeyError "H5T_ARRAY dimensions missing"
                     end).
    { unfold check_type at 1.
      cbn [check_type_rec py_contains py_getitem bind]; rewrite Hcls.
      cbn [bind py_eq String.eqb Ascii.eqb Bool.eqb].
      destruct (jget "dims" d) as [dims |] eqn:Edims; cbn [bind]; [| reflexivity].
      destruct dims as [| b | z | q | s | ds | d']; try reflexivity.
      apply bind_ext; intros _ _; apply bind_ext; intros _ _.
      destruct (jget "base" d) as [base |] eqn:Ebase; cbn [bind]; [| reflexivity].
      apply (check_type_member (JObj d) base "base"); simpl; rewrite Ebase.
      reflexivity. }
    rewrite Hrun; split.
    + intros H.
      destruct (jget "dims" d) as [dims |]; [| discriminate H].
      destruct dims as [| b | z | q | s | ds | d']; try discriminate H.
      apply bind_unit_ok in H; destruct H as [Hrank H].
      apply bind_unit_ok in H; destruct H as [Hdims H].
      destruct (jget "base" d) as [base |]; [| discriminate H].
      exists ds, base; split; [reflexivity | split; [| split; [| auto]]].
      * apply rank_test_inv.
        destruct (negb _); [discriminate Hrank | reflexivity].
      * apply Forall_of_nth; intros j x Hj.
        pose proof (for_enumerate_ok_inv _ _ _ Hdims _ _ Hj) as Hx.
        unfold check_array_dim in Hx.
        destruct (as_integral x) as [z |]; [| discriminate Hx].
        destruct (z <=? 0) eqn:E; [discriminate Hx |].
        apply Z.leb_gt in E; eauto.
    + intros [ds [base [-> [Hrank [Hds [-> H]]]]]].
      rewrite (rank_test _ Hrank); cbn [bind].
      rewrite for_enumerate_ok; [exact H |].
      intros j x Hj; rewrite Forall_forall in Hds.
      destruct (Hds x (nth_error_In _ _ Hj)) as [z [Hz Hpos]].
      unfold check_array_dim; rewrite Hz.
      assert ((z <=? 0) = false) as -> by (apply Z.leb_gt; lia).
      reflexivity.
Qed.

Lemma str_in_inv (j : json) (choices : list string) :
  str_in j choices = true <-> exists s, In s choices /\ j = JStr s.
Proof.
  unfold str_in; rewrite existsb_exists; split; intros [s [Hs H]]; exists s;
    (split; [exact Hs | apply py_eq_str; exact H]).
Qed.

(** X5. A string datatype passes [check_type] exactly when it has a
    [charSet] that is H5T_CSET_ASCII or H5T_CSET_UTF8, a [strPad] that is
    one of the three paddings, and a [length] that is H5T_VARIABLE or a
    positive integer.  A reference datatype passes exactly when its
    [base] is H5T_STD_REF_OBJ or H5T_STD_REF_DSETREG. *)
Theorem check_type_string_reference_iff (d : list (string * json)) :
  (jget "class" d = Some (JStr "H5T_STRING") ->
   (check_type (JObj d) = Ok tt <->
    exists cs pad len,
      jget "charSet" d = Some (JStr cs) /\
      In cs ["H5T_CSET_ASCII"; "H5T_CSET_UTF8"] /\
      jget "strPad" d = Some (JStr pad) /\
      In pad ["H5T_STR_NULLTERM"; "H5T_STR_NULLPAD"; "H5T_STR_SPACEPAD"] /\
      jget "length" d = Some len /\
      (len = JStr "H5T_VARIABLE" \/
       exists z, as_integral len = Some z /\ 0 < z))) /\
  (jget "class" d = Some (JStr "H5T_REFERENCE") ->
   (check_type (JObj d) = Ok tt <->
    exists base,
      jget "base" d = Some (JStr base) /\
      In base ["H5T_STD_REF_OBJ"; "H5T_STD_REF_DSETREG"])).
Proof.
  split; intros Hcls.
  - assert (Hrun : check_type (JObj d) = _check_atomic_type (JObj d)).
    { unfold check_type; cbn [check_type_rec py_contains py_getitem bind].
      rewrite Hcls; reflexivity. }
    rewrite Hrun; unfold _check_atomic_type.
    cbn [py_getitem py_contains bind for_each]; rewrite Hcls.
    cbn [bind py_eq String.eqb Ascii.eqb Bool.eqb].
    destruct (jget "charSet" d) as [cs |] eqn:Ecs; cbn [bind];
      [| split; [discriminate | intros (? & ? & ? & H & _); discriminate H]].
    destruct (jget "length" d) as [len |] eqn:Elen; cbn [bind];
      [| split; [discriminate
                | intros (? & ? & ? & _ & _ & _ & _ & H & _); discriminate H]].
    destruct (jget "strPad" d) as [pad |] eqn:Epad; cbn [bind];
      [| split; [discriminate
                | intros (? & ? & ? & _ & _ & H & _); discriminate H]].
    split.
    + intros H.
      apply bind_unit_ok in H; destruct H as [Hcs H].
      apply bind_unit_ok in H; destruct H as [Hpad H].
      destruct (str_in cs _) eqn:Ecs'; [| discriminate Hcs].
      destruct (str_in pad _) eqn:Epad'; [| discriminate Hpad].
      apply str_in_inv in Ecs'; destruct Ecs' as [cs' [Hcs' ->]].
      apply str_in_inv in Epad'; destruct Epad' as [pad' [Hpad' ->]].
      exists cs', pad', len; repeat split; try assumption.
      destruct (py_eq len (JStr "H5T_VARIABLE")) eqn:Evar;
        [left; apply py_eq_str; exact Evar | right].
      cbn [negb andb] in H.
      destruct (as_integral len) as [z |]; [| discriminate H].
      destruct (z >? 0) eqn:Ez; [| discriminate H].
      rewrite Z.gtb_ltb in Ez; apply Z.ltb_lt in Ez; eauto.
    + intros (cs' & pad' & len' & Hcs' & Hin_cs & Hpad' & Hin_pad & Hlen' & Hl).
      injection Hcs' as ->; injection Hpad' as ->; injection Hlen' as ->.
      rewrite (str_in_true _ _ Hin_cs), (str_in_true _ _ Hin_pad); cbn [negb bind].
      destruct Hl as [-> | [z [Hz Hpos]]]; [reflexivity |].
      rewrite Hz.
      assert ((z >? 0) = true) as -> by (rewrite Z.gtb_ltb; apply Z.ltb_lt; lia).
      cbn [negb]; rewrite andb_false_r; reflexivity.
  - assert (Hrun : check_type (JObj d) = _check_atomic_type (JObj d)).
    { unfold check_type; cbn [check_type_rec py_contains py_getitem bind].
      rewrite Hcls; reflexivity. }
    rewrite Hrun; unfold _check_atomic_type.
    cbn [py_getitem py_contains bind for_each]; rewrite Hcls.
    cbn [bind py_eq String.eqb Ascii.eqb Bool.eqb str_in existsb orb].
    destruct (jget "base" d) as [base |] eqn:Ebase; cbn [bind];
      [| split; [discriminate | intros (? & H & _); discriminate H]].
    split.
    + intros H.
      destruct (py_eq base (JStr "H5T_STD_REF_OBJ")) eqn:E1;
        [apply py_eq_str in E1; subst base; eexists; split;
         [reflexivity | left; reflexivity] |].
      destruct (py_eq base (JStr "H5T_STD_REF_DSETREG")) eqn:E2;
        [apply py_eq_str in E2; subst base; eexists; split;
         [reflexivity | right; left; reflexivity] |].
      discriminate H.
    + intros (b & Hb & Hin); injection Hb as ->.
      destruct Hin as [<- | [<- | []]]; reflexivity.
Qed.

(** X6. A datatype whose class is a string other than the seven supported
    ones (H5T_OPAQUE, H5T_BITFIELD, H5T_ENUM and so on) fails [check_type]
    with NotImplementedError, whatever else it holds. *)
Theorem check_type_unsupported_class (d : list (string * json)) (cls : string) :
  jget "class" d = Some (JStr cls) ->
  ~ In cls ["H5T_COMPOUND"; "H5T_VLEN"; "H5T_ARRAY"; "H5T_STRING";
            "H5T_INTEGER"; "H5T_FLOAT"; "H5T_REFERENCE"] ->
  check_type (JObj d)
  = Raise NotImplementedError "%s: HDF5 datatype not supported yet".
Proof.
  intros Hcls Hnot.
  assert (Hne : forall s, In s ["H5T_COMPOUND"; "H5T_VLEN"; "H5T_ARRAY";
                                "H5T_STRING"; "H5T_INTEGER"; "H5T_FLOAT";
                                "H5T_REFERENCE"] ->
                          String.eqb cls s = false).
  { intros s Hs; apply String.eqb_neq; intros ->; contradiction. }
  unfold check_type; cbn [check_type_rec py_contains py_getitem bind].
  rewrite Hcls; cbn [bind py_eq].
  rewrite !Hne by (simpl; tauto).
  unfold _check_atomic_type; cbn [py_getitem bind]; rewrite Hcls.
  cbn [bind py_eq str_in existsb].
  rewrite !Hne by (simpl; tauto); reflexivity.
Qed.

Lemma check_type_compound_sound_witness :
  exists fs names,
    jget "fields"
         [("class", JStr "H5T_COMPOUND");
          ("fields", JList [JObj [("name", JStr "x");
                                  ("type", atomic_type "H5T_FLOAT" "H5T_IEEE_F64LE")]])]
    = Some (JList fs) /\ fs <> [] /\
    Forall2 (fun f name => py_getitem f "name" = Ok name) fs names /\
    Forall (fun name => exists n, py_len name = Ok (S n)) names /\
    Forall (fun name => (py_count names name <= 1)%nat) names /\
    Forall (fun f => exists ftype,
                py_getitem f "type" = Ok ftype /\ check_type ftype = Ok tt) fs.
Proof.
  apply (check_type_compound_sound
           [("class", JStr "H5T_COMPOUND");
            ("fields", JList [JObj [("name", JStr "x");
                                    ("type", atomic_type "H5T_FLOAT" "H5T_IEEE_F64LE")]])]);
    reflexivity.
Defined.

Lemma check_type_vlen_array_iff_witness :
  check_type (JObj [("class", JStr "H5T_VLEN");
                    ("base", atomic_type "H5T_INTEGER" "H5T_STD_I8LE")]) = Ok tt <->
  exists base,
    jget "base" [("class", JStr "H5T_VLEN");
                 ("base", atomic_type "H5T_INTEGER" "H5T_STD_I8LE")] = Some base /\
    check_type base = Ok tt.
Proof.
  apply (proj1 (check_type_vlen_array_iff
                  [("class", JStr "H5T_VLEN");
                   ("base", atomic_type "H5T_INTEGER" "H5T_STD_I8LE")])).
  reflexivity.
Defined.

Lemma check_type_string_reference_iff_witness :
  check_type (JObj [("class", JStr "H5T_REFERENCE");
                    ("base", JStr "H5T_STD_REF_OBJ")]) = Ok tt <->
  exists base,
    jget "base" [("class", JStr "H5T_REFERENCE"); ("base", JStr "H5T_STD_REF_OBJ")]
    = Some (JStr base) /\
    In base ["H5T_STD_REF_OBJ"; "H5T_STD_REF_DSETREG"].
Proof.
  apply (proj2 (check_type_string_reference_iff
                  [("class", JStr "H5T_REFERENCE");
                   ("base", JStr "H5T_STD_REF_OBJ")])).
  reflexivity.
Defined.

Lemma check_type_unsupported_class_witness :
  check_type (JObj [("class", JStr "H5T_OPAQUE"); ("size", JInt 4)])
  = Raise NotImplementedError "%s: HDF5 datatype not supported yet".
Proof.
  apply (check_type_unsupported_class
           [("class", JStr "H5T_OPAQUE"); ("size", JInt 4)] "H5T_OPAQUE");
    [reflexivity |].
  simpl; intros H.
  repeat (destruct H as [H | H]; [discriminate H |]); exact H.
Defined.

(** ** Values against their datatype and dataspace *)

Lemma for_each_app {A : Type} (body : A -> result unit) (l m : list A) :
  for_each body (l ++ m) = (for_each body l ;; for_each body m).
Proof.
  induction l as [| x l IH]; simpl; [reflexivity |].
  destruct (body x); simpl; [exact IH | reflexivity].
Qed.

Lemma value_check_item_leaves (cond : json -> result unit) :
  forall n, value_check_item cond n = for_each cond (leaves n).
Proof.
  induction n as [| b | z | q | s | l IHl | d] using json_nested_ind;
    try (simpl; destruct (cond _) as [[] |]; reflexivity).
  induction IHl as [| x xs Hx _ IHxs]; [reflexivity |].
  cbn [value_check_item for_each leaves flat_map] in *.
  rewrite for_each_app, Hx, IHxs; reflexivity.
Qed.

Lemma value_check_flat (iter_ : list json) (cond : json -> result unit) :
  value_check iter_ cond = for_each cond (flat_map leaves iter_).
Proof.
  unfold value_check; induction iter_ as [| x xs IH]; [reflexivity |].
  cbn [for_each flat_map]; rewrite for_each_app, value_check_item_leaves, IH.
  reflexivity.
Qed.

(** X7. [value_check] gives every scalar of the nested list to [cond], left
    to right, whatever the nesting, and the first exception ends it: it
    returns exactly when [cond] returns on every scalar. *)
Theorem value_check_leaves (iter_ : list json) (cond : json -> result unit) :
  value_check iter_ cond = for_each cond (flat_map leaves iter_) /\
  (value_check iter_ cond = Ok tt <->
   Forall (fun v => cond v = Ok tt) (flat_map leaves iter_)).
Proof.
  split; [apply value_check_flat |].
  rewrite value_check_flat; apply for_each_ok.
Qed.

Lemma check_integer_ok (lo hi : Z) (v : json) :
  check_integer lo hi v = Ok tt <-> integer_within lo hi v.
Proof.
  unfold check_integer, integer_within; split.
  - destruct (as_integral v) as [z |]; [| discriminate].
    destruct (z <? lo) eqn:E1; [discriminate |].
    destruct (z >? hi) eqn:E2; [discriminate |]; intros _.
    apply Z.ltb_ge in E1; rewrite Z.gtb_ltb in E2; apply Z.ltb_ge in E2.
    exists z; split; [reflexivity | lia].
  - intros [z [-> Hr]].
    assert ((z <? lo) = false) as -> by (apply Z.ltb_ge; lia).
    assert ((z >? hi) = false) as -> by (rewrite Z.gtb_ltb; apply Z.ltb_ge; lia).
    reflexivity.
Qed.

(** The checker of a description whose datatype has a string class. *)
Lemma type_checker_of_class (h5j t : json) (cls : string)
      (cond : json -> result unit) :
  py_getitem h5j "type" = Ok t ->
  py_getitem t "class" = Ok (JStr cls) ->
  type_checker h5j = Ok cond ->
  (cls = "H5T_STRING" -> cond = check_string) /\
  (cls = "H5T_INTEGER" ->
   exists base dt lo hi,
     py_getitem t "base" = Ok base /\ numpy_dtype base = Ok dt /\
     iinfo dt = Ok (lo, hi) /\ cond = check_integer lo hi).
Proof.
  intros Ht Hcls H; unfold type_checker in H.
  rewrite Ht in H; cbn [bind] in H; rewrite Hcls in H; cbn [bind] in H.
  bind_inv H as base Hbase; split; intros ->.
  - cbn in H; congruence.
  - unfold value_check_factory in H.
    cbn [py_eq String.eqb Ascii.eqb Bool.eqb] in H.
    bind_inv H as dt Hdt; bind_inv H as range Hrange.
    injection H as <-; destruct range as [lo hi].
    destruct (py_getitem_ok _ _ _ Hcls) as [td [-> _]].
    cbn [py_get] in Hbase.
    destruct (jget "base" td) as [b |] eqn:Eb.
    + injection Hbase as ->; exists base, dt, lo, hi; simpl; rewrite Eb; auto.
    + injection Hbase as <-; discriminate Hdt.
Qed.

Lemma validate_value_ok (h5j value : json) :
  validate_value h5j = Ok tt ->
  py_getitem h5j "value" = Ok value ->
  exists val cond,
    bind_val h5j = Ok (Some val) /\ type_checker h5j = Ok cond /\
    value_check val cond = Ok tt.
Proof.
  unfold validate_value; intros H Hvalue.
  rewrite (py_contains_of_getitem _ _ _ Hvalue) in H; cbn [bind] in H.
  bind_inv H as val Hval; bind_inv H as cond Hcond.
  destruct val as [val |]; [eauto | discriminate H].
Qed.

(** What [bind_val] binds is the value, seen as the list of its
    elements or as a list of one. *)
Lemma bind_val_leaves (h5j value : json) (val : list json) :
  py_getitem h5j "value" = Ok value ->
  bind_val h5j = Ok (Some val) ->
  flat_map leaves val = leaves value.
Proof.
  intros Hvalue H; unfold bind_val in H.
  bind_drop H as shape; bind_drop H as cls.
  destruct (py_eq cls (JStr "H5S_SIMPLE")).
  - rewrite Hvalue in H; cbn [bind] in H.
    destruct value as [| b | z | q | s | l | d]; try discriminate H.
    bind_drop H as dimsv; bind_drop H as dims.
    destruct (negb _); [discriminate H |]; injection H as <-; reflexivity.
  - destruct (py_eq cls (JStr "H5S_SCALAR")); [| discriminate H].
    rewrite Hvalue in H; cbn [bind] in H.
    destruct value as [| b | z | q | s | l | d]; try discriminate H;
      injection H as <-; reflexivity.
Qed.

(** X8. In a description that [validate_h5json] accepts, every scalar of the
    [value] is a string when the datatype class is H5T_STRING, and an
    integer within the bounds of the predefined type when the class is
    H5T_INTEGER. *)
Theorem accepted_value_conforms
        (h5j : json) (reqd : list string) (value t : json) (cls : string) :
  validate_h5json h5j reqd = Ok tt ->
  py_getitem h5j "value" = Ok value ->
  py_getitem h5j "type" = Ok t ->
  py_getitem t "class" = Ok (JStr cls) ->
  (cls = "H5T_STRING" -> Forall (fun v => is_basestring v = true) (leaves value)) /\
  (cls = "H5T_INTEGER" ->
   exists base dt lo hi,
     py_getitem t "base" = Ok base /\ numpy_dtype base = Ok dt /\
     iinfo dt = Ok (lo, hi) /\
     Forall (integer_within lo hi) (leaves value)).
Proof.
  intros H Hvalue Ht Hcls.
  apply validate_ok_stages in H; destruct H as (_ & _ & _ & Hv & _).
  destruct (validate_value_ok _ _ Hv Hvalue) as [val [cond [Hval [Hcond Hrun]]]].
  rewrite value_check_flat, (bind_val_leaves _ _ _ Hvalue Hval) in Hrun.
  apply for_each_ok in Hrun.
  destruct (type_checker_of_class _ _ _ _ Ht Hcls Hcond) as [Hs Hi].
  split; intros Hc.
  - rewrite (Hs Hc) in Hrun.
    eapply Forall_impl; [| exact Hrun].
    intros v Hv'; unfold check_string in Hv'.
    destruct (is_basestring v); [reflexivity | discriminate Hv'].
  - destruct (Hi Hc) as (base & dt & lo & hi & Hbase & Hdt & Hinfo & ->).
    exists base, dt, lo, hi; repeat split; try assumption.
    eapply Forall_impl; [| exact Hrun].
    intros v Hv'; apply check_integer_ok; exact Hv'.
Qed.

Lemma accepted_value_conforms_witness :
  exists base dt lo hi,
    py_getitem (atomic_type "H5T_INTEGER" "H5T_STD_I8LE") "base" = Ok base /\
    numpy_dtype base = Ok dt /\ iinfo dt = Ok (lo, hi) /\
    Forall (integer_within lo hi)
           (leaves (JList [JList [JInt 1; JInt 2]; JList [JInt 3; JInt (-4)]])).
Proof.
  apply (accepted_value_conforms
           (JObj [("shape", JObj [("class", JStr "H5S_SIMPLE");
                                  ("dims", JList [JInt 2; JInt 2])]);
                  ("type", atomic_type "H5T_INTEGER" "H5T_STD_I8LE");
                  ("value", JList [JList [JInt 1; JInt 2];
                                   JList [JInt 3; JInt (-4)]])])
           [] (JList [JList [JInt 1; JInt 2]; JList [JInt 3; JInt (-4)]])
           (atomic_type "H5T_INTEGER" "H5T_STD_I8LE") "H5T_INTEGER");
    reflexivity.
Defined.

(** X9. In a description that [validate_h5json] accepts, a [fillValue]
    of an integer datatype is an integer within the bounds of the
    predefined type, or a nested list of such integers. *)
Theorem accepted_fill_value_conforms
        (h5j : json) (reqd : list string) (cp fill t : json) :
  validate_h5json h5j reqd = Ok tt ->
  py_getitem h5j "creationProperties" = Ok cp ->
  py_getitem cp "fillValue" = Ok fill ->
  py_getitem h5j "type" = Ok t ->
  py_getitem t "class" = Ok (JStr "H5T_INTEGER") ->
  exists base dt lo hi,
    py_getitem t "base" = Ok base /\ numpy_dtype base = Ok dt /\
    iinfo dt = Ok (lo, hi) /\ Forall (integer_within lo hi) (leaves fill).
Proof.
  intros H Hcp Hfill Ht Hcls.
  apply validate_ok_stages in H; destruct H as (_ & _ & _ & _ & _ & H).
  destruct (creation_properties_ok _ _ H Hcp) as (_ & _ & _ & Hf).
  unfold validate_fill_value in Hf.
  rewrite (py_contains_of_getitem _ _ _ Hfill) in Hf; cbn [bind] in Hf.
  bind_inv Hf as cond Hcond; rewrite Hfill in Hf; cbn [bind] in Hf.
  rewrite value_check_flat in Hf; cbn [flat_map] in Hf.
  rewrite app_nil_r in Hf; apply for_each_ok in Hf.
  destruct (type_checker_of_class _ _ _ _ Ht Hcls Hcond) as [_ Hi].
  destruct (Hi eq_refl) as (base & dt & lo & hi & Hbase & Hdt & Hinfo & ->).
  exists base, dt, lo, hi; repeat split; try assumption.
  eapply Forall_impl; [| exact Hf].
  intros v Hv; apply check_integer_ok; exact Hv.
Qed.

Lemma accepted_fill_value_conforms_witness :
  exists base dt lo hi,
    py_getitem (atomic_type "H5T_INTEGER" "H5T_STD_U8LE") "base" = Ok base /\
    numpy_dtype base = Ok dt /\ iinfo dt = Ok (lo, hi) /\
    Forall (integer_within lo hi) (leaves (JInt 255)).
Proof.
  apply (accepted_fill_value_conforms
           (JObj [("shape", JObj [("class", JStr "H5S_SCALAR")]);
                  ("type", atomic_type "H5T_INTEGER" "H5T_STD_U8LE");
                  ("creationProperties", JObj [("fillValue", JInt 255)])])
           [] (JObj [("fillValue", JInt 255)]) (JInt 255)
           (atomic_type "H5T_INTEGER" "H5T_STD_U8LE"));
    reflexivity.
Defined.

(** X10. In a description that [validate_h5json] accepts and that has a
    [value], the dataspace is simple or scalar, never null.  With a simple
    dataspace the value is a list, the shape NumPy finds for it is [dims],
    and so it has as many elements as the first dimension says; with a
    scalar dataspace the value is not a list. *)
Theorem accepted_value_shape
        (h5j : json) (reqd : list string) (value shape : json) :
  validate_h5json h5j reqd = Ok tt ->
  py_getitem h5j "value" = Ok value ->
  py_getitem h5j "shape" = Ok shape ->
  (exists l d0 rest,
      py_getitem shape "class" = Ok (JStr "H5S_SIMPLE") /\
      value = JList l /\
      py_getitem shape "dims" = Ok (JList (d0 :: rest)) /\
      py_eq (JList (map (fun n => JInt (Z.of_nat n)) (np_shape value)))
            (JList (d0 :: rest)) = true /\
      py_eq (JInt (Z.of_nat (List.length l))) d0 = true) \/
  (py_getitem shape "class" = Ok (JStr "H5S_SCALAR") /\ is_list value = false).
Proof.
  intros H Hvalue Hshape.
  apply validate_ok_stages in H; destruct H as (_ & _ & _ & Hv & _).
  destruct (validate_value_ok _ _ Hv Hvalue) as [val [cond [Hval _]]].
  unfold bind_val in Hval; rewrite Hshape in Hval; cbn [bind] in Hval.
  bind_inv Hval as cls Hcls.
  destruct (py_eq cls (JStr "H5S_SIMPLE")) eqn:Esimple.
  - apply py_eq_str in Esimple; subst cls; left.
    rewrite Hvalue in Hval; cbn [bind] in Hval.
    destruct value as [| b | z | q | s | l | d]; try discriminate Hval.
    bind_inv Hval as dimsv Hdims; bind_inv Hval as dims Hlist.
    destruct dimsv as [| b | z | q | s | dims' | d]; try discriminate Hlist.
    injection Hlist as ->.
    destruct (py_eq _ (JList dims)) eqn:Eshape; [| discriminate Hval].
    destruct dims as [| d0 rest]; [discriminate Eshape |].
    exists l, d0, rest; repeat split; try assumption.
    cbn [np_shape map py_eq] in Eshape.
    apply andb_true_iff in Eshape; tauto.
  - destruct (py_eq cls (JStr "H5S_SCALAR")) eqn:Escalar; [| discriminate Hval].
    apply py_eq_str in Escalar; subst cls; right.
    rewrite Hvalue in Hval; cbn [bind] in Hval.
    split; [exact Hcls |].
    destruct (is_list value); [discriminate Hval | reflexivity].
Qed.

Lemma accepted_value_shape_witness :
  (exists l d0 rest,
      py_getitem (JObj [("class", JStr "H5S_SCALAR")]) "class"
      = Ok (JStr "H5S_SIMPLE") /\
      JStr "m/s" = JList l /\
      py_getitem (JObj [("class", JStr "H5S_SCALAR")]) "dims"
      = Ok (JList (d0 :: rest)) /\
      py_eq (JList (map (fun n => JInt (Z.of_nat n)) (np_shape (JStr "m/s"))))
            (JList (d0 :: rest)) = true /\
      py_eq (JInt (Z.of_nat (List.length l))) d0 = true) \/
  (py_getitem (JObj [("class", JStr "H5S_SCALAR")]) "class"
   = Ok (JStr "H5S_SCALAR") /\ is_list (JStr "m/s") = false).
Proof.
  apply (accepted_value_shape
           (JObj [("shape", JObj [("class", JStr "H5S_SCALAR")]);
                  ("type", JObj [("class", JStr "H5T_STRING");
                                 ("charSet", JStr "H5T_CSET_ASCII");
                                 ("strPad", JStr "H5T_STR_NULLTERM");
                                 ("length", JStr "H5T_VARIABLE")]);
                  ("value", JStr "m/s")])
           [] (JStr "m/s") (JObj [("class", JStr "H5S_SCALAR")]));
    reflexivity.
Defined.

(** ** What an accepted description looks like *)

Lemma validate_required_run (d : list (string * json)) (reqd : list string) :
  validate_required (JObj d) reqd
  = if forallb (fun k => match jget k d with Some _ => true | None => false end)
               reqd
    then Ok tt
    else Raise KeyError "%s: Required but missing".
Proof.
  unfold validate_required; induction reqd as [| k reqd IH]; [reflexivity |].
  cbn [for_each forallb py_contains bind].
  destruct (jget k d); cbn [bind andb]; [exact IH | reflexivity].
Qed.

(** X11. The required keys are looked for before anything else: when one of
    them is missing from the description, [validate_h5json] raises the
    KeyError "Required but missing" whatever the rest holds, and a
    description that is accepted has them all. *)
Theorem required_keys_first (d : list (string * json)) (reqd : list string) :
  ((exists k, In k reqd /\ jget k d = None) ->
   validate_h5json (JObj d) reqd = Raise KeyError "%s: Required but missing") /\
  (validate_h5json (JObj d) reqd = Ok tt ->
   Forall (fun k => jget k d <> None) reqd).
Proof.
  split.
  - intros [k [Hin Hk]]; unfold validate_h5json.
    rewrite validate_required_run.
    assert (forallb (fun k => match jget k d with Some _ => true | None => false end)
                    reqd = false) as ->; [| reflexivity].
    apply not_true_is_false; intros H.
    rewrite forallb_forall in H; specialize (H k Hin).
    rewrite Hk in H; discriminate H.
  - intros H; apply validate_ok_stages in H; destruct H as [H _].
    rewrite validate_required_run in H.
    destruct (forallb _ reqd) eqn:E; [| discriminate H].
    rewrite forallb_forall in E; apply Forall_forall; intros k Hk.
    specialize (E k Hk); destruct (jget k d); [discriminate | discriminate E].
Qed.

Lemma required_keys_first_witness :
  validate_h5json (JObj [("name", JStr "x")]) ["name"; "shape"]
  = Raise KeyError "%s: Required but missing".
Proof.
  apply (proj1 (required_keys_first [("name", JStr "x")] ["name"; "shape"])).
  exists "shape"; split; [simpl; tauto | reflexivity].
Defined.

Lemma is_substring_slash (s : string) :
  is_substring "/" s = true <-> In "/"%char (list_ascii_of_string s).
Proof.
  unfold is_substring; induction s as [| c s IH].
  - split; [discriminate | intros []].
  - cbn [index prefix list_ascii_of_string In].
    destruct (ascii_dec "/" c) as [<- | Hne].
    + assert (prefix "" s = true) as -> by (destruct s; reflexivity).
      split; auto.
    + destruct (index 0 "/" s) eqn:E.
      * split; [intros _; right; apply IH; reflexivity | reflexivity].
      * split; [discriminate |].
        intros [Hc | Hin]; [symmetry in Hc; contradiction |].
        apply IH in Hin; discriminate Hin.
Qed.

(** X12. In a description that [validate_h5json] accepts, the [name] is a
    string, it is not empty and no character of it is the slash. *)
Theorem accepted_name (h5j : json) (reqd : list string) (name : json) :
  validate_h5json h5j reqd = Ok tt ->
  py_getitem h5j "name" = Ok name ->
  exists s,
    name = JStr s /\ s <> "" /\ ~ In "/"%char (list_ascii_of_string s).
Proof.
  intros H Hname.
  apply validate_ok_stages in H; destruct H as (_ & _ & _ & _ & H & _).
  unfold validate_name in H.
  rewrite (py_contains_of_getitem _ _ _ Hname), Hname in H; cbn [bind] in H.
  destruct name as [| b | z | q | s | l | d]; try discriminate H.
  exists s; split; [reflexivity |].
  destruct (Nat.eqb (String.length s) 0) eqn:E; [discriminate H |].
  destruct (is_substring "/" s) eqn:Es; [discriminate H |].
  split.
  - intros ->; discriminate E.
  - intros Hin; apply is_substring_slash in Hin; congruence.
Qed.

Lemma accepted_name_witness :
  exists s,
    JStr "temperature" = JStr s /\ s <> "" /\
    ~ In "/"%char (list_ascii_of_string s).
Proof.
  apply (accepted_name (JObj [("name", JStr "temperature")]) []
                       (JStr "temperature"));
    reflexivity.
Defined.

Lemma check_chunk_dim_ok (c : json) (z : Z) :
  check_chunk_dim c = Ok z -> as_integral c = Some z /\ 0 < z <= 4294967295.
Proof.
  unfold check_chunk_dim.
  destruct (as_integral c) as [z' |]; [| discriminate].
  destruct ((0 <? z') && (z' <=? 4294967295)) eqn:E; [| discriminate].
  intros H; injection H as <-.
  apply andb_true_iff in E; destruct E as [E1 E2].
  apply Z.ltb_lt in E1; apply Z.leb_le in E2; auto.
Qed.

(** X13. In a description that [validate_h5json] accepts, a layout has one
    of the three classes.  A layout that is not chunked has no [dims].  A
    chunked layout has a list of [dims], each an integer from 1 to 2^32-1,
    the dataspace is simple, and there are as many chunk dimensions as
    dataspace dimensions. *)
Theorem accepted_layout
        (h5j : json) (reqd : list string) (cp layout : json) :
  validate_h5json h5j reqd = Ok tt ->
  py_getitem h5j "creationProperties" = Ok cp ->
  py_getitem cp "layout" = Ok layout ->
  exists lcls,
    py_getitem layout "class" = Ok (JStr lcls) /\
    In lcls ["H5D_CONTIGUOUS"; "H5D_CHUNKED"; "H5D_COMPACT"] /\
    (lcls <> "H5D_CHUNKED" -> py_contains "dims" layout = Ok false) /\
    (lcls = "H5D_CHUNKED" ->
     exists cdims shape sdims,
       py_getitem layout "dims" = Ok (JList cdims) /\
       Forall chunk_dim_ok cdims /\
       py_getitem h5j "shape" = Ok shape /\
       py_getitem shape "class" = Ok (JStr "H5S_SIMPLE") /\
       py_getitem shape "dims" = Ok sdims /\
       py_len sdims = Ok (List.length cdims)).
Proof.
  intros H Hcp Hlayout.
  destruct (validated_parts _ _ _ H Hcp) as [Hl _].
  unfold validate_layout in Hl.
  rewrite (py_contains_of_getitem _ _ _ Hlayout), Hlayout in Hl; cbn [bind] in Hl.
  bind_drop Hl as has_class; bind_skip Hl; bind_inv Hl as lcls Hlcls.
  apply bind_unit_ok in Hl; destruct Hl as [Hin Hl].
  destruct (str_in lcls _) eqn:Ein; [| discriminate Hin].
  apply str_in_inv in Ein; destruct Ein as [c [Hc ->]].
  exists c; split; [exact Hlcls | split; [exact Hc | split]].
  - intros Hne.
    assert (py_eq (JStr c) (JStr "H5D_CHUNKED") = false) as E.
    { apply not_true_is_false; intros E; apply py_eq_str in E; congruence. }
    rewrite E in Hl; bind_inv Hl as has_dims Hd.
    destruct has_dims; [discriminate Hl | exact Hd].
  - intros ->; cbn [py_eq String.eqb Ascii.eqb Bool.eqb] in Hl.
    bind_drop Hl as has_dims; bind_skip Hl; bind_inv Hl as cdimsv Hcdims.
    destruct cdimsv as [| b | z | q | s | cdims | d]; try discriminate Hl.
    bind_inv Hl as sizes Hsizes; bind_skip Hl.
    bind_inv Hl as shape Hshape; bind_inv Hl as scls Hscls.
    destruct (py_eq scls (JStr "H5S_SIMPLE")) eqn:Es; [| discriminate Hl].
    apply py_eq_str in Es; subst scls.
    bind_inv Hl as sdims Hsdims; bind_inv Hl as rank Hrank.
    apply bind_unit_ok in Hl; destruct Hl as [Heq _].
    destruct (Nat.eqb rank (List.length cdims)) eqn:E; [| discriminate Heq].
    apply Nat.eqb_eq in E; subst rank.
    exists cdims, shape, sdims; repeat split; try assumption.
    apply map_m_ok in Hsizes.
    eapply Forall_impl; [| exact (Forall2_left _ _ _ Hsizes)].
    intros x [z Hz]; exists z; apply check_chunk_dim_ok; exact Hz.
Qed.

Lemma accepted_layout_witness :
  exists lcls,
    py_getitem (JObj [("class", JStr "H5D_CHUNKED");
                      ("dims", JList [JInt 2; JInt 3])]) "class"
    = Ok (JStr lcls) /\
    In lcls ["H5D_CONTIGUOUS"; "H5D_CHUNKED"; "H5D_COMPACT"] /\
    (lcls <> "H5D_CHUNKED" ->
     py_contains "dims" (JObj [("class", JStr "H5D_CHUNKED");
                               ("dims", JList [JInt 2; JInt 3])]) = Ok false) /\
    (lcls = "H5D_CHUNKED" ->
     exists cdims shape sdims,
       py_getitem (JObj [("class", JStr "H5D_CHUNKED");
                         ("dims", JList [JInt 2; JInt 3])]) "dims"
       = Ok (JList cdims) /\
       Forall chunk_dim_ok cdims /\
       py_getitem (chunked_dataset [2; 3] [2; 3]) "shape" = Ok shape /\
       py_getitem shape "class" = Ok (JStr "H5S_SIMPLE") /\
       py_getitem shape "dims" = Ok sdims /\
       py_len sdims = Ok (List.length cdims)).
Proof.
  apply (accepted_layout
           (chunked_dataset [2; 3] [2; 3]) []
           (JObj [("layout", JObj [("class", JStr "H5D_CHUNKED");
                                   ("dims", JList [JInt 2; JInt 3])])])
           (JObj [("class", JStr "H5D_CHUNKED"); ("dims", JList [JInt 2; JInt 3])]));
    reflexivity.
Defined.

Lemma check_filter_ok (h5j : json) (n : nat) (f : json) :
  check_filter h5j n f = Ok tt -> filter_ok f.
Proof.
  unfold check_filter, filter_ok.
  destruct f as [| b | z | q | s | l | fd]; try discriminate.
  cbn [py_contains py_getitem bind].
  destruct (jget "class" fd) as [fcls |] eqn:Ecls; cbn [bind]; [| discriminate].
  destruct (jget "id" fd) as [id |] eqn:Eid; cbn [bind]; [| discriminate].
  destruct (as_integral id) as [zid |] eqn:Ezid; cbn [bind]; [| discriminate].
  destruct (zid <=? 0) eqn:Epos; cbn [bind]; [discriminate |].
  apply Z.leb_gt in Epos.
  destruct (py_eq fcls (JStr "H5Z_FILTER_DEFLATE")) eqn:E1.
  { apply py_eq_str in E1; subst fcls.
    destruct (jget "level" fd) as [level |] eqn:Elevel; cbn [bind]; [| discriminate].
    destruct (as_integral level) as [zl |] eqn:Ezl; [| discriminate].
    destruct ((0 <=? zl) && (zl <=? 9)) eqn:Er; [| discriminate]; intros _.
    apply andb_true_iff in Er; destruct Er as [Er1 Er2].
    apply Z.leb_le in Er1; apply Z.leb_le in Er2.
    exists fd, "H5Z_FILTER_DEFLATE", id, zid.
    repeat split; try assumption; try discriminate; try (simpl; tauto).
    intros _; exists level, zl; repeat split; assumption. }
  destruct (py_eq fcls (JStr "H5Z_FILTER_FLETCHER32")) eqn:E2.
  { apply py_eq_str in E2; subst fcls; intros _.
    exists fd, "H5Z_FILTER_FLETCHER32", id, zid.
    repeat split; try assumption; try discriminate; simpl; tauto. }
  destruct (py_eq fcls (JStr "H5Z_FILTER_NBIT")) eqn:E3.
  { apply py_eq_str in E3; subst fcls; intros _.
    exists fd, "H5Z_FILTER_NBIT", id, zid.
    repeat split; try assumption; try discriminate; simpl; tauto. }
  destruct (py_eq fcls (JStr "H5Z_FILTER_SCALEOFFSET")) eqn:E4.
  { apply py_eq_str in E4; subst fcls; intros H.
    unfold check_scaleoffset in H.
    bind_drop H as has_st; bind_skip H; bind_drop H as has_so; bind_skip H.
    bind_drop H as st; bind_drop H as int_mismatch; bind_skip H.
    bind_inv H as so Hso.
    cbn [py_getitem] in Hso.
    destruct (jget "scaleOffset" fd) as [offset |] eqn:Eso; [| discriminate Hso].
    injection Hso as ->.
    destruct (as_integral so) as [zo |] eqn:Ezo; [| discriminate H].
    destruct (zo <? 0) eqn:Eneg; [discriminate H |].
    apply Z.ltb_ge in Eneg.
    exists fd, "H5Z_FILTER_SCALEOFFSET", id, zid.
    repeat split; try assumption; try discriminate; try (simpl; tauto).
    intros _; exists so, zo; repeat split; assumption. }
  destruct (py_eq fcls (JStr "H5Z_FILTER_SHUFFLE")) eqn:E5.
  { apply py_eq_str in E5; subst fcls; intros _.
    exists fd, "H5Z_FILTER_SHUFFLE", id, zid.
    repeat split; try assumption; try discriminate; simpl; tauto. }
  destruct (py_eq fcls (JStr "H5Z_FILTER_SZIP")) eqn:E6.
  { apply py_eq_str in E6; subst fcls; intros _.
    exists fd, "H5Z_FILTER_SZIP", id, zid.
    repeat split; try assumption; try discriminate; simpl; tauto. }
  destruct (py_eq fcls (JStr "H5Z_FILTER_USER")) eqn:E7; [| discriminate].
  apply py_eq_str in E7; subst fcls.
  destruct (jget "parameters" fd) eqn:Epar; cbn [bind]; [| discriminate].
  intros _; exists fd, "H5Z_FILTER_USER", id, zid.
  repeat split; try assumption; try discriminate; try (simpl; tauto).
  intros _; rewrite Epar; discriminate.
Qed.

(** X14. In a description that [validate_h5json] accepts, [filters] is a
    list of dicts, each with one of the seven filter classes and a positive
    integer [id]; a deflate filter has a [level] from 0 to 9, a
    scale-offset filter a non-negative integer [scaleOffset], a user filter
    has [parameters]; and the list does not hold both a scale-offset and a
    Fletcher32 filter. *)
Theorem accepted_filters
        (h5j : json) (reqd : list string) (cp fltrsv : json) :
  validate_h5json h5j reqd = Ok tt ->
  py_getitem h5j "creationProperties" = Ok cp ->
  py_getitem cp "filters" = Ok fltrsv ->
  exists fltrs,
    fltrsv = JList fltrs /\
    Forall filter_ok fltrs /\
    ~ ((exists f, In f fltrs /\
                  py_getitem f "class" = Ok (JStr "H5Z_FILTER_SCALEOFFSET")) /\
       (exists g, In g fltrs /\
                  py_getitem g "class" = Ok (JStr "H5Z_FILTER_FLETCHER32"))).
Proof.
  intros H Hcp Hfl.
  destruct (validated_parts _ _ _ H Hcp) as [_ Hf].
  unfold validate_filters in Hf.
  rewrite (py_contains_of_getitem _ _ _ Hfl), Hfl in Hf; cbn [bind] in Hf.
  destruct fltrsv as [| b | z | q | s | fltrs | d]; try discriminate Hf.
  bind_drop Hf as has_layout; bind_skip Hf.
  apply bind_unit_ok in Hf; destruct Hf as [Hloop Hf].
  bind_inv Hf as classes Hclasses.
  exists fltrs; split; [reflexivity | split].
  - apply Forall_of_nth; intros j f Hj.
    apply (check_filter_ok h5j (0 + j)).
    apply (for_enumerate_ok_inv _ _ _ Hloop _ _ Hj).
  - intros [[f [Hf_in Hf_cls]] [g [Hg_in Hg_cls]]].
    apply map_m_ok in Hclasses.
    assert (Hmem : forall x c, In x fltrs -> py_getitem x "class" = Ok c ->
                               In c classes).
    { clear - Hclasses; induction Hclasses as [| x0 c0 l cs Hx _ IH];
        intros x c Hin Hc; [destruct Hin |].
      destruct Hin as [-> | Hin]; [left; congruence | right; eapply IH; eauto]. }
    assert (existsb (fun c => py_eq c (JStr "H5Z_FILTER_SCALEOFFSET")) classes
            = true) as E1.
    { apply existsb_exists; exists (JStr "H5Z_FILTER_SCALEOFFSET").
      split; [apply (Hmem f); assumption | apply py_eq_str; reflexivity]. }
    assert (existsb (fun c => py_eq c (JStr "H5Z_FILTER_FLETCHER32")) classes
            = true) as E2.
    { apply existsb_exists; exists (JStr "H5Z_FILTER_FLETCHER32").
      split; [apply (Hmem g); assumption | apply py_eq_str; reflexivity]. }
    rewrite E1, E2 in Hf; discriminate Hf.
Qed.

Lemma accepted_filters_witness :
  exists fltrs,
    JList [shuffle_filter; scaleoffset_filter "H5Z_SO_INT"] = JList fltrs /\
    Forall filter_ok fltrs /\
    ~ ((exists f, In f fltrs /\
                  py_getitem f "class" = Ok (JStr "H5Z_FILTER_SCALEOFFSET")) /\
       (exists g, In g fltrs /\
                  py_getitem g "class" = Ok (JStr "H5Z_FILTER_FLETCHER32"))).
Proof.
  apply (accepted_filters
           (filtered_dataset "H5D_CHUNKED"
                             [shuffle_filter; scaleoffset_filter "H5Z_SO_INT"]) []
           (JObj [("layout", JObj [("class", JStr "H5D_CHUNKED");
                                   ("dims", JList [JInt 5])]);
                  ("filters", JList [shuffle_filter;
                                     scaleoffset_filter "H5Z_SO_INT"])])
           (JList [shuffle_filter; scaleoffset_filter "H5Z_SO_INT"]));
    reflexivity.
Defined.

(** ** Names of datatypes *)

Example h5dtype_name_ex :
  h5dtype_name (atomic_type "H5T_INTEGER" "H5T_STD_U16BE") = Ok "uint16".
Proof. reflexivity. Qed.

Lemma conv_map_named (k : string) (dt : dtype) :
  conv_map_get k conv_map = Some dt ->
  name_conv_map_get k name_conv_map = Some (np_dtype_name dt).
Proof.
  cbn [conv_map_get conv_map name_conv_map_get name_conv_map].
  repeat (destruct (String.eqb k _);
          [intros H; injection H as <-; reflexivity |]).
  discriminate.
Qed.

Lemma numpy_dtype_ok (base : json) (dt : dtype) :
  numpy_dtype base = Ok dt ->
  exists s, base = JStr s /\ conv_map_get (drop_last2 s) conv_map = Some dt.
Proof.
  destruct base as [| b | z | q | s | l | d]; unfold numpy_dtype;
    try discriminate.
  destruct (conv_map_get (drop_last2 s) conv_map) as [dt' |] eqn:E;
    [| discriminate].
  intros H; injection H as <-; eauto.
Qed.

Lemma h5dtype_name_numeric (t base : json) (cls : string) (dt : dtype) :
  py_getitem t "class" = Ok (JStr cls) ->
  In cls ["H5T_INTEGER"; "H5T_FLOAT"] ->
  py_getitem t "base" = Ok base ->
  numpy_dtype base = Ok dt ->
  h5dtype_name t = Ok (np_dtype_name dt).
Proof.
  intros Hcls Hin Hbase Hdt; unfold h5dtype_name.
  rewrite Hcls; cbn [bind].
  assert (Hc : str_in (JStr cls) ["H5T_FLOAT"; "H5T_INTEGER"] = true)
    by (apply str_in_true; simpl in Hin |- *; tauto).
  rewrite Hc, Hbase; cbn [bind].
  apply numpy_dtype_ok in Hdt; destruct Hdt as [s [-> Hs]].
  cbn [py_slice_drop2 bind name_conv_map_item].
  rewrite (conv_map_named _ _ Hs); reflexivity.
Qed.

(** X15. On a numeric datatype [h5dtype_name] agrees with [numpy_dtype]:
    when the class is H5T_INTEGER or H5T_FLOAT and [numpy_dtype] maps the
    [base] to a NumPy type, [h5dtype_name] returns the name of that NumPy
    type. *)
Theorem h5dtype_name_agrees_with_numpy_dtype
  (d : list (string * json)) (cls : string) (base : json) (dt : dtype) :
  jget "class" d = Some (JStr cls) ->
  In cls ["H5T_INTEGER"; "H5T_FLOAT"] ->
  jget "base" d = Some base ->
  numpy_dtype base = Ok dt ->
  h5dtype_name (JObj d) = Ok (np_dtype_name dt).
Proof.
  intros Hcls Hin Hbase Hdt.
  apply (h5dtype_name_numeric (JObj d) base cls dt); auto; simpl.
  - rewrite Hcls; reflexivity.
  - rewrite Hbase; reflexivity.
Qed.

Lemma h5dtype_name_agrees_with_numpy_dtype_witness :
  h5dtype_name (atomic_type "H5T_FLOAT" "H5T_IEEE_F32BE") = Ok "float32".
Proof.
  apply (h5dtype_name_agrees_with_numpy_dtype _ "H5T_FLOAT"
           (JStr "H5T_IEEE_F32BE") f4);
    [reflexivity | simpl; tauto | reflexivity | reflexivity].
Defined.

(** X16. Every datatype that [check_type] accepts has a name:
    [h5dtype_name] returns on it, and does not raise. *)
Theorem accepted_type_has_name (t : json) :
  check_type t = Ok tt -> exists name, h5dtype_name t = Ok name.
Proof.
  unfold check_type; cbn [check_type_rec]; intros H.
  bind_drop H as has_class; bind_skip H; bind_inv H as tcls Htcls.
  destruct (py_eq tcls (JStr "H5T_COMPOUND")) eqn:Ec.
  { apply py_eq_str in Ec; subst tcls; unfold h5dtype_name; rewrite Htcls.
    eexists; reflexivity. }
  destruct (py_eq tcls (JStr "H5T_VLEN")) eqn:Ev.
  { apply py_eq_str in Ev; subst tcls; unfold h5dtype_name; rewrite Htcls.
    eexists; reflexivity. }
  destruct (py_eq tcls (JStr "H5T_ARRAY")) eqn:Ea.
  { apply py_eq_str in Ea; subst tcls; unfold h5dtype_name; rewrite Htcls.
    eexists; reflexivity. }
  clear Ec Ev Ea; unfold _check_atomic_type in H; rewrite Htcls in H.
  cbn [bind] in H.
  destruct (py_eq tcls (JStr "H5T_STRING")) eqn:Es.
  { apply py_eq_str in Es; subst tcls; unfold h5dtype_name; rewrite Htcls.
    eexists; reflexivity. }
  destruct (str_in tcls ["H5T_INTEGER"; "H5T_FLOAT"]) eqn:En.
  { apply str_in_inv in En; destruct En as [cls [Hin ->]].
    bind_drop H as has_base; bind_skip H; bind_inv H as base Hbase.
    destruct (numpy_dtype base) as [dt |] eqn:Edt; [| discriminate H].
    exists (np_dtype_name dt).
    apply (h5dtype_name_numeric t base cls dt); auto. }
  destruct (py_eq tcls (JStr "H5T_REFERENCE")) eqn:Er; [| discriminate H].
  apply py_eq_str in Er; subst tcls; unfold h5dtype_name; rewrite Htcls.
  eexists; reflexivity.
Qed.

Lemma accepted_type_has_name_witness :
  exists name, h5dtype_name vlen_of_compound = Ok name.
Proof.
  apply (accepted_type_has_name vlen_of_compound); reflexivity.
Defined.

(** ** Merged dicts *)

Example merge_dicts_ex :
  merge_dicts [("x", JStr "foo");
               ("y", JObj [("bar", JObj [("1", JStr "abc")]); ("baz", JInt 1000)])]
              [("2", JStr "edf"); ("y", JObj [("baz", JStr "new value")])]
  = [("x", JStr "foo");
     ("y", JObj [("bar", JObj [("1", JStr "abc")]); ("baz", JStr "new value")]);
     ("2", JStr "edf")].
Proof. reflexivity. Qed.

Lemma merge_dicts_eq (d1 d2 : list (string * json)) :
  merge_dicts d1 d2
  = merge_first d2 [] d1
    ++ filter (fun kv => negb (has_key (fst kv) d1)) (first_bindings [] d2).
Proof.
  unfold merge_dicts; cbn [merge_item]; f_equal.
  generalize (@nil string) as seen.
  induction d1 as [| [k x] rest IH]; intros seen; [reflexivity |].
  cbn [merge_first]; rewrite <- IH, <- IH; reflexivity.
Qed.

Lemma merge_item_dicts (a b : list (string * json)) :
  merge_item (JObj a) (JObj b) = JObj (merge_dicts a b).
Proof. reflexivity. Qed.

Lemma merge_item_other (x y : json) :
  is_dict x = false \/ is_dict y = false -> merge_item x y = y.
Proof.
  destruct x as [| b | z | q | s | l | d]; try reflexivity.
  destruct y as [| b | z | q | s | l | e]; try reflexivity.
  intros [H | H]; discriminate H.
Qed.

Lemma jget_app (k : string) (d e : list (string * json)) :
  jget k (d ++ e) = match jget k d with Some v => Some v | None => jget k e end.
Proof.
  induction d as [| [k' v] d IH]; simpl; [reflexivity |].
  destruct (String.eqb k k'); [reflexivity | exact IH].
Qed.

Lemma existsb_eqb_in (k : string) (seen : list string) :
  existsb (String.eqb k) seen = true <-> In k seen.
Proof.
  rewrite existsb_exists; split.
  - intros [x [Hx E]]; apply String.eqb_eq in E; subst; exact Hx.
  - intros H; exists k; split; [exact H | apply String.eqb_refl].
Qed.

Lemma jget_merge_first (k : string) (b : list (string * json)) :
  forall entries seen,
    jget k (merge_first b seen entries)
    = if existsb (String.eqb k) seen then None
      else match jget k entries with
           | Some x => Some (match jget k b with
                             | Some y => merge_item x y
                             | None => x
                             end)
           | None => None
           end.
Proof.
  induction entries as [| [k' x] rest IH]; intros seen.
  - simpl; destruct (existsb (String.eqb k) seen); reflexivity.
  - cbn [merge_first].
    destruct (existsb (String.eqb k') seen) eqn:Eseen.
    + rewrite IH; cbn [jget].
      destruct (String.eqb k k') eqn:E; [| reflexivity].
      apply String.eqb_eq in E; subst k'; rewrite Eseen; reflexivity.
    + cbn [jget]; destruct (String.eqb k k') eqn:E.
      * apply String.eqb_eq in E; subst k'; rewrite Eseen; reflexivity.
      * rewrite IH; cbn [existsb]; rewrite E; reflexivity.
Qed.

Lemma jget_first_bindings (k : string) :
  forall d seen,
    jget k (first_bindings seen d)
    = if existsb (String.eqb k) seen then None else jget k d.
Proof.
  induction d as [| [k' v] d IH]; intros seen.
  - simpl; destruct (existsb (String.eqb k) seen); reflexivity.
  - cbn [first_bindings].
    destruct (existsb (String.eqb k') seen) eqn:Eseen.
    + rewrite IH; cbn [jget].
      destruct (String.eqb k k') eqn:E; [| reflexivity].
      apply String.eqb_eq in E; subst k'; rewrite Eseen; reflexivity.
    + cbn [jget]; destruct (String.eqb k k') eqn:E.
      * apply String.eqb_eq in E; subst k'; rewrite Eseen; reflexivity.
      * rewrite IH; cbn [existsb]; rewrite E; reflexivity.
Qed.

Lemma jget_filter_keys (p : string -> bool) (k : string) (d : list (string * json)) :
  jget k (filter (fun kv => p (fst kv)) d) = if p k then jget k d else None.
Proof.
  induction d as [| [k' v] d IH]; simpl; [destruct (p k); reflexivity |].
  destruct (p k') eqn:Ep; simpl; destruct (String.eqb k k') eqn:E;
    try (apply String.eqb_eq in E; subst k'; rewrite Ep in *); auto.
Qed.

Lemma jget_merge_dicts (k : string) (d1 d2 : list (string * json)) :
  jget k (merge_dicts d1 d2)
  = match jget k d1, jget k d2 with
    | Some x, Some y => Some (merge_item x y)
    | Some x, None => Some x
    | None, found => found
    end.
Proof.
  rewrite merge_dicts_eq, jget_app, jget_merge_first.
  rewrite (jget_filter_keys (fun key => negb (has_key key d1))).
  rewrite jget_first_bindings; unfold has_key; cbn [existsb].
  destruct (jget k d1) as [x |]; [| reflexivity].
  destruct (jget k d2); reflexivity.
Qed.

(** X17. What [merge_dicts] gives under a key: the value of the one dict
    that has the key; for a key of both dicts, the merge of the two values
    when both are dicts and the value of the second dict otherwise; nothing
    for a key of neither. *)
Theorem merge_dicts_lookup (d1 d2 : list (string * json)) (k : string) :
  (jget k d1 = None -> jget k (merge_dicts d1 d2) = jget k d2) /\
  (jget k d2 = None -> jget k (merge_dicts d1 d2) = jget k d1) /\
  (forall a b,
      jget k d1 = Some (JObj a) -> jget k d2 = Some (JObj b) ->
      jget k (merge_dicts d1 d2) = Some (JObj (merge_dicts a b))) /\
  (forall x y,
      jget k d1 = Some x -> jget k d2 = Some y ->
      is_dict x = false \/ is_dict y = false ->
      jget k (merge_dicts d1 d2) = Some y).
Proof.
  rewrite jget_merge_dicts; split; [| split; [| split]].
  - intros ->; reflexivity.
  - intros ->; destruct (jget k d1); reflexivity.
  - intros a b -> ->; reflexivity.
  - intros x y -> -> H; rewrite (merge_item_other _ _ H); reflexivity.
Qed.

Lemma merge_dicts_lookup_witness :
  jget "y" (merge_dicts [("x", JStr "foo"); ("y", JObj [("baz", JInt 1000)])]
                        [("y", JObj [("baz", JStr "new value")])])
  = Some (JObj (merge_dicts [("baz", JInt 1000)] [("baz", JStr "new value")])).
Proof.
  apply (merge_dicts_lookup [("x", JStr "foo"); ("y", JObj [("baz", JInt 1000)])]
           [("y", JObj [("baz", JStr "new value")])] "y"); reflexivity.
Defined.

Lemma in_keys_jget (k : string) (d : list (string * json)) :
  In k (map fst d) <-> jget k d <> None.
Proof.
  induction d as [| [k' v] d IH]; simpl; [tauto |].
  destruct (String.eqb k k') eqn:E.
  - apply String.eqb_eq in E; subst; split; [discriminate | auto].
  - apply String.eqb_neq in E; rewrite <- IH; split; [intros [H | H] |]; auto.
    congruence.
Qed.

Lemma merge_first_keys (b : list (string * json)) :
  forall entries seen,
    NoDup (map fst (merge_first b seen entries)) /\
    forall k, In k (map fst (merge_first b seen entries)) -> ~ In k seen.
Proof.
  induction entries as [| [k x] rest IH]; intros seen; cbn [merge_first].
  - split; [constructor | intros k []].
  - destruct (existsb (String.eqb k) seen) eqn:Eseen; [apply IH |].
    destruct (IH (k :: seen)) as [Hnd Hout]; cbn [map fst]; split.
    + constructor; [| exact Hnd].
      intros Hin; apply (Hout k Hin); left; reflexivity.
    + intros k' [<- | Hin].
      * intros Hk; apply existsb_eqb_in in Hk; congruence.
      * intros Hk; apply (Hout k' Hin); right; exact Hk.
Qed.

Lemma first_bindings_keys :
  forall d seen, NoDup (map fst (first_bindings seen d)) /\
                 forall k, In k (map fst (first_bindings seen d)) -> ~ In k seen.
Proof.
  induction d as [| [k x] rest IH]; intros seen; cbn [first_bindings].
  - split; [constructor | intros k []].
  - destruct (existsb (String.eqb k) seen) eqn:Eseen; [apply IH |].
    destruct (IH (k :: seen)) as [Hnd Hout]; cbn [map fst]; split.
    + constructor; [| exact Hnd].
      intros Hin; apply (Hout k Hin); left; reflexivity.
    + intros k' [<- | Hin].
      * intros Hk; apply existsb_eqb_in in Hk; congruence.
      * intros Hk; apply (Hout k' Hin); right; exact Hk.
Qed.

Lemma map_fst_filter_keys (p : string -> bool) (d : list (string * json)) :
  map fst (filter (fun kv => p (fst kv)) d) = filter p (map fst d).
Proof.
  induction d as [| [k v] d IH]; simpl; [reflexivity |].
  destruct (p k); simpl; rewrite IH; reflexivity.
Qed.

(** X18. The result of [merge_dicts] is a dict over the union of the keys:
    it has every key of either dict, no other key, and each key once. *)
Theorem merge_dicts_keys (d1 d2 : list (string * json)) :
  NoDup (map fst (merge_dicts d1 d2)) /\
  forall k, In k (map fst (merge_dicts d1 d2))
            <-> In k (map fst d1) \/ In k (map fst d2).
Proof.
  split.
  - rewrite merge_dicts_eq, map_app.
    rewrite (map_fst_filter_keys (fun key => negb (has_key key d1))).
    apply NoDup_app.
    + apply merge_first_keys.
    + apply NoDup_filter, first_bindings_keys.
    + intros k Hin1 Hin2; apply filter_In in Hin2; destruct Hin2 as [_ Hk].
      apply in_keys_jget in Hin1; rewrite jget_merge_first in Hin1.
      cbn [existsb] in Hin1; unfold has_key in Hk.
      destruct (jget k d1); [discriminate Hk | apply Hin1; reflexivity].
  - intros k; rewrite !in_keys_jget, jget_merge_dicts.
    destruct (jget k d1), (jget k d2); split; intros H;
      try (left; discriminate); try (right; discriminate); try discriminate;
      tauto.
Qed.

(** ** Dimension scales *)

Lemma py_any_true {A : Type} (test : A -> result bool) (l : list A) :
  py_any test l = Ok true -> exists x, In x l /\ test x = Ok true.
Proof.
  induction l as [| x l IH]; simpl; intros H; [discriminate H |].
  bind_inv H as b Hb; destruct b.
  - exists x; auto.
  - destruct (IH H) as [y [Hy Ht]]; exists y; auto.
Qed.

Lemma py_any_false {A : Type} (test : A -> result bool) (l : list A) :
  py_any test l = Ok false -> forall x, In x l -> test x = Ok false.
Proof.
  induction l as [| x l IH]; simpl; intros H y Hy; [destruct Hy |].
  bind_inv H as b Hb; destruct b; [discriminate H |].
  destruct Hy as [<- | Hy]; auto.
Qed.

Lemma named_with_class_true (name cls : string) (a : json) :
  named_with_class name cls a = Ok true <->
  py_getitem a "name" = Ok (JStr name) /\
  exists t, py_getitem a "type" = Ok t /\ py_getitem t "class" = Ok (JStr cls).
Proof.
  unfold named_with_class; split.
  - intros H; bind_inv H as n Hn.
    destruct (py_eq n (JStr name)) eqn:En; [| discriminate H].
    apply py_eq_str in En; subst n.
    bind_inv H as t Ht; bind_inv H as c Hc; injection H as H.
    apply py_eq_str in H; subst c; eauto.
  - intros [Hn [t [Ht Hc]]]; rewrite Hn; cbn [bind].
    rewrite (proj2 (py_eq_str _ _) eq_refl), Ht; cbn [bind]; rewrite Hc.
    cbn [bind]; rewrite (proj2 (py_eq_str _ _) eq_refl); reflexivity.
Qed.

Lemma named_with_value_true (name value : string) (a : json) :
  named_with_value name value a = Ok true <->
  py_getitem a "name" = Ok (JStr name) /\
  py_getitem a "value" = Ok (JStr value).
Proof.
  unfold named_with_value; split.
  - intros H; bind_inv H as n Hn.
    destruct (py_eq n (JStr name)) eqn:En; [| discriminate H].
    apply py_eq_str in En; subst n.
    bind_inv H as v Hv; injection H as H.
    apply py_eq_str in H; subst v; eauto.
  - intros [Hn Hv]; rewrite Hn; cbn [bind].
    rewrite (proj2 (py_eq_str _ _) eq_refl), Hv; cbn [bind].
    rewrite (proj2 (py_eq_str _ _) eq_refl); reflexivity.
Qed.

Lemma py_any_decides {A : Type} (test : A -> result bool) (l : list A) (b : bool) :
  py_any test l = Ok b -> (b = true <-> exists x, In x l /\ test x = Ok true).
Proof.
  intros H; destruct b.
  - split; [intros _; apply py_any_true; exact H | reflexivity].
  - split; [discriminate |].
    intros [x [Hx Ht]]; rewrite (py_any_false _ _ H x Hx) in Ht; discriminate Ht.
Qed.

(** X19. When [is_dimscale] returns, it returns [True] exactly for a list
    with an attribute named REFERENCE_LIST whose datatype has the class
    H5T_COMPOUND and an attribute named CLASS whose value is
    DIMENSION_SCALE. *)
Theorem is_dimscale_decides (attrs : list json) (b : bool) :
  is_dimscale attrs = Ok b ->
  (b = true <->
   (exists a t, In a attrs /\ py_getitem a "name" = Ok (JStr "REFERENCE_LIST") /\
                py_getitem a "type" = Ok t /\
                py_getitem t "class" = Ok (JStr "H5T_COMPOUND")) /\
   (exists a, In a attrs /\ py_getitem a "name" = Ok (JStr "CLASS") /\
              py_getitem a "value" = Ok (JStr "DIMENSION_SCALE"))).
Proof.
  unfold is_dimscale; intros H.
  bind_inv H as ref_list Href; bind_inv H as cls_ Hcls; injection H as <-.
  apply py_any_decides in Href; apply py_any_decides in Hcls.
  rewrite andb_true_iff, Href, Hcls; split.
  - intros [[a Ha] [c Hc]]; split.
    + destruct Ha as [Hin Ha]; apply named_with_class_true in Ha.
      destruct Ha as [Hn [t [Ht Htc]]]; exists a, t; auto.
    + destruct Hc as [Hin Hc]; apply named_with_value_true in Hc.
      exists c; tauto.
  - intros [[a [t [Hin [Hn [Ht Htc]]]]] [c [Hcin [Hcn Hcv]]]]; split.
    + exists a; split; [exact Hin | apply named_with_class_true; eauto].
    + exists c; split; [exact Hcin | apply named_with_value_true; auto].
Qed.

Lemma is_dimscale_decides_witness :
  true = true <->
  (exists a t, In a scale_attributes /\
               py_getitem a "name" = Ok (JStr "REFERENCE_LIST") /\
               py_getitem a "type" = Ok t /\
               py_getitem t "class" = Ok (JStr "H5T_COMPOUND")) /\
  (exists a, In a scale_attributes /\ py_getitem a "name" = Ok (JStr "CLASS") /\
             py_getitem a "value" = Ok (JStr "DIMENSION_SCALE")).
Proof.
  apply (is_dimscale_decides scale_attributes true); reflexivity.
Defined.

(** X20. When [is_dimlist] returns, it returns [True] exactly for a list
    with an attribute named DIMENSION_LIST whose datatype has the class
    H5T_VLEN. *)
Theorem is_dimlist_decides (attrs : list json) (b : bool) :
  is_dimlist attrs = Ok b ->
  (b = true <->
   exists a t, In a attrs /\ py_getitem a "name" = Ok (JStr "DIMENSION_LIST") /\
               py_getitem a "type" = Ok t /\
               py_getitem t "class" = Ok (JStr "H5T_VLEN")).
Proof.
  unfold is_dimlist; intros H.
  bind_inv H as dim_list Hdim; injection H as <-.
  apply py_any_decides in Hdim; rewrite Hdim; split.
  - intros [a [Hin Ha]]; apply named_with_class_true in Ha.
    destruct Ha as [Hn [t [Ht Htc]]]; exists a, t; auto.
  - intros [a [t [Hin [Hn [Ht Htc]]]]].
    exists a; split; [exact Hin | apply named_with_class_true; eauto].
Qed.

Lemma is_dimlist_decides_witness :
  false = true <->
  exists a t, In a scale_attributes /\
              py_getitem a "name" = Ok (JStr "DIMENSION_LIST") /\
              py_getitem a "type" = Ok t /\
              py_getitem t "class" = Ok (JStr "H5T_VLEN").
Proof.
  apply (is_dimlist_decides scale_attributes false); reflexivity.
Defined.

(** ** Random strings *)

Lemma length_string_of_list_ascii (l : list ascii) :
  String.length (string_of_list_ascii l) = List.length l.
Proof.
  induction l as [| c l IH]; simpl; [reflexivity | rewrite IH; reflexivity].
Qed.

(** X21. [random_string(nchar)] has [nchar] characters (none for a negative
    [nchar]), each of them a hexadecimal digit, whatever is drawn. *)
Theorem random_string_hexdigits (pick : nat -> nat) (nchar : Z) :
  String.length (random_string pick nchar) = Z.to_nat nchar /\
  Forall (fun c => In c (list_ascii_of_string hexdigits))
         (list_ascii_of_string (random_string pick nchar)).
Proof.
  unfold random_string; split.
  - rewrite length_string_of_list_ascii, length_map, length_seq; reflexivity.
  - rewrite list_ascii_of_string_of_list_ascii, Forall_map, Forall_forall.
    intros i _; apply nth_In.
    change (List.length (list_ascii_of_string hexdigits)) with 22%nat.
    apply Nat.mod_upper_bound; discriminate.
Qed.

(** ** What [order_objs] lists *)

Lemma fold_m_invariant {A S : Type} (P : S -> Prop) (f : S -> A -> result S)
  (l : list A) :
  (forall s x r, In x l -> P s -> f s x = Ok r -> P r) ->
  forall s r, P s -> fold_m f l s = Ok r -> P r.
Proof.
  induction l as [| x l IH]; intros Hstep s r Hs H; simpl in H.
  - injection H as <-; exact Hs.
  - bind_inv H as s' Hx.
    apply (IH (fun s0 y r0 Hy => Hstep s0 y r0 (or_intror Hy)) s' r); auto.
    apply (Hstep s x s'); auto; left; reflexivity.
Qed.

Lemma posixpath_join_absolute (a b : string) :
  prefix "/" a = true -> prefix "/" (posixpath_join a b) = true.
Proof.
  intros Ha; unfold posixpath_join.
  destruct (prefix "/" b) eqn:Eb; [exact Eb |].
  destruct a as [| c a]; [discriminate Ha |].
  assert (Hnil : forall s, prefix "" s = true) by (intros s; destruct s; reflexivity).
  destruct (_ || _); cbn [append prefix] in Ha |- *;
    destruct (ascii_dec "/" c); try discriminate Ha; apply Hnil.
Qed.

Lemma link_info_absolute (g : objinfo) (links : list json) (infos : list objinfo) :
  absolute g -> map_m (link_info g) links = Ok infos -> Forall absolute infos.
Proof.
  intros Hg H; apply map_m_ok in H.
  eapply Forall_impl; [| exact (Forall2_right _ _ _ H)].
  intros o [l [_ Hl]]; unfold link_info in Hl.
  bind_drop Hl as id; bind_drop Hl as title.
  destruct title as [| b | z | q | t | l' | d]; try discriminate Hl.
  injection Hl as <-; apply posixpath_join_absolute; exact Hg.
Qed.

Lemma tree_walker_absolute (h5j : json) (n : nat) :
  forall g st st',
    absolute g -> Forall absolute (fst st) /\ Forall absolute (snd st) ->
    tree_walker n h5j g st = Ok st' ->
    Forall absolute (fst st') /\ Forall absolute (snd st').
Proof.
  induction n as [| n IH]; intros g st st' Hg [Hgs Hds] H; [discriminate H |].
  cbn [tree_walker] in H.
  bind_drop H as dlinks; bind_inv H as dinfos Hdi.
  bind_drop H as glinks; bind_inv H as chld Hch.
  apply link_info_absolute in Hdi; [| exact Hg].
  apply link_info_absolute in Hch; [| exact Hg].
  revert H;
    apply (fold_m_invariant
             (fun s => Forall absolute (fst s) /\ Forall absolute (snd s))).
  - intros s c r Hc Hs; apply IH; [| exact Hs].
    rewrite Forall_forall in Hch; apply Hch; exact Hc.
  - cbn [fst snd]; split; apply Forall_app; auto.
Qed.

(** X22. Every path in the list that [order_objs] returns, of groups or of
    datasets, is absolute: it starts with a slash. *)
Theorem order_objs_paths_absolute
  (n : nat) (h5j : json) (otype : string) (objs : list objinfo) :
  order_objs n h5j otype = Ok objs ->
  Forall (fun o => prefix "/" (oi_path o) = true) objs.
Proof.
  unfold order_objs; intros H.
  bind_drop H as has_root; bind_skip H; bind_drop H as root.
  bind_inv H as st Hst; injection H as <-.
  apply tree_walker_absolute in Hst.
  - destruct (String.eqb otype "group"); tauto.
  - reflexivity.
  - cbn [fst snd]; split; repeat constructor.
Qed.

Lemma order_objs_paths_absolute_witness :
  Forall (fun o => prefix "/" (oi_path o) = true)
         [{| oi_id := JStr "root"; oi_path := "/" |};
          {| oi_id := JStr "a"; oi_path := "/a" |};
          {| oi_id := JStr "b"; oi_path := "/b" |};
          {| oi_id := JStr "c"; oi_path := "/a/c" |}].
Proof.
  apply (order_objs_paths_absolute 3 fork_design "group"); reflexivity.
Defined.

Lemma parents_first_incl (h5j : json) (added : list objinfo) :
  forall known known',
    incl known known' ->
    parents_first h5j known added -> parents_first h5j known' added.
Proof.
  induction added as [| c rest IH]; intros known known' Hincl H; [exact I |].
  destruct H as [[p [Hp Hc]] Hrest]; split.
  - exists p; split; [apply Hincl; exact Hp | exact Hc].
  - apply (IH (known ++ [c])); [| exact Hrest].
    apply incl_app; [apply incl_appl; exact Hincl | apply incl_appr, incl_refl].
Qed.

Lemma parents_first_app (h5j : json) (a1 a2 : list objinfo) :
  forall known,
    parents_first h5j known a1 -> parents_first h5j (known ++ a1) a2 ->
    parents_first h5j known (a1 ++ a2).
Proof.
  induction a1 as [| c a1 IH]; intros known H1 H2; simpl.
  - rewrite app_nil_r in H2; exact H2.
  - destruct H1 as [Hc H1]; split; [exact Hc |].
    apply IH; [exact H1 |].
    rewrite <- app_assoc; exact H2.
Qed.

Lemma parents_first_children (h5j : json) (g : objinfo) (children : list objinfo) :
  forall known,
    In g known -> Forall (child_group_of h5j g) children ->
    parents_first h5j known children.
Proof.
  induction children as [| c rest IH]; intros known Hg H; [exact I |].
  inversion H as [| ? ? Hc Hrest]; subst; split.
  - exists g; auto.
  - apply IH; [apply in_or_app; left; exact Hg | exact Hrest].
Qed.

Section ListedObjects.

Variable h5j : json.

Lemma walk_fold_adds_below (n : nat) :
  (forall g st st',
      tree_walker n h5j g st = Ok st' -> adds_below h5j [g] st st') ->
  forall cs st st',
    fold_m (fun s c => tree_walker n h5j c s) cs st = Ok st' ->
    adds_below h5j cs st st'.
Proof.
  intros IH; induction cs as [| c cs IHcs]; intros st st' H; simpl in H.
  - injection H as <-; exists [], []; rewrite !app_nil_r.
    split; [reflexivity | split; [reflexivity | split]].
    + intros; exact I.
    + intros d [].
  - bind_inv H as s1 Hc.
    destruct (IH _ _ _ Hc) as [ga1 [da1 [E1 [F1 [P1 D1]]]]].
    destruct (IHcs _ _ H) as [ga2 [da2 [E2 [F2 [P2 D2]]]]].
    exists (ga1 ++ ga2), (da1 ++ da2).
    split; [rewrite E2, E1, app_assoc; reflexivity |].
    split; [rewrite F2, F1, app_assoc; reflexivity |].
    split.
    + intros known Hincl; apply parents_first_app.
      * apply P1; intros x [<- | []]; apply Hincl; left; reflexivity.
      * apply P2; intros x Hx; apply in_or_app; left; apply Hincl; right; exact Hx.
    + intros d Hd; apply in_app_or in Hd; destruct Hd as [Hd | Hd].
      * destruct (D1 d Hd) as [p [Hp Hpd]]; exists p; split; [| exact Hpd].
        destruct Hp as [<- | Hp]; [left; reflexivity |].
        right; apply in_or_app; right; apply in_or_app; left; exact Hp.
      * destruct (D2 d Hd) as [p [Hp Hpd]]; exists p; split; [| exact Hpd].
        apply in_app_or in Hp; destruct Hp as [Hp | Hp].
        -- right; apply in_or_app; left; exact Hp.
        -- right; apply in_or_app; right; apply in_or_app; right; exact Hp.
Qed.

Lemma tree_walker_adds_below (n : nat) :
  forall g st st',
    tree_walker n h5j g st = Ok st' -> adds_below h5j [g] st st'.
Proof.
  induction n as [| n IH]; intros g st st' H; [discriminate H |].
  cbn [tree_walker] in H.
  bind_inv H as dlinks Hdl; bind_inv H as dinfos Hdi.
  bind_inv H as glinks Hgl; bind_inv H as chld Hch.
  assert (Hown : child_datasets h5j g = Ok dinfos)
    by (unfold child_datasets; rewrite Hdl; exact Hdi).
  assert (Hchildren : child_groups h5j g = Ok chld)
    by (unfold child_groups; rewrite Hgl; exact Hch).
  destruct (walk_fold_adds_below n IH _ _ _ H) as [ga [da [E [F [P D]]]]].
  cbn [fst snd] in E, F.
  exists (chld ++ ga), (dinfos ++ da).
  split; [rewrite E, app_assoc; reflexivity |].
  split; [rewrite F, app_assoc; reflexivity |].
  split.
  - intros known Hincl; apply parents_first_app.
    + apply (parents_first_children h5j g); [apply Hincl; left; reflexivity |].
      apply Forall_forall; intros c Hc; exists chld; auto.
    + apply P; intros x Hx; apply in_or_app; right; exact Hx.
  - intros d Hd; apply in_app_or in Hd; destruct Hd as [Hd | Hd].
    + exists g; split; [left; reflexivity | exists dinfos; auto].
    + destruct (D d Hd) as [p [Hp Hpd]]; exists p; split; [right; exact Hp | exact Hpd].
Qed.

Lemma order_objs_run (n : nat) (otype : string) (objs : list objinfo) :
  order_objs n h5j otype = Ok objs ->
  exists root st,
    py_getitem h5j "root" = Ok root /\
    tree_walker n h5j (root_info root) ([root_info root], []) = Ok st /\
    objs = if String.eqb otype "group" then fst st else snd st.
Proof.
  unfold order_objs; intros H.
  bind_drop H as has_root; bind_skip H; bind_inv H as root Hroot.
  bind_inv H as st Hst; injection H as <-.
  exists root, st; auto.
Qed.

(** X23. In the list of groups that [order_objs] returns the root comes
    first, and every other entry stands for a hard link to a group in the
    group of an entry before it: a parent is listed before its children. *)
Theorem order_objs_parents_first (n : nat) (grps : list objinfo) :
  order_objs n h5j "group" = Ok grps ->
  exists root rest,
    py_getitem h5j "root" = Ok root /\
    grps = root_info root :: rest /\
    parents_first h5j [root_info root] rest.
Proof.
  intros H; apply order_objs_run in H.
  destruct H as [root [st [Hroot [Hst ->]]]].
  apply tree_walker_adds_below in Hst.
  destruct Hst as [ga [da [E [_ [P _]]]]]; cbn [fst] in E.
  exists root, ga; split; [exact Hroot | split].
  - rewrite String.eqb_refl; exact E.
  - apply P, incl_refl.
Qed.

(** X24. Every entry of the list of datasets that [order_objs] returns
    stands for a hard link to a dataset in a group of the list of groups
    that it returns for the same design. *)
Theorem order_objs_datasets_under_groups
  (n : nat) (otype : string) (grps dsets : list objinfo) :
  order_objs n h5j "group" = Ok grps ->
  order_objs n h5j otype = Ok dsets ->
  otype <> "group" ->
  Forall (fun d => exists p, In p grps /\ child_dataset_of h5j p d) dsets.
Proof.
  intros Hg Hd Hne; apply order_objs_run in Hg, Hd.
  destruct Hg as [root [st [Hroot [Hst ->]]]].
  destruct Hd as [root' [st' [Hroot' [Hst' ->]]]].
  rewrite Hroot in Hroot'; injection Hroot' as <-.
  rewrite Hst in Hst'; injection Hst' as <-.
  rewrite String.eqb_refl.
  destruct (String.eqb otype "group") eqn:E;
    [apply String.eqb_eq in E; contradiction |].
  apply tree_walker_adds_below in Hst.
  destruct Hst as [ga [da [Eg [Ed [_ D]]]]]; cbn [fst snd] in Eg, Ed.
  rewrite Eg, Ed; cbn [app]; apply Forall_forall; exact D.
Qed.

Lemma blocks_permutation (n : nat) :
  forall g gb,
    group_blocks n h5j g = Ok gb ->
    exists pre, preorder_groups n h5j g = Ok pre /\ Permutation (g :: gb) pre.
Proof.
  induction n as [| n IH]; intros g gb H; [discriminate H |].
  cbn [group_blocks] in H.
  bind_inv H as children Hch; bind_inv H as subs Hsubs; injection H as <-.
  cbn [preorder_groups]; rewrite Hch; cbn [bind].
  assert (Hall : exists psubs,
             map_m (preorder_groups n h5j) children = Ok psubs /\
             Permutation (children ++ List.concat subs) (List.concat psubs)).
  { clear Hch; revert subs Hsubs.
    induction children as [| c cs IHcs]; intros subs Hsubs; simpl in Hsubs.
    - injection Hsubs as <-; exists []; split; [reflexivity | constructor].
    - bind_inv Hsubs as s Hs; bind_inv Hsubs as ss Hss; injection Hsubs as <-.
      destruct (IH _ _ Hs) as [pc [Hpc Pc]].
      destruct (IHcs _ Hss) as [pss [Hpss Pss]].
      exists (pc :: pss); simpl; rewrite Hpc; simpl; rewrite Hpss; simpl.
      split; [reflexivity |].
      apply Permutation_trans with ((c :: s) ++ cs ++ List.concat ss).
      + simpl; apply perm_skip, Permutation_app_swap_app.
      + apply Permutation_app; assumption. }
  destruct Hall as [psubs [Hpsubs Hperm]].
  rewrite Hpsubs; cbn [bind]; eexists; split; [reflexivity |].
  apply perm_skip; exact Hperm.
Qed.

(** X25. In a hierarchy without a cycle below the root (of depth at most
    [n], every link readable) the list of groups that [order_objs] returns
    holds the groups of the depth-first pre-order walk, each as many times:
    the one list is a rearrangement of the other. *)
Theorem order_objs_groups_of_preorder (n : nat) (root : json) :
  py_getitem h5j "root" = Ok root ->
  walkable n h5j (root_info root) ->
  exists grps pre,
    order_objs n h5j "group" = Ok grps /\
    preorder_groups n h5j (root_info root) = Ok pre /\
    Permutation grps pre.
Proof.
  intros Hroot Hw.
  destruct (tree_walker_adds h5j n _ Hw) as [gb [db [Hgb [_ Hrun]]]].
  destruct (blocks_permutation n _ _ Hgb) as [pre [Hpre Hperm]].
  exists (root_info root :: gb), pre; split; [| split; assumption].
  unfold order_objs.
  rewrite (py_contains_of_getitem _ _ _ Hroot), Hroot; cbn [bind].
  fold (root_info root); rewrite Hrun; reflexivity.
Qed.

(** A list that [order_objs] returns within some depth of recursion is the
    list it returns within any greater depth. *)
Lemma order_objs_more_fuel
  (n m : nat) (otype : string) (objs : list objinfo) :
  order_objs n h5j otype = Ok objs -> (n <= m)%nat ->
  order_objs m h5j otype = Ok objs.
Proof.
  intros H Hle; induction Hle as [| m _ IH]; [exact H |].
  unfold order_objs in IH |- *.
  bind_inv IH as has_root Hhas; rewrite Hhas; cbn [bind].
  apply bind_unit_ok in IH; destruct IH as [Hif IH]; rewrite Hif; cbn [bind].
  bind_inv IH as root Hroot; rewrite Hroot; cbn [bind].
  bind_inv IH as st Hst.
  rewrite (tree_walker_more_fuel _ _ _ _ _ Hst); exact IH.
Qed.

End ListedObjects.

Lemma order_objs_parents_first_witness :
  exists root rest,
    py_getitem fork_design "root" = Ok root /\
    [{| oi_id := JStr "root"; oi_path := "/" |};
     {| oi_id := JStr "a"; oi_path := "/a" |};
     {| oi_id := JStr "b"; oi_path := "/b" |};
     {| oi_id := JStr "c"; oi_path := "/a/c" |}] = root_info root :: rest /\
    parents_first fork_design [root_info root] rest.
Proof.
  apply (order_objs_parents_first fork_design 3); reflexivity.
Defined.

Lemma order_objs_datasets_under_groups_witness :
  Forall (fun d => exists p,
              In p [{| oi_id := JStr "root"; oi_path := "/" |};
                    {| oi_id := JStr "g"; oi_path := "/g" |}] /\
              child_dataset_of dataset_design p d)
         [{| oi_id := JStr "t"; oi_path := "/t" |};
          {| oi_id := JStr "u"; oi_path := "/g/u" |}].
Proof.
  apply (order_objs_datasets_under_groups dataset_design 3 "dataset");
    [reflexivity | reflexivity | discriminate].
Defined.

Lemma order_objs_groups_of_preorder_witness :
  exists grps pre,
    order_objs 3 fork_design "group" = Ok grps /\
    preorder_groups 3 fork_design (root_info (JStr "root")) = Ok pre /\
    Permutation grps pre.
Proof.
  apply (order_objs_groups_of_preorder fork_design 3 (JStr "root"));
    [reflexivity |].
  simpl; repeat (eexists; repeat split; try reflexivity; repeat constructor).
Defined.

(** ** What the rewriter keeps *)

Lemma split_slash_not_nil (s : string) : split_slash s <> [].
Proof.
  induction s as [| c s IH]; simpl; [discriminate |].
  destruct (Ascii.eqb c "/"); [discriminate |].
  destruct (split_slash s); discriminate.
Qed.

Lemma split_slash_part (a b : string) :
  no_slash a = true ->
  split_slash (a ++ String "/" b) = a :: split_slash b.
Proof.
  induction a as [| c a IH]; intros Ha; [reflexivity |].
  cbn [no_slash] in Ha; apply andb_true_iff in Ha; destruct Ha as [Hc Ha].
  cbn [append split_slash].
  destruct (Ascii.eqb c "/"); [discriminate Hc |].
  rewrite (IH Ha); reflexivity.
Qed.

Lemma split_slash_last (a : string) :
  no_slash a = true -> split_slash a = [a].
Proof.
  induction a as [| c a IH]; intros Ha; [reflexivity |].
  cbn [no_slash] in Ha; apply andb_true_iff in Ha; destruct Ha as [Hc Ha].
  cbn [split_slash].
  destruct (Ascii.eqb c "/"); [discriminate Hc |].
  rewrite (IH Ha); reflexivity.
Qed.

Lemma join_slash_cons (a : string) (parts : list string) :
  parts <> [] ->
  join_slash (a :: parts) = (a ++ String "/" (join_slash parts))%string.
Proof.
  destruct parts as [| b parts]; [intros H; contradiction H; reflexivity |].
  reflexivity.
Qed.

Lemma append_empty_r (s : string) : (s ++ EmptyString)%string = s.
Proof.
  induction s as [| c s IH]; [reflexivity | simpl; rewrite IH; reflexivity].
Qed.

Lemma join_split_slash (s : string) : join_slash (split_slash s) = s.
Proof.
  induction s as [| c s IH]; [reflexivity |].
  cbn [split_slash].
  destruct (Ascii.eqb c "/") eqn:Ec.
  - apply Ascii.eqb_eq in Ec; subst c.
    rewrite join_slash_cons by apply split_slash_not_nil.
    rewrite IH; reflexivity.
  - pose proof (split_slash_not_nil s) as Hne.
    destruct (split_slash s) as [| part parts]; [contradiction Hne; reflexivity |].
    destruct parts as [| part' parts].
    + simpl in IH |- *; rewrite IH; reflexivity.
    + rewrite join_slash_cons in IH |- * by discriminate.
      cbn [append]; rewrite IH; reflexivity.
Qed.

(** X26. [replace_uuid] changes one part of a string and nothing else: in
    [datasets/<id><tail>], where [id] has no slash and [tail] is empty or
    starts with a slash, the part [id] is replaced by what [sub_uuid] gives
    for it, and the result is [datasets/<new><tail>]; a string that does not
    start with [datasets/] is returned as it is, and [sub_uuid] is not
    asked. *)
Theorem replace_uuid_second_part (uuid4 : nat -> string) (s : subst) :
  (forall id tail,
      no_slash id = true ->
      tail = EmptyString \/ (exists t, tail = String "/" t) ->
      replace_uuid uuid4 (JStr ("datasets/" ++ id ++ tail)) s
      = '(new, s') <- sub_uuid_get uuid4 (JStr id) s ;;
        Ok (JStr ("datasets/" ++ new ++ tail), s')) /\
  (forall v,
      prefix "datasets/" v = false ->
      replace_uuid uuid4 (JStr v) s = Ok (JStr v, s)).
Proof.
  split.
  - intros id tail Hid Htail; unfold replace_uuid.
    assert (Hpre : prefix "datasets/" ("datasets/" ++ id ++ tail) = true).
    { cbn [append prefix].
      repeat (destruct (ascii_dec _ _) as [_ | Hne];
              [| contradiction Hne; reflexivity]).
      destruct (id ++ tail)%string; reflexivity. }
    rewrite Hpre.
    change ("datasets/" ++ id ++ tail)%string
      with ("datasets" ++ String "/" (id ++ tail))%string.
    rewrite split_slash_part by reflexivity.
    destruct Htail as [-> | [t ->]].
    + rewrite append_empty_r, (split_slash_last id Hid).
      destruct (sub_uuid_get uuid4 (JStr id) s) as [[new s'] | e msg];
        [| reflexivity].
      cbn [bind join_slash]; rewrite append_empty_r; reflexivity.
    + rewrite (split_slash_part id t Hid).
      destruct (sub_uuid_get uuid4 (JStr id) s) as [[new s'] | e msg];
        [| reflexivity].
      cbn [bind].
      rewrite (join_slash_cons "datasets") by discriminate.
      rewrite (join_slash_cons new) by apply split_slash_not_nil.
      rewrite join_split_slash; reflexivity.
  - intros v Hv; unfold replace_uuid; rewrite Hv; reflexivity.
Qed.

Lemma replace_uuid_second_part_witness :
  replace_uuid sample_uuid4 (JStr "datasets/D1/attributes/scale") empty_subst
  = Ok (JStr "datasets/new-/attributes/scale",
        {| known := [(JStr "D1", "new-")]; drawn := 1 |}).
Proof.
  apply (proj1 (replace_uuid_second_part sample_uuid4 empty_subst) "D1"
           "/attributes/scale"); [reflexivity | right; eexists; reflexivity].
Defined.

Lemma lookup_key_entry (k : json) (m : list (json * string)) (v : string) :
  lookup_key k m = Some v -> exists k', In (k', v) m /\ py_eq k' k = true.
Proof.
  induction m as [| [k0 v0] m IH]; simpl; [discriminate |].
  destruct (py_eq k0 k) eqn:E.
  - intros H; injection H as ->; exists k0; auto.
  - intros H; destruct (IH H) as [k' [Hin Hk']]; exists k'; auto.
Qed.

Lemma one_entry_of_value (m : list (json * string)) (k1 k2 : json) (v : string) :
  NoDup (map snd m) -> In (k1, v) m -> In (k2, v) m -> k1 = k2.
Proof.
  induction m as [| [k0 v0] m IH]; simpl; intros Hnd H1 H2; [destruct H1 |].
  inversion Hnd as [| ? ? Hnot Hnd']; subst.
  destruct H1 as [H1 | H1], H2 as [H2 | H2].
  - congruence.
  - injection H1 as <- <-; contradiction Hnot.
    apply (in_map snd) in H2; exact H2.
  - injection H2 as <- <-; contradiction Hnot.
    apply (in_map snd) in H1; exact H1.
  - apply IH; assumption.
Qed.

Lemma draws_differ (uuid4 : nat -> string) (s : subst) :
  never_repeats uuid4 -> drawn_in_order uuid4 s -> NoDup (map snd (known s)).
Proof.
  intros Hinj Hinv; rewrite Hinv.
  apply Finite.Injective_map_NoDup; [exact Hinj | apply seq_NoDup].
Qed.

Lemma sub_of_injective (uuid4 : nat -> string) (s : subst) (a b : string) :
  never_repeats uuid4 -> drawn_in_order uuid4 s ->
  mapped (known s) (JStr a) -> mapped (known s) (JStr b) ->
  sub_of (known s) (JStr a) = sub_of (known s) (JStr b) -> a = b.
Proof.
  intros Hinj Hinv [va Ha] [vb Hb]; unfold sub_of; rewrite Ha, Hb; intros <-.
  apply lookup_key_entry in Ha, Hb.
  destruct Ha as [ka [Hina Hka]], Hb as [kb [Hinb Hkb]].
  apply py_eq_str in Hka, Hkb; subst ka kb.
  pose proof (one_entry_of_value _ _ _ _ (draws_differ _ _ Hinj Hinv) Hina Hinb) as E.
  injection E as ->; reflexivity.
Qed.

Section RewriterKeeps.

Variable uuid4 : nat -> string.

Hypothesis uuid4_never_repeats : never_repeats uuid4.

(** X27. With a generator that never repeats, the rewriter keeps the
    hierarchy and makes no new link: after a call that returns, two objects
    hold the same [id] exactly when they did before, an object holds as
    [_pid] the [id] of another exactly when it did before, and the value
    returned is the [id] of exactly the objects whose [id] was the root UUID
    (identifiers being strings). *)
Theorem substitute_uuids_keeps_links
  (objs : list json) (root : json) (objs' : list json) (new_root : string) :
  substitute_uuids uuid4 objs root = Ok (objs', new_root) ->
  forall i j o p o' p' (b : string),
    nth_error objs i = Some o -> nth_error objs' i = Some o' ->
    nth_error objs j = Some p -> nth_error objs' j = Some p' ->
    py_getitem p "id" = Ok (JStr b) ->
    (forall a, py_getitem o "id" = Ok (JStr a) ->
               (py_getitem o' "id" = py_getitem p' "id" <-> a = b)) /\
    (forall a, py_getitem o "_pid" = Ok (JStr a) ->
               (py_getitem o' "_pid" = py_getitem p' "id" <-> a = b)) /\
    (forall r, root = JStr r ->
               (py_getitem p' "id" = Ok (JStr new_root) <-> r = b)).
Proof.
  unfold substitute_uuids; intros H.
  apply bind_ok in H; destruct H as [[[objs1 r1] s] [Hrun H]].
  injection H as <- <-.
  destruct (run_is_remap uuid4 _ _ _ _ _ Hrun) as (Hmap & Hroot & _ & Hinv & Hall).
  intros i j o p o' p' b Ho Ho' Hp Hp' Hpid.
  rewrite Hmap, nth_error_map in Ho', Hp'.
  rewrite Ho in Ho'; rewrite Hp in Hp'; cbn [option_map] in Ho', Hp'.
  injection Ho' as <-; injection Hp' as <-.
  rewrite Forall_forall in Hall.
  pose proof (Hall _ (nth_error_In _ _ Ho)) as Hallo.
  pose proof (Hall _ (nth_error_In _ _ Hp)) as Hallp.
  rewrite Forall_forall in Hallo, Hallp.
  destruct (py_getitem_ok _ _ _ Hpid) as [dp [-> Hdp]].
  assert (Hmb : mapped (known s) (JStr b))
    by (apply Hallp; unfold old_ids; rewrite Hdp; left; reflexivity).
  rewrite (remap_obj_id _ _ _ Hdp).
  split; [| split].
  - intros a Ha; destruct (py_getitem_ok _ _ _ Ha) as [d [-> Hd]].
    rewrite (remap_obj_id _ _ _ Hd); split; [| intros ->; reflexivity].
    intros E; injection E as E.
    apply (sub_of_injective uuid4 s); auto.
    apply Hallo; unfold old_ids; rewrite Hd; left; reflexivity.
  - intros a Ha; destruct (py_getitem_ok _ _ _ Ha) as [d [-> Hd]].
    rewrite (remap_obj_pid_of _ _ _ Hd); split; [| intros ->; reflexivity].
    intros E; injection E as E.
    apply (sub_of_injective uuid4 s); auto.
    apply Hallo; unfold old_ids; rewrite Hd.
    apply in_or_app; right; left; reflexivity.
  - intros r ->.
    assert (Hr : sub_of (known s) (JStr r) = r1)
      by (unfold sub_of; rewrite Hroot; reflexivity).
    rewrite <- Hr; split; [| intros ->; reflexivity].
    intros E; injection E as E; symmetry.
    apply (sub_of_injective uuid4 s); auto.
    exists r1; exact Hroot.
Qed.

End RewriterKeeps.

(** X28. The rewriter leaves the [value] of every object that is not an
    attribute named REFERENCE_LIST or DIMENSION_LIST as it is, and gives no
    [_pid] to an object that has none. *)
Theorem substitute_uuids_other_values
  (uuid4 : nat -> string) (objs : list json) (root : json)
  (objs' : list json) (new_root : string) :
  substitute_uuids uuid4 objs root = Ok (objs', new_root) ->
  forall i d o',
    nth_error objs i = Some (JObj d) -> nth_error objs' i = Some o' ->
    (is_link_attribute d = false ->
     py_getitem o' "value" = py_getitem (JObj d) "value") /\
    (jget "_pid" d = None -> py_getitem o' "_pid" = Raise KeyError "_pid").
Proof.
  unfold substitute_uuids; intros H.
  apply bind_ok in H; destruct H as [[[objs1 r1] s] [Hrun H]].
  injection H as <- <-.
  destruct (run_is_remap uuid4 _ _ _ _ _ Hrun) as (Hmap & _).
  intros i d o' Ho Ho'.
  rewrite Hmap, nth_error_map, Ho in Ho'; cbn [option_map] in Ho'.
  injection Ho' as <-; split.
  - apply remap_obj_other_value.
  - apply remap_obj_no_pid.
Qed.

Lemma sample_uuid4_never_repeats : never_repeats sample_uuid4.
Proof.
  intros i j H; unfold sample_uuid4 in H; cbn [append] in H.
  injection H as H; revert j H.
  induction i as [| i IH]; intros [| j] H; try discriminate H; [reflexivity |].
  injection H as H; f_equal; apply IH; exact H.
Qed.

Lemma substitute_uuids_keeps_links_witness :
  (forall a, py_getitem (nth 1 two_objects JNull) "id" = Ok (JStr a) ->
             (py_getitem (nth 1 two_objects_rewritten JNull) "id"
              = py_getitem (nth 0 two_objects_rewritten JNull) "id" <-> a = "G1")) /\
  (forall a, py_getitem (nth 1 two_objects JNull) "_pid" = Ok (JStr a) ->
             (py_getitem (nth 1 two_objects_rewritten JNull) "_pid"
              = py_getitem (nth 0 two_objects_rewritten JNull) "id" <-> a = "G1")) /\
  (forall r, JStr "G1" = JStr r ->
             (py_getitem (nth 0 two_objects_rewritten JNull) "id" = Ok (JStr "new-")
              <-> r = "G1")).
Proof.
  apply (substitute_uuids_keeps_links sample_uuid4 sample_uuid4_never_repeats
           two_objects (JStr "G1") two_objects_rewritten "new-" eq_refl 1%nat 0%nat
           (nth 1 two_objects JNull) (nth 0 two_objects JNull)
           (nth 1 two_objects_rewritten JNull) (nth 0 two_objects_rewritten JNull)
           "G1"); reflexivity.
Defined.

Lemma substitute_uuids_other_values_witness :
  (is_link_attribute
     [("_objtype", JStr "group"); ("id", JStr "G1"); ("name", JStr "/")] = false ->
   py_getitem (nth 0 two_objects_rewritten JNull) "value"
   = py_getitem (nth 0 two_objects JNull) "value") /\
  (jget "_pid" [("_objtype", JStr "group"); ("id", JStr "G1"); ("name", JStr "/")]
   = None ->
   py_getitem (nth 0 two_objects_rewritten JNull) "_pid" = Raise KeyError "_pid").
Proof.
  apply (substitute_uuids_other_values sample_uuid4 two_objects (JStr "G1")
           two_objects_rewritten "new-" eq_refl 0%nat); reflexivity.
Defined.

(** ** Rows for the database *)

Example h5json_to_db_ex :
  h5json_to_db sample_dumps "dataset"
    (plain_dataset [("class", JStr "H5S_SIMPLE"); ("dims", JList [JInt 2]);
                    ("maxdims", JList [JInt 2])])
  = Ok [("name", JStr "d"); ("description", JStr ""); ("rank", JInt 1);
        ("layout", JStr "H5D_CONTIGUOUS"); ("misc", JStr "datatype");
        ("dims", JStr "dims"); ("maxdims", JStr "maxdims");
        ("data", JStr "value"); ("type", JStr "dataset")].
Proof. reflexivity. Qed.

Ltac jget_row :=
  repeat (rewrite jget_jset_other by discriminate);
  try rewrite jget_jset_same; try reflexivity.

Section Rows.

Variable dumps : json -> string.

(** X29. A row that [h5json_to_db] returns is for an attribute, a dataset
    or a group; it holds the name of the object and the object type; for a
    group the rank is 0 and no dimensions are stored; for an attribute or a
    dataset the rank is the length of what is stored as dimensions. *)
Theorem h5json_to_db_rank
  (otype : string) (oinfo : json) (row : list (string * json)) :
  h5json_to_db dumps otype oinfo = Ok row ->
  In otype ["attribute"; "dataset"; "group"] /\
  jget "type" row = Some (JStr otype) /\
  (exists name, py_getitem oinfo "name" = Ok name /\ jget "name" row = Some name) /\
  (otype = "group" ->
   jget "rank" row = Some (JInt 0) /\
   jget "dims" row = Some (JStr (dumps (JObj [])))) /\
  (otype <> "group" ->
   exists ds n,
     jget "dims" row = Some (JStr (dumps (JObj [("dims", ds)]))) /\
     py_len ds = Ok n /\
     jget "rank" row = Some (JInt (Z.of_nat n))).
Proof.
  unfold h5json_to_db; intros H.
  bind_inv H as name Hname; bind_drop H as description.
  bind_drop H as has_uuid; bind_inv H as db0 Hdb0.
  assert (Hn0 : jget "name" db0 = Some name).
  { destruct has_uuid.
    - bind_drop Hdb0 as uuid; injection Hdb0 as <-; jget_row.
    - injection Hdb0 as <-; jget_row. }
  clear Hdb0.
  apply bind_ok in H.
  destruct H as [[[[[db misc] dims] maxdims] data] [Hbranch H]].
  injection H as <-.
  assert (Hshape : forall (strict : bool) db1 db2 dims1 maxdims1 shape cls,
             (if py_eq cls (JStr "H5S_SIMPLE")
              then sdims <- py_getitem shape "dims" ;;
                   rank <- py_len sdims ;;
                   smaxdims <- (if strict then py_getitem shape "maxdims"
                                else py_get shape "maxdims" sdims) ;;
                   Ok (jset "rank" (JInt (Z.of_nat rank)) db1,
                       [("dims", sdims)], [("maxdims", smaxdims)])
              else Ok (db1, [("dims", JList [])], [("maxdims", JList [])]))
             = Ok (db2, dims1, maxdims1) ->
             jget "name" db1 = Some name ->
             jget "rank" db1 = Some (JInt 0) ->
             jget "name" db2 = Some name /\
             exists ds n, dims1 = [("dims", ds)] /\ py_len ds = Ok n /\
                          jget "rank" db2 = Some (JInt (Z.of_nat n))).
  { intros strict db1 db2 dims1 maxdims1 shape cls Hs Hn Hr.
    destruct (py_eq cls (JStr "H5S_SIMPLE")).
    - bind_drop Hs as sdims; bind_inv Hs as rank Hrank; bind_drop Hs as smaxdims.
      injection Hs as <- <- _; split; [jget_row; exact Hn |].
      exists sdims, rank; split; [reflexivity | split; [exact Hrank | jget_row]].
    - injection Hs as <- <- _; split; [exact Hn |].
      exists (JList []), O; auto. }

  destruct (String.eqb otype "attribute") eqn:Ea.
  { apply String.eqb_eq in Ea; subst otype.
    bind_drop Hbranch as shape; bind_drop Hbranch as cls.
    apply bind_ok in Hbranch.
    destruct Hbranch as [[[db1 dims1] maxdims1] [Hs Hbranch]].
    bind_drop Hbranch as value; bind_drop Hbranch as datatype.
    injection Hbranch as -> _ -> _ _.
    apply (Hshape false) in Hs; [| jget_row; exact Hn0 | jget_row].
    destruct Hs as [Hn [ds [n [-> [Hlen Hrank]]]]].
    split; [simpl; tauto | split; [jget_row | split; [| split]]].
    - exists name; split; [exact Hname | jget_row; exact Hn].
    - discriminate.
    - intros _; exists ds, n; split; [jget_row | split; [exact Hlen |]].
      jget_row; exact Hrank. }
  destruct (String.eqb otype "dataset") eqn:Ed.
  { apply String.eqb_eq in Ed; subst otype.
    bind_drop Hbranch as shape; bind_drop Hbranch as cls.
    apply bind_ok in Hbranch.
    destruct Hbranch as [[[db1 dims1] maxdims1] [Hs Hbranch]].
    bind_drop Hbranch as datatype; bind_drop Hbranch as cp.
    bind_drop Hbranch as layout; bind_drop Hbranch as layout_class.
    bind_drop Hbranch as misc1; bind_drop Hbranch as has_filters.
    bind_drop Hbranch as misc2; bind_drop Hbranch as has_fill.
    bind_drop Hbranch as misc3; bind_drop Hbranch as value.
    bind_drop Hbranch as data1.
    injection Hbranch as <- _ <- _ _.
    apply (Hshape true) in Hs; [| jget_row; exact Hn0 | jget_row].
    destruct Hs as [Hn [ds [n [-> [Hlen Hrank]]]]].
    split; [simpl; tauto | split; [jget_row | split; [| split]]].
    - exists name; split; [exact Hname | jget_row; exact Hn].
    - discriminate.
    - intros _; exists ds, n; split; [jget_row | split; [exact Hlen |]].
      jget_row; exact Hrank. }
  destruct (String.eqb otype "group") eqn:Eg; [| discriminate Hbranch].
  apply String.eqb_eq in Eg; subst otype.
  injection Hbranch as <- _ <- _ _.
  split; [simpl; tauto | split; [jget_row | split; [| split]]].
  - exists name; split; [exact Hname | jget_row; exact Hn0].
  - intros _; split; jget_row.
  - intros Hne; contradiction Hne; reflexivity.
Qed.

(** X30. A dataset with a simple dataspace that names no [maxdims] has no
    row: [h5json_to_db] raises KeyError on it, where for an attribute it
    stores the dimensions as [maxdims]. *)
Theorem h5json_to_db_maxdims
  (oinfo : list (string * json)) (sh : list (string * json)) (name ds : json)
  (n : nat) :
  jget "name" oinfo = Some name ->
  jget "shape" oinfo = Some (JObj sh) ->
  jget "class" sh = Some (JStr "H5S_SIMPLE") ->
  jget "dims" sh = Some ds -> py_len ds = Ok n ->
  jget "maxdims" sh = None ->
  h5json_to_db dumps "dataset" (JObj oinfo) = Raise KeyError "maxdims" /\
  forall value datatype row,
    jget "value" oinfo = Some value -> jget "type" oinfo = Some datatype ->
    h5json_to_db dumps "attribute" (JObj oinfo) = Ok row ->
    jget "maxdims" row = Some (JStr (dumps (JObj [("maxdims", ds)]))).
Proof.
  intros Hname Hshape Hcls Hdims Hlen Hmax; unfold h5json_to_db.
  cbn [py_getitem py_get py_contains bind String.eqb Ascii.eqb Bool.eqb].
  rewrite Hname; cbn [bind].
  split.
  - destruct (jget "description" oinfo); cbn [bind];
      (destruct (jget "uuid" oinfo); cbn [bind];
       rewrite Hshape; cbn [bind py_getitem]; rewrite Hcls; cbn [bind];
       rewrite (proj2 (py_eq_str _ _) eq_refl), Hdims; cbn [bind];
       rewrite Hlen; cbn [bind]; rewrite Hmax; reflexivity).
  - intros value datatype row Hvalue Htype.
    destruct (jget "description" oinfo); cbn [bind];
      (destruct (jget "uuid" oinfo); cbn [bind];
       rewrite Hshape; cbn [bind py_getitem py_get]; rewrite Hcls; cbn [bind];
       rewrite (proj2 (py_eq_str _ _) eq_refl), Hdims; cbn [bind];
       rewrite Hlen; cbn [bind]; rewrite Hmax; cbn [bind];
       rewrite Hvalue, Htype; cbn [bind];
       intros H; injection H as <-; jget_row).
Qed.

End Rows.

Lemma h5json_to_db_rank_witness :
  In "dataset" ["attribute"; "dataset"; "group"] /\
  jget "type" [("name", JStr "d"); ("description", JStr ""); ("rank", JInt 1);
               ("layout", JStr "H5D_CONTIGUOUS"); ("misc", JStr "datatype");
               ("dims", JStr "dims"); ("maxdims", JStr "maxdims");
               ("data", JStr "value"); ("type", JStr "dataset")]
  = Some (JStr "dataset").
Proof.
  pose proof (h5json_to_db_rank sample_dumps "dataset"
                (plain_dataset [("class", JStr "H5S_SIMPLE");
                                ("dims", JList [JInt 2]);
                                ("maxdims", JList [JInt 2])])
                _ eq_refl) as H.
  destruct H as [H1 [H2 _]]; split; [exact H1 | exact H2].
Defined.

Lemma h5json_to_db_maxdims_witness :
  h5json_to_db sample_dumps "dataset"
    (plain_dataset [("class", JStr "H5S_SIMPLE"); ("dims", JList [JInt 2])])
  = Raise KeyError "maxdims".
Proof.
  apply (h5json_to_db_maxdims sample_dumps _
           [("class", JStr "H5S_SIMPLE"); ("dims", JList [JInt 2])]
           (JStr "d") (JList [JInt 2]) 1%nat); reflexivity.
Defined.
